(** * Agentic-Research-Lab: agents and the sequential workflow orchestrator

    A shallow embedding of [src/agents.py] and [src/multi_agent_system.py].

    Modelling conventions.
    - A Python [str] is a Rocq [string]; each [ascii] is one code point
      below 256, so [len], [strip], [lower] and [isdigit] are those of
      Python on texts over that range.
    - A Python [dict] with a fixed set of keys is a record of [option]
      fields: [None] is an absent key, [d.get(k, default)] is [get_or].
    - The retrieval pipeline and the chat model are external.  They are
      functions of the history of calls made so far, so they may answer
      differently on every call, and they may raise.
    - What a [raise] carries is a [BaseException]: an instance of
      [Exception], which the handlers of the code catch, or of another
      subclass ([KeyboardInterrupt], [SystemExit]), which they let pass.
      Code that can raise lives in an error monad, code that also calls a
      collaborator in a state-and-error monad whose state survives a
      raise, as a mutated Python object does.
    - The console is external too: [print] may raise.  The orchestrator
      is embedded twice, as the call with [verbose=False], which prints
      nothing, and in full ([Verbose]); the two are proved to agree when
      nothing is printed or every [print] returns.
    - Logging is not modelled, nor is the sampling temperature, which
      only parameterises the external chat model. *)

From Stdlib Require Import String Ascii List Bool Arith NArith Lia
  DecimalString.
From ExtLib Require Import Structures.Monad Structures.MonadExc.
Import ListNotations.
Import MonadNotation.

Open Scope string_scope.
Open Scope nat_scope.
Open Scope list_scope.
Open Scope monad_scope.

(* ------------------------------------------------------------------ *)
(** ** Exceptions and the error monad *)

Inductive Exception : Type :=
  | IndexError (msg : string)
  | KeyError (key : string)
  | Failure (description : string).

(** [str(e)]; a [KeyError] prints its key between quotes (the key is a
    plain word here: [answer]) *)
Definition str_exc (e : Exception) : string :=
  match e with
  | IndexError msg => msg
  | KeyError key => ("'" ++ key ++ "'")%string
  | Failure description => description
  end.

(** What a [raise] carries: an instance of [Exception], or an instance
    of another subclass of [BaseException] ([KeyboardInterrupt],
    [SystemExit], any other), which a handler [except Exception] lets
    pass. *)
Inductive BaseException : Type :=
  | Exc (e : Exception)
  | KeyboardInterrupt
  | SystemExit (code : string)
  | Other (description : string).

(** An [Exception] is a [BaseException]. *)
Coercion Exc : Exception >-> BaseException.

(** [isinstance(b, Exception)] *)
Definition is_exception (b : BaseException) : bool :=
  match b with Exc _ => true | _ => false end.

Definition E (A : Type) : Type := (BaseException + A)%type.

Arguments inl {A B} & _.
Arguments pair {A B} & _ _.

#[global] Instance Monad_E : Monad E :=
  {| ret := fun _ a => inr a
   ; bind := fun _ _ c k => match c with inl b => inl b | inr a => k a end |}.

(** [raise e] and [try: c except Exception as e: h e] *)
#[global] Instance MonadExc_E : MonadExc Exception E :=
  {| raise := fun _ e => inl (Exc e)
   ; catch := fun _ c h =>
       match c with
       | inl (Exc e) => h e
       | inl b => inl b
       | inr a => inr a
       end |}.

(** [a and b], [a or b] on conditions that may raise: [b] is evaluated
    only when [a] does not decide the result. *)
Definition andE (a b : E bool) : E bool :=
  x <- a ;; if (x : bool) then b else ret false.
Definition orE (a b : E bool) : E bool :=
  x <- a ;; if (x : bool) then ret true else b.
Definition notE (a : E bool) : E bool :=
  x <- a ;; ret (negb x).

Infix "&&&" := andE (at level 40, left associativity).
Infix "|||" := orE (at level 50, left associativity).

(* ------------------------------------------------------------------ *)
(** ** Python string operations *)

Module Py.

Definition code (c : ascii) : nat := nat_of_ascii c.

Definition between (lo hi n : nat) : bool := (lo <=? n) && (n <=? hi).

(** [c.isspace()], the characters removed by [str.strip()] *)
Definition isspace (c : ascii) : bool :=
  let n := code c in
  between 9 13 n || between 28 32 n || (n =? 133) || (n =? 160).

(** [c.isdigit()] *)
Definition isdigit (c : ascii) : bool :=
  let n := code c in
  between 48 57 n || (n =? 178) || (n =? 179) || (n =? 185).

Definition lower_char (c : ascii) : ascii :=
  let n := code c in
  if between 65 90 n || (between 192 222 n && negb (n =? 215))
  then ascii_of_nat (n + 32) else c.

(** [s.lower()] *)
Fixpoint lower (s : string) : string :=
  match s with
  | EmptyString => EmptyString
  | String c r => String (lower_char c) (lower r)
  end.

(** truth value of a string: non-empty *)
Definition truthy (s : string) : bool :=
  match s with EmptyString => false | String _ _ => true end.

Fixpoint lstrip (s : string) : string :=
  match s with
  | EmptyString => EmptyString
  | String c r => if isspace c then lstrip r else s
  end.

Fixpoint rstrip (s : string) : string :=
  match s with
  | EmptyString => EmptyString
  | String c r =>
      match rstrip r with
      | EmptyString => if isspace c then EmptyString else String c EmptyString
      | r' => String c r'
      end
  end.

(** [s.strip()] *)
Definition strip (s : string) : string := rstrip (lstrip s).

(** [s.startswith(p)] *)
Fixpoint startswith (p s : string) : bool :=
  match p, s with
  | EmptyString, _ => true
  | String _ _, EmptyString => false
  | String a p', String b s' => Ascii.eqb a b && startswith p' s'
  end.

(** [needle in hay] *)
Fixpoint contains (needle hay : string) : bool :=
  startswith needle hay ||
  match hay with
  | EmptyString => false
  | String _ r => contains needle r
  end.

(** [s.split(sep)] for a separator of one character *)
Fixpoint split (sep : ascii) (s : string) : list string :=
  match s with
  | EmptyString => [EmptyString]
  | String c r =>
      if Ascii.eqb c sep then EmptyString :: split sep r
      else match split sep r with
           | [] => [String c EmptyString]
           | h :: t => String c h :: t
           end
  end.

(** [sep.join(l)] *)
Definition join (sep : string) (l : list string) : string :=
  String.concat sep l.

(** [s[0]] *)
Definition getitem0 (s : string) : E ascii :=
  match s with
  | EmptyString => raise (IndexError "string index out of range")
  | String c _ => ret c
  end.

(** [s[:n]] *)
Definition slice_to (n : nat) (s : string) : string := substring 0 n s.

(** [chr(10)] *)
Definition newline : ascii := ascii_of_nat 10.
Definition nl : string := String newline EmptyString.

(** [s * n] *)
Fixpoint times (s : string) (n : nat) : string :=
  match n with
  | 0 => EmptyString
  | S n => append s (times s n)
  end.

(** [str(n)] for a natural number: its decimal digits *)
Definition str_int (n : nat) : string :=
  NilZero.string_of_uint (Nat.to_uint n).

End Py.

Import Py.

(** A list comprehension [[f x for x in l if p x]] whose condition may
    raise. *)
Fixpoint comprehension {A B : Type} (f : A -> B) (p : A -> E bool)
  (l : list A) : E (list B) :=
  match l with
  | [] => ret []
  | x :: rest =>
      keep <- p x ;;
      out <- comprehension f p rest ;;
      ret (if (keep : bool) then f x :: out else out)
  end.

(** [d.get(k, default)] on an optional field *)
Definition get_or {A : Type} (field : option A) (default : A) : A :=
  match field with Some v => v | None => default end.

(** [d.get(k) != v] for a string field *)
Definition differs (field : option string) (v : string) : bool :=
  match field with Some s => negb (String.eqb s v) | None => true end.

(* ------------------------------------------------------------------ *)
(** ** Data model *)

(** A citation; [page] holds the text that [str] gives for the location. *)
Record Citation : Type :=
  { source : option string; page : option string }.

(** What the retrieval pipeline answers: [{answer, sources}]. *)
Module Context.
Record t : Type :=
  { answer : option string; sources : option (list Citation) }.
End Context.

Module ResearcherResult.
Record t : Type :=
  { agent : option string
  ; status : option string
  ; message : option string
  ; analysis : option string
  ; findings : option (list string)
  ; sources : option (list Citation)
  ; num_sources : option nat }.
(** [{}] *)
Definition empty : t := Build_t None None None None None None None.
End ResearcherResult.

Module ReviewerResult.
Record t : Type :=
  { agent : option string
  ; status : option string
  ; message : option string
  ; critique : option string
  ; researcher_analysis : option string
  ; strengths : option (list string)
  ; weaknesses : option (list string)
  ; sources : option (list Citation) }.
Definition empty : t := Build_t None None None None None None None None.
End ReviewerResult.

Module SynthesizerResult.
Record t : Type :=
  { agent : option string
  ; status : option string
  ; message : option string
  ; synthesis : option string
  ; hypotheses : option (list string)
  ; insights : option (list string)
  ; researcher_analysis : option string
  ; critique : option string }.
Definition empty : t := Build_t None None None None None None None None.
End SynthesizerResult.

Module QuestionerResult.
Record t : Type :=
  { agent : option string
  ; status : option string
  ; message : option string
  ; gap_analysis : option string
  ; gaps : option (list string)
  ; questions : option (list string)
  ; synthesis : option string
  ; hypotheses : option (list string) }.
Definition empty : t := Build_t None None None None None None None None.
End QuestionerResult.

Module FormatterResult.
Record t : Type :=
  { agent : option string
  ; status : option string
  ; message : option string
  ; report : option string
  ; query : option string
  ; researcher : option ResearcherResult.t
  ; reviewer : option ReviewerResult.t
  ; synthesizer : option SynthesizerResult.t
  ; questioner : option QuestionerResult.t
  ; sources : option (list Citation) }.
Definition empty : t :=
  Build_t None None None None None None None None None None.
End FormatterResult.

(** One line of the execution log. *)
Module LogEntry.
Record t : Type :=
  { step : nat; agent : string; status : string }.
End LogEntry.

Module WorkflowData.
Record t : Type :=
  { query : string
  ; workflow : list LogEntry.t
  ; researcher : ResearcherResult.t
  ; reviewer : ReviewerResult.t
  ; synthesizer : SynthesizerResult.t
  ; questioner : QuestionerResult.t
  ; formatter : FormatterResult.t
  ; status : string
  ; error : option string
  ; report : option string }.

(** item assignment [workflow_data[k] = v] and [workflow.append] *)
Definition set_researcher v (d : t) : t :=
  let 'Build_t q w _ b c k f s e r := d in Build_t q w v b c k f s e r.
Definition set_reviewer v (d : t) : t :=
  let 'Build_t q w a _ c k f s e r := d in Build_t q w a v c k f s e r.
Definition set_synthesizer v (d : t) : t :=
  let 'Build_t q w a b _ k f s e r := d in Build_t q w a b v k f s e r.
Definition set_questioner v (d : t) : t :=
  let 'Build_t q w a b c _ f s e r := d in Build_t q w a b c v f s e r.
Definition set_formatter v (d : t) : t :=
  let 'Build_t q w a b c k _ s e r := d in Build_t q w a b c k v s e r.
Definition set_status v (d : t) : t :=
  let 'Build_t q w a b c k f _ e r := d in Build_t q w a b c k f v e r.
Definition set_error v (d : t) : t :=
  let 'Build_t q w a b c k f s _ r := d in Build_t q w a b c k f s (Some v) r.
Definition set_report v (d : t) : t :=
  let 'Build_t q w a b c k f s e _ := d in Build_t q w a b c k f s e (Some v).
Definition workflow_append v (d : t) : t :=
  let 'Build_t q w a b c k f s e r := d in
  Build_t q (w ++ [v]) a b c k f s e r.
End WorkflowData.

(* ------------------------------------------------------------------ *)
(** ** Collaborators and the monad of agent code *)

(** A call on a collaborator. *)
Inductive event : Type :=
  | Retrieve (query : string) (k : nat)
  | Invoke (system_prompt user_prompt : string).

Definition history : Type := list event.

(** [rag_pipeline.answer_question(query, k=k, return_sources=True)], given
    the calls made before it. *)
Record RAGPipeline : Type :=
  { answer_question : history -> string -> nat -> E Context.t }.

(** [llm.invoke([SystemMessage(...), HumanMessage(...)])], given the calls
    made before it; the text is [response.content], or [str(response)]
    when the reply has no content attribute. *)
Record ChatModel : Type :=
  { invoke : history -> string -> string -> E string }.

(** State [S] and exceptions; the state reached before a raise is kept. *)
Definition M (S A : Type) : Type := S -> E A * S.

#[global] Instance Monad_M {S : Type} : Monad (M S) :=
  {| ret := fun _ a s => (inr a, s)
   ; bind := fun _ _ c k s =>
       match c s with
       | (inl b, s') => (inl b, s')
       | (inr a, s') => k a s'
       end |}.

#[global] Instance MonadExc_M {S : Type} : MonadExc Exception (M S) :=
  {| raise := fun _ e s => (inl (Exc e), s)
   ; catch := fun _ c h s =>
       match c s with
       | (inl (Exc e), s') => h e s'
       | (inl b, s') => (inl b, s')
       | (inr a, s') => (inr a, s')
       end |}.

Definition liftE {S A : Type} (c : E A) : M S A := fun s => (c, s).

Definition call_answer_question (p : RAGPipeline) (query : string) (k : nat)
  : M history Context.t :=
  fun h => (answer_question p h query k, h ++ [Retrieve query k]).

Definition call_invoke (m : ChatModel) (system_prompt user_prompt : string)
  : M history string :=
  fun h => (invoke m h system_prompt user_prompt,
            h ++ [Invoke system_prompt user_prompt]).

(** The console, as [print] uses it.  Given the texts handed to [print]
    before, [write] tells whether the text is written or the call raises
    (a stream whose encoding lacks a character of the text, a closed
    stream, an interrupt).  A text is here the list of its code points:
    the messages of the orchestrator hold three symbols beyond code point
    255. *)
Module Console.

Definition text : Type := list N.

Definition plain (s : string) : text :=
  map N_of_ascii (list_ascii_of_string s).

(** U+2192, U+2713 and U+274C *)
Definition arrow : N := 8594.
Definition check_mark : N := 10003.
Definition cross_mark : N := 10060.

Record t : Type :=
  { write : list text -> text -> E unit }.

End Console.

(* ------------------------------------------------------------------ *)
(** ** Agents *)

Module BaseAgent.

Record t : Type :=
  { name : string
  ; role : string
  ; rag_pipeline : RAGPipeline
  ; max_retrieval_docs : nat
  ; llm : ChatModel }.

Definition retrieve_context (self : t) (query : string) (k : option nat)
  : M history Context.t :=
  let k := match k with None => max_retrieval_docs self | Some k => k end in
  result <- call_answer_question (rag_pipeline self) query k ;;
  ret result.

End BaseAgent.

Module ResearcherAgent.
Import BaseAgent ResearcherResult.

Definition __init__ (rag_pipeline : RAGPipeline) (llm : ChatModel)
  : BaseAgent.t :=
  {| name := "RESEARCHER"
   ; role := "Analyzes research papers, extracts key findings, methodologies, and conclusions"
   ; rag_pipeline := rag_pipeline
   ; max_retrieval_docs := 10
   ; llm := llm |}.

(** [input_data] is the query text or a dictionary that may hold it. *)
Inductive Input : Type :=
| Text (s : string)
| Dict (query : option string).

(** the condition of the list comprehension of [_extract_findings] *)
Definition is_finding (line : string) : E bool :=
  ret (truthy (strip line)) &&&
    (ret (startswith "-" (strip line))
     ||| (c <- getitem0 (strip line) ;; ret (isdigit c))).

Definition _extract_findings (analysis : string) : E (list string) :=
  let lines := split newline analysis in
  findings <- comprehension strip is_finding lines ;;
  ret (firstn 10 findings).

Definition system_prompt : string :=
"You are a meticulous research analyst. Your task is to analyze research papers and extract key findings, methodologies, and conclusions.

CRITICAL RULES:
1. ONLY use information from the provided context - DO NOT hallucinate or invent facts
2. Cite specific sources for every finding you mention
3. Extract key methodologies, results, and conclusions
4. Identify the main contributions of each paper
5. Note any limitations or gaps mentioned in the papers
6. Be precise and factual - avoid speculation

Format your analysis clearly with sections for:
- Key Findings
- Methodologies
- Conclusions
- Limitations
".

Definition user_prompt (query context_text : string) (sources : list Citation) : string :=
  ("Analyze the following research papers related to: "
   ++ query
   ++ "

CONTEXT FROM DOCUMENTS:
"
   ++ context_text
   ++ "

SOURCES:
"
   ++ join nl (map (fun s => "- " ++ get_or (source s) "Unknown" ++ " (Page: " ++ get_or (page s) "N/A" ++ ")") (firstn 5 sources))
   ++ "

Please provide a detailed analysis with:
1. Key findings from the papers
2. Methodologies used
3. Main conclusions
4. Any limitations or gaps mentioned

Remember: Only use information from the provided context. Cite sources for each finding.")%string.

Definition process (self : BaseAgent.t) (input_data : Input)
  (query : string) : M history ResearcherResult.t :=
  let retrieval_query :=
    match input_data with
    | Text _ => query
    | Dict q => get_or q query
    end in
  context_result <- retrieve_context self retrieval_query (Some 10) ;;
  (* [if not context_result.get('sources')]: absent or empty *)
  match get_or (Context.sources context_result) [] with
  | [] =>
      ret {| agent := Some (name self)
           ; status := Some "error"
           ; message := Some "No relevant documents found"
           ; analysis := None
           ; findings := Some []
           ; sources := Some []
           ; num_sources := None |}
  | _ :: _ =>
      context_text <-
        match Context.answer context_result with
        | Some a => ret a
        | None => raise (KeyError "answer")
        end ;;
      let sources := get_or (Context.sources context_result) [] in
      catch
        (analysis <- call_invoke (llm self) system_prompt
                       (user_prompt query context_text sources) ;;
         findings <- liftE (_extract_findings analysis) ;;
         ret {| agent := Some (name self)
              ; status := Some "success"
              ; message := None
              ; analysis := Some analysis
              ; findings := Some findings
              ; sources := Some sources
              ; num_sources := Some (List.length sources) |})
        (fun e =>
           ret {| agent := Some (name self)
                ; status := Some "error"
                ; message := Some (str_exc e)
                ; analysis := None
                ; findings := Some []
                ; sources := Some []
                ; num_sources := None |})
  end.

End ResearcherAgent.

Module ReviewerAgent.
Import BaseAgent ReviewerResult.

Definition __init__ (rag_pipeline : RAGPipeline) (llm : ChatModel)
  : BaseAgent.t :=
  {| name := "REVIEWER"
   ; role := "Critiques research findings, identifies strengths, weaknesses, and potential biases"
   ; rag_pipeline := rag_pipeline
   ; max_retrieval_docs := 8
   ; llm := llm |}.

(** the test that opens the section: the line names the section and
    looks like a list header *)
Definition opens_section (section line : string) : E bool :=
  ret (contains (lower section) (lower line)) &&&
    (if truthy (strip line)
     then ret (contains "-" line)
          ||| (c <- getitem0 line ;; ret (isdigit c))
     else ret false).

(** the test that collects a line: a bullet or numbered line *)
Definition is_item (line : string) : E bool :=
  ret (truthy (strip line)) &&&
    (ret (startswith "-" (strip line))
     ||| (ret (truthy (strip line))
          &&& (c <- getitem0 (strip line) ;; ret (isdigit c)))).

(** the test that ends the section: a long line that is no list line *)
Definition closes_section (line : string) : E bool :=
  ret (truthy (strip line))
  &&& notE (c <- getitem0 (strip line) ;; ret (isdigit c))
  &&& ret (negb (contains "-" line))
  &&& ret (50 <? String.length (strip line)).

(** the [for] loop of [_extract_section]; returning before the end of
    [lines] is the [break] *)
Fixpoint section_loop (section : string) (lines : list string)
  (in_section : bool) (section_lines : list string) : E (list string) :=
  match lines with
  | [] => ret section_lines
  | line :: rest =>
      opens <- opens_section section line ;;
      let in_section := if (opens : bool) then true else in_section in
      if in_section then
        item <- is_item line ;;
        if (item : bool)
        then section_loop section rest in_section
               (section_lines ++ [strip line])
        else
          closes <- closes_section line ;;
          if (closes : bool) then ret section_lines
          else section_loop section rest in_section section_lines
      else section_loop section rest in_section section_lines
  end.

Definition _extract_section (text section : string) : E (list string) :=
  let lines := split newline text in
  section_lines <- section_loop section lines false [] ;;
  ret (firstn 5 section_lines).

Definition critique_query (query : string) : string :=
  ("methodology limitations weaknesses "
   ++ query)%string.

Definition system_prompt : string :=
"You are a critical research reviewer. Your task is to evaluate research findings, identify strengths, weaknesses, and potential biases.

CRITICAL RULES:
1. Base your critique ONLY on the provided context and findings
2. Identify methodological strengths and weaknesses
3. Look for potential biases or limitations
4. Check for consistency and logical coherence
5. Identify any gaps in the analysis
6. Be constructive and specific - cite sources when possible
7. DO NOT make up criticisms that aren't supported by the context

Format your critique with:
- Strengths
- Weaknesses
- Potential Biases
- Gaps or Missing Information
".

Definition user_prompt (query researcher_analysis : string) (findings : list string)
  (context_result : Context.t) : string :=
  ("Review and critique the following research analysis related to: "
   ++ query
   ++ "

RESEARCHER'S ANALYSIS:
"
   ++ researcher_analysis
   ++ "

KEY FINDINGS:
"
   ++ join nl (map (fun f => "- " ++ f) (firstn 10 findings))
   ++ "

ADDITIONAL CONTEXT:
"
   ++ get_or (Context.answer context_result) "No additional context available"
   ++ "

Please provide a thorough critique focusing on:
1. Strengths of the research and analysis
2. Weaknesses or limitations
3. Potential biases or methodological concerns
4. Gaps in the analysis or missing information
5. Consistency and logical coherence

Remember: Base your critique on the actual content. Do not invent criticisms.")%string.

Definition process (self : BaseAgent.t) (input_data : ResearcherResult.t)
  (query : string) : M history ReviewerResult.t :=
  if differs (ResearcherResult.status input_data) "success" then
    ret {| agent := Some (name self)
         ; status := Some "error"
         ; message := Some "Invalid input from previous agent"
         ; critique := Some ""
         ; researcher_analysis := None
         ; strengths := None
         ; weaknesses := None
         ; sources := None |}
  else
    let researcher_analysis :=
      get_or (ResearcherResult.analysis input_data) "" in
    let findings := get_or (ResearcherResult.findings input_data) [] in
    let sources := get_or (ResearcherResult.sources input_data) [] in
    context_result <- retrieve_context self (critique_query query) (Some 6) ;;
    catch
      (critique <- call_invoke (llm self) system_prompt
                     (user_prompt query researcher_analysis findings
                        context_result) ;;
       strengths <- liftE (_extract_section critique "strengths") ;;
       weaknesses <- liftE (_extract_section critique "weaknesses") ;;
       ret {| agent := Some (name self)
            ; status := Some "success"
            ; message := None
            ; critique := Some critique
            ; researcher_analysis := Some researcher_analysis
            ; strengths := Some strengths
            ; weaknesses := Some weaknesses
            ; sources :=
                Some (sources ++ get_or (Context.sources context_result) [])
            |})
      (fun e =>
         ret {| agent := Some (name self)
              ; status := Some "error"
              ; message := Some (str_exc e)
              ; critique := Some ""
              ; researcher_analysis := None
              ; strengths := None
              ; weaknesses := None
              ; sources := None |}).

End ReviewerAgent.

Module SynthesizerAgent.
Import BaseAgent SynthesizerResult.

Definition __init__ (rag_pipeline : RAGPipeline) (llm : ChatModel)
  : BaseAgent.t :=
  {| name := "SYNTHESIZER"
   ; role := "Synthesizes findings and critiques to generate new insights and testable hypotheses"
   ; rag_pipeline := rag_pipeline
   ; max_retrieval_docs := 8
   ; llm := llm |}.

Definition _extract_hypotheses (synthesis : string) : list string :=
  let lines := split newline synthesis in
  let hypotheses :=
    fold_left
      (fun hypotheses line =>
         if contains "hypothesis" (lower line) || contains "h1" (lower line)
            || contains "h2" (lower line) || contains "h3" (lower line)
         then
           if truthy (strip line) && (20 <? String.length (strip line))
           then hypotheses ++ [strip line]
           else hypotheses
         else hypotheses)
      lines [] in
  firstn 5 hypotheses.

Definition _extract_insights (synthesis : string) : list string :=
  let lines := split newline synthesis in
  let insights :=
    fold_left
      (fun insights line =>
         if (contains "insight" (lower line)
             || contains "pattern" (lower line)
             || contains "relationship" (lower line))
            && truthy (strip line)
         then
           if 30 <? String.length (strip line)
           then insights ++ [strip line]
           else insights
         else insights)
      lines [] in
  firstn 5 insights.

Definition synthesis_query (query : string) : string :=
  ("hypotheses research questions future work "
   ++ query)%string.

Definition system_prompt : string :=
"You are a research synthesizer. Your task is to combine findings and critiques to generate new insights and testable hypotheses.

CRITICAL RULES:
1. Base hypotheses ONLY on the provided findings and context
2. Generate testable, specific hypotheses
3. Connect findings from different sources
4. Identify patterns and relationships
5. Propose actionable research directions
6. DO NOT create hypotheses that aren't supported by the evidence
7. Clearly state what evidence supports each hypothesis

Format your synthesis with:
- Key Insights
- Patterns and Relationships
- Testable Hypotheses
- Research Directions
".

Definition user_prompt (query researcher_analysis critique : string)
  (strengths weaknesses : list string) (context_result : Context.t) : string :=
  ("Synthesize the following research analysis and critique related to: "
   ++ query
   ++ "

RESEARCHER'S FINDINGS:
"
   ++ researcher_analysis
   ++ "

REVIEWER'S CRITIQUE:
"
   ++ critique
   ++ "

STRENGTHS IDENTIFIED:
"
   ++ join nl (map (fun s => "- " ++ s) (firstn 5 strengths))
   ++ "

WEAKNESSES IDENTIFIED:
"
   ++ join nl (map (fun w => "- " ++ w) (firstn 5 weaknesses))
   ++ "

ADDITIONAL CONTEXT:
"
   ++ get_or (Context.answer context_result) "No additional context available"
   ++ "

Please synthesize this information to:
1. Identify key insights and patterns
2. Connect findings from different sources
3. Generate 3-5 testable hypotheses
4. Propose specific research directions
5. Explain the evidence base for each hypothesis

Remember: Hypotheses must be grounded in the actual findings. Be specific and testable.")%string.

Definition process (self : BaseAgent.t) (input_data : ReviewerResult.t)
  (query : string) : M history SynthesizerResult.t :=
  if differs (ReviewerResult.status input_data) "success" then
    ret {| agent := Some (name self)
         ; status := Some "error"
         ; message := Some "Invalid input from previous agent"
         ; synthesis := Some ""
         ; hypotheses := Some []
         ; insights := None
         ; researcher_analysis := None
         ; critique := None |}
  else
    let researcher_analysis :=
      get_or (ReviewerResult.researcher_analysis input_data) "" in
    let critique := get_or (ReviewerResult.critique input_data) "" in
    let strengths := get_or (ReviewerResult.strengths input_data) [] in
    let weaknesses := get_or (ReviewerResult.weaknesses input_data) [] in
    context_result <- retrieve_context self (synthesis_query query) (Some 6) ;;
    catch
      (synthesis <- call_invoke (llm self) system_prompt
                      (user_prompt query researcher_analysis critique
                         strengths weaknesses context_result) ;;
       ret {| agent := Some (name self)
            ; status := Some "success"
            ; message := None
            ; synthesis := Some synthesis
            ; hypotheses := Some (_extract_hypotheses synthesis)
            ; insights := Some (_extract_insights synthesis)
            ; researcher_analysis := Some researcher_analysis
            ; critique := Some critique |})
      (fun e =>
         ret {| agent := Some (name self)
              ; status := Some "error"
              ; message := Some (str_exc e)
              ; synthesis := Some ""
              ; hypotheses := Some []
              ; insights := None
              ; researcher_analysis := None
              ; critique := None |}).

End SynthesizerAgent.

Module QuestionerAgent.
Import BaseAgent QuestionerResult.

Definition __init__ (rag_pipeline : RAGPipeline) (llm : ChatModel)
  : BaseAgent.t :=
  {| name := "QUESTIONER"
   ; role := "Identifies research gaps and generates critical follow-up questions"
   ; rag_pipeline := rag_pipeline
   ; max_retrieval_docs := 6
   ; llm := llm |}.

Definition _extract_gaps (text : string) : list string :=
  let lines := split newline text in
  let gaps :=
    fold_left
      (fun gaps line =>
         if contains "gap" (lower line) && truthy (strip line)
            && (20 <? String.length (strip line))
         then gaps ++ [strip line]
         else gaps)
      lines [] in
  firstn 5 gaps.

Definition _extract_questions (text : string) : list string :=
  let lines := split newline text in
  let questions :=
    fold_left
      (fun questions line =>
         if contains "?" line && truthy (strip line)
            && (10 <? String.length (strip line))
         then questions ++ [strip line]
         else questions)
      lines [] in
  firstn 7 questions.

Definition gap_query (query : string) : string :=
  ("research gaps limitations future work "
   ++ query)%string.

Definition system_prompt : string :=
"You are a research questioner. Your task is to identify knowledge gaps and generate critical follow-up questions.

CRITICAL RULES:
1. Identify gaps based on the actual analysis and synthesis provided
2. Generate specific, answerable research questions
3. Focus on gaps that are evident from the research
4. Prioritize questions that would advance the field
5. Ensure questions are grounded in the existing research
6. DO NOT create questions about topics not related to the research

Format your output with:
- Knowledge Gaps
- Critical Questions
- Research Priorities
".

Definition user_prompt (query synthesis : string) (hypotheses insights : list string)
  (researcher_analysis critique : string) (context_result : Context.t) : string :=
  ("Identify gaps and generate questions based on the following research analysis related to: "
   ++ query
   ++ "

SYNTHESIS AND HYPOTHESES:
"
   ++ synthesis
   ++ "

HYPOTHESES GENERATED:
"
   ++ join nl (map (fun h => "- " ++ h) (firstn 5 hypotheses))
   ++ "

KEY INSIGHTS:
"
   ++ join nl (map (fun i => "- " ++ i) (firstn 5 insights))
   ++ "

RESEARCHER'S ANALYSIS:
"
   ++ slice_to 500 researcher_analysis
   ++ "...

REVIEWER'S CRITIQUE:
"
   ++ slice_to 500 critique
   ++ "...

ADDITIONAL CONTEXT:
"
   ++ get_or (Context.answer context_result) "No additional context available"
   ++ "

Please identify:
1. Knowledge gaps in the current research
2. Unanswered questions that emerged
3. Critical follow-up questions (5-7 questions)
4. Research priorities for future work
5. Areas needing further investigation

Remember: Questions should be specific and answerable. Base gaps on actual limitations identified.")%string.

Definition process (self : BaseAgent.t) (input_data : SynthesizerResult.t)
  (query : string) : M history QuestionerResult.t :=
  if differs (SynthesizerResult.status input_data) "success" then
    ret {| agent := Some (name self)
         ; status := Some "error"
         ; message := Some "Invalid input from previous agent"
         ; gap_analysis := None
         ; gaps := Some []
         ; questions := Some []
         ; synthesis := None
         ; hypotheses := None |}
  else
    let synthesis := get_or (SynthesizerResult.synthesis input_data) "" in
    let hypotheses := get_or (SynthesizerResult.hypotheses input_data) [] in
    let insights := get_or (SynthesizerResult.insights input_data) [] in
    let researcher_analysis :=
      get_or (SynthesizerResult.researcher_analysis input_data) "" in
    let critique := get_or (SynthesizerResult.critique input_data) "" in
    context_result <- retrieve_context self (gap_query query) (Some 5) ;;
    catch
      (gap_analysis <- call_invoke (llm self) system_prompt
                         (user_prompt query synthesis hypotheses insights
                            researcher_analysis critique context_result) ;;
       ret {| agent := Some (name self)
            ; status := Some "success"
            ; message := None
            ; gap_analysis := Some gap_analysis
            ; gaps := Some (_extract_gaps gap_analysis)
            ; questions := Some (_extract_questions gap_analysis)
            ; synthesis := Some synthesis
            ; hypotheses := Some hypotheses |})
      (fun e =>
         ret {| agent := Some (name self)
              ; status := Some "error"
              ; message := Some (str_exc e)
              ; gap_analysis := None
              ; gaps := Some []
              ; questions := Some []
              ; synthesis := None
              ; hypotheses := None |}).

End QuestionerAgent.

Module FormatterAgent.
Import BaseAgent FormatterResult.

Definition __init__ (rag_pipeline : RAGPipeline) (llm : ChatModel)
  : BaseAgent.t :=
  {| name := "FORMATTER"
   ; role := "Compiles a comprehensive research report from all agent outputs"
   ; rag_pipeline := rag_pipeline
   ; max_retrieval_docs := 0
   ; llm := llm |}.

Definition system_prompt : string :=
"You are a research report formatter. Your task is to compile a comprehensive, well-structured research report from multiple agent analyses.

CRITICAL RULES:
1. Organize information clearly and logically
2. Include all key findings, critiques, hypotheses, and questions
3. Maintain accuracy - only include information from the provided analyses
4. Use proper citations and source references
5. Create a professional, readable format
6. Include executive summary and detailed sections
7. DO NOT add information that wasn't in the original analyses

Format the report with:
- Executive Summary
- Key Findings
- Critical Analysis
- Synthesized Insights
- Hypotheses
- Research Gaps and Questions
- Conclusions
- Sources
".

Definition user_prompt (query : string) (researcher_data : ResearcherResult.t)
  (reviewer_data : ReviewerResult.t) (synthesizer_data : SynthesizerResult.t)
  (questioner_data : QuestionerResult.t) : string :=
  ("Compile a comprehensive research report for: "
   ++ query
   ++ "

RESEARCHER'S ANALYSIS:
"
   ++ get_or (ResearcherResult.analysis researcher_data) "N/A"
   ++ "

REVIEWER'S CRITIQUE:
"
   ++ get_or (ReviewerResult.critique reviewer_data) "N/A"
   ++ "

SYNTHESIZER'S SYNTHESIS:
"
   ++ get_or (SynthesizerResult.synthesis synthesizer_data) "N/A"
   ++ "

HYPOTHESES:
"
   ++ join nl (map (fun h => "- " ++ h) (get_or (SynthesizerResult.hypotheses synthesizer_data) nil))
   ++ "

QUESTIONER's GAP ANALYSIS:
"
   ++ get_or (QuestionerResult.gap_analysis questioner_data) "N/A"
   ++ "

RESEARCH QUESTIONS:
"
   ++ join nl (map (fun q => "- " ++ q) (get_or (QuestionerResult.questions questioner_data) nil))
   ++ "

SOURCES:
"
   ++ join nl (map (fun s => "- " ++ get_or (source s) "Unknown") (firstn 10 (get_or (ResearcherResult.sources researcher_data) nil)))
   ++ "

Please compile a comprehensive research report with proper structure, citations, and all key information from the analyses above.")%string.

Definition process (self : BaseAgent.t) (input_data : WorkflowData.t)
  (query : string) : M history FormatterResult.t :=
  let researcher_data := WorkflowData.researcher input_data in
  let reviewer_data := WorkflowData.reviewer input_data in
  let synthesizer_data := WorkflowData.synthesizer input_data in
  let questioner_data := WorkflowData.questioner input_data in
  catch
    (report <- call_invoke (llm self) system_prompt
                 (user_prompt query researcher_data reviewer_data
                    synthesizer_data questioner_data) ;;
     ret {| agent := Some (name self)
          ; status := Some "success"
          ; message := None
          ; report := Some report
          ; query := Some query
          ; researcher := Some researcher_data
          ; reviewer := Some reviewer_data
          ; synthesizer := Some synthesizer_data
          ; questioner := Some questioner_data
          ; sources :=
              Some (get_or (ResearcherResult.sources researcher_data) [])
          |})
    (fun e =>
       ret {| agent := Some (name self)
            ; status := Some "error"
            ; message := Some (str_exc e)
            ; report := Some ""
            ; query := None
            ; researcher := None
            ; reviewer := None
            ; synthesizer := None
            ; questioner := None
            ; sources := None |}).

End FormatterAgent.

(* ------------------------------------------------------------------ *)
(** ** Workflow orchestrator *)

Module MultiAgentResearchSystem.
Record t : Type :=
  { rag_pipeline : RAGPipeline
  ; researcher : BaseAgent.t
  ; reviewer : BaseAgent.t
  ; synthesizer : BaseAgent.t
  ; questioner : BaseAgent.t
  ; formatter : BaseAgent.t }.

(** The pipeline is shared; every agent builds a chat model of its own. *)
Definition __init__ (rag_pipeline : RAGPipeline)
  (llm_researcher llm_reviewer llm_synthesizer llm_questioner
     llm_formatter : ChatModel) : t :=
  {| rag_pipeline := rag_pipeline
   ; researcher := ResearcherAgent.__init__ rag_pipeline llm_researcher
   ; reviewer := ReviewerAgent.__init__ rag_pipeline llm_reviewer
   ; synthesizer := SynthesizerAgent.__init__ rag_pipeline llm_synthesizer
   ; questioner := QuestionerAgent.__init__ rag_pipeline llm_questioner
   ; formatter := FormatterAgent.__init__ rag_pipeline llm_formatter |}.

(** The state of one run: the dictionary [workflow_data], mutated in
    place, and the calls made on the collaborators. *)
Definition Run : Type -> Type := M (WorkflowData.t * history).

Definition call {A : Type} (c : M history A) : Run A :=
  fun s => let (r, h) := c (snd s) in (r, (fst s, h)).

Definition update (f : WorkflowData.t -> WorkflowData.t) : Run unit :=
  fun s => (inr tt, (f (fst s), snd s)).

Definition read : Run WorkflowData.t :=
  fun s => (inr (fst s), s).

(** the body of the [try] block *)
Definition stages (self : t) (query : string) : Run unit :=
  researcher_output <-
    call (ResearcherAgent.process (researcher self)
            (ResearcherAgent.Dict (Some query)) query) ;;
  update (WorkflowData.set_researcher researcher_output) ;;
  update (WorkflowData.workflow_append
            {| LogEntry.step := 1; LogEntry.agent := "RESEARCHER"
             ; LogEntry.status :=
                 get_or (ResearcherResult.status researcher_output) "unknown" |}) ;;
  if differs (ResearcherResult.status researcher_output) "success" then
    update (WorkflowData.set_status "error") ;;
    update (WorkflowData.set_error
              ("Researcher agent failed: "
               ++ get_or (ResearcherResult.message researcher_output)
                    "Unknown error"))
  else
  reviewer_output <-
    call (ReviewerAgent.process (reviewer self) researcher_output query) ;;
  update (WorkflowData.set_reviewer reviewer_output) ;;
  update (WorkflowData.workflow_append
            {| LogEntry.step := 2; LogEntry.agent := "REVIEWER"
             ; LogEntry.status :=
                 get_or (ReviewerResult.status reviewer_output) "unknown" |}) ;;
  if differs (ReviewerResult.status reviewer_output) "success" then
    update (WorkflowData.set_status "error") ;;
    update (WorkflowData.set_error
              ("Reviewer agent failed: "
               ++ get_or (ReviewerResult.message reviewer_output)
                    "Unknown error"))
  else
  synthesizer_output <-
    call (SynthesizerAgent.process (synthesizer self) reviewer_output
            query) ;;
  update (WorkflowData.set_synthesizer synthesizer_output) ;;
  update (WorkflowData.workflow_append
            {| LogEntry.step := 3; LogEntry.agent := "SYNTHESIZER"
             ; LogEntry.status :=
                 get_or (SynthesizerResult.status synthesizer_output) "unknown" |}) ;;
  if differs (SynthesizerResult.status synthesizer_output) "success" then
    update (WorkflowData.set_status "error") ;;
    update (WorkflowData.set_error
              ("Synthesizer agent failed: "
               ++ get_or (SynthesizerResult.message synthesizer_output)
                    "Unknown error"))
  else
  questioner_output <-
    call (QuestionerAgent.process (questioner self) synthesizer_output
            query) ;;
  update (WorkflowData.set_questioner questioner_output) ;;
  update (WorkflowData.workflow_append
            {| LogEntry.step := 4; LogEntry.agent := "QUESTIONER"
             ; LogEntry.status :=
                 get_or (QuestionerResult.status questioner_output) "unknown" |}) ;;
  if differs (QuestionerResult.status questioner_output) "success" then
    update (WorkflowData.set_status "error") ;;
    update (WorkflowData.set_error
              ("Questioner agent failed: "
               ++ get_or (QuestionerResult.message questioner_output)
                    "Unknown error"))
  else
  (* hypotheses_count and questions_count only feed the console *)
  workflow_data <- read ;;
  formatter_output <-
    call (FormatterAgent.process (formatter self) workflow_data query) ;;
  update (WorkflowData.set_formatter formatter_output) ;;
  update (WorkflowData.workflow_append
            {| LogEntry.step := 5; LogEntry.agent := "FORMATTER"
             ; LogEntry.status :=
                 get_or (FormatterResult.status formatter_output) "unknown" |}) ;;
  if differs (FormatterResult.status formatter_output) "success" then
    update (WorkflowData.set_status "error") ;;
    update (WorkflowData.set_error
              ("Formatter agent failed: "
               ++ get_or (FormatterResult.message formatter_output)
                    "Unknown error"))
  else
  update (WorkflowData.set_status "success") ;;
  update (WorkflowData.set_report (get_or (FormatterResult.report formatter_output) "")).

(** the [except Exception as e] handler *)
Definition handler (e : Exception) : Run unit :=
  update (WorkflowData.set_status "error") ;;
  update (WorkflowData.set_error (str_exc e)).

(** the dictionary a run starts from *)
Definition initial (query : string) : WorkflowData.t :=
  {| WorkflowData.query := query
   ; WorkflowData.workflow := []
   ; WorkflowData.researcher := ResearcherResult.empty
   ; WorkflowData.reviewer := ReviewerResult.empty
   ; WorkflowData.synthesizer := SynthesizerResult.empty
   ; WorkflowData.questioner := QuestionerResult.empty
   ; WorkflowData.formatter := FormatterResult.empty
   ; WorkflowData.status := "in_progress"
   ; WorkflowData.error := None
   ; WorkflowData.report := None |}.

(** [run_research_workflow(query, verbose=False)] *)
Definition run_research_workflow (self : t) (query : string)
  : M history WorkflowData.t :=
  fun h =>
    let workflow_data := initial query in
    let (r, s) :=
      (catch (stages self query) handler ;; read) (workflow_data, h) in
    (r, snd s).

(** [run_research_workflow(query, verbose)] with its console output. *)
Module Verbose.
(** The state of a run that may print: the dictionary [workflow_data],
    the calls made on the collaborators and the texts handed to
    [print]. *)
Definition Run : Type -> Type :=
  M (WorkflowData.t * history * list Console.text).

Definition call {A : Type} (c : M history A) : Run A :=
  fun s => let (r, h) := c (snd (fst s)) in (r, (fst (fst s), h, snd s)).

Definition update (f : WorkflowData.t -> WorkflowData.t) : Run unit :=
  fun s => (inr tt, (f (fst (fst s)), snd (fst s), snd s)).

Definition read : Run WorkflowData.t :=
  fun s => (inr (fst (fst s)), s).

(** [print(text)] *)
Definition print (out : Console.t) (text : Console.text) : Run unit :=
  fun s => (Console.write out (snd s) text, (fst s, snd s ++ [text])).

(** [if verbose: print(text)] *)
Definition say (out : Console.t) (verbose : bool) (text : Console.text)
  : Run unit :=
  if verbose then print out text else ret tt.

(** the six lines printed before the [try] block *)
Definition banner (out : Console.t) (query : string) (verbose : bool)
  : Run unit :=
  say out verbose (Console.plain (nl ++ times "=" 70)) ;;
  say out verbose (Console.plain "MULTI-AGENT RESEARCH SYSTEM") ;;
  say out verbose (Console.plain (times "=" 70)) ;;
  say out verbose (Console.plain ("Research Query: " ++ query)) ;;
  say out verbose (Console.plain (times "=" 70)) ;;
  say out verbose
    (Console.plain (nl ++ "Workflow: START ")
     ++ Console.arrow :: Console.plain " RESEARCHER "
     ++ Console.arrow :: Console.plain " REVIEWER "
     ++ Console.arrow :: Console.plain " SYNTHESIZER "
     ++ Console.arrow :: Console.plain " QUESTIONER "
     ++ Console.arrow :: Console.plain " FORMATTER "
     ++ Console.arrow :: Console.plain (" END" ++ nl)).

(** the body of the [try] block *)
Definition stages (out : Console.t) (self : t) (query : string)
  (verbose : bool) : Run unit :=
  say out verbose (Console.plain "[1/5] RESEARCHER: Analyzing research papers...") ;;
  researcher_output <-
    call (ResearcherAgent.process (researcher self)
            (ResearcherAgent.Dict (Some query)) query) ;;
  update (WorkflowData.set_researcher researcher_output) ;;
  update (WorkflowData.workflow_append
            {| LogEntry.step := 1; LogEntry.agent := "RESEARCHER"
             ; LogEntry.status :=
                 get_or (ResearcherResult.status researcher_output) "unknown" |}) ;;
  if differs (ResearcherResult.status researcher_output) "success" then
    let error :=
      ("Researcher agent failed: "
       ++ get_or (ResearcherResult.message researcher_output)
            "Unknown error")%string in
    update (WorkflowData.set_status "error") ;;
    update (WorkflowData.set_error error) ;;
    say out verbose (Console.cross_mark :: Console.plain (" ERROR: " ++ error))
  else
  say out verbose
    (Console.check_mark
     :: Console.plain (" RESEARCHER: Found "
               ++ str_int
                    (get_or (ResearcherResult.num_sources researcher_output)
                       0)
               ++ " sources")) ;;
  say out verbose (Console.plain "[2/5] REVIEWER: Critiquing findings...") ;;
  reviewer_output <-
    call (ReviewerAgent.process (reviewer self) researcher_output query) ;;
  update (WorkflowData.set_reviewer reviewer_output) ;;
  update (WorkflowData.workflow_append
            {| LogEntry.step := 2; LogEntry.agent := "REVIEWER"
             ; LogEntry.status :=
                 get_or (ReviewerResult.status reviewer_output) "unknown" |}) ;;
  if differs (ReviewerResult.status reviewer_output) "success" then
    let error :=
      ("Reviewer agent failed: "
       ++ get_or (ReviewerResult.message reviewer_output)
            "Unknown error")%string in
    update (WorkflowData.set_status "error") ;;
    update (WorkflowData.set_error error) ;;
    say out verbose (Console.cross_mark :: Console.plain (" ERROR: " ++ error))
  else
  say out verbose (Console.check_mark :: Console.plain " REVIEWER: Critique complete") ;;
  say out verbose
    (Console.plain "[3/5] SYNTHESIZER: Synthesizing insights and generating hypotheses...") ;;
  synthesizer_output <-
    call (SynthesizerAgent.process (synthesizer self) reviewer_output
            query) ;;
  update (WorkflowData.set_synthesizer synthesizer_output) ;;
  update (WorkflowData.workflow_append
            {| LogEntry.step := 3; LogEntry.agent := "SYNTHESIZER"
             ; LogEntry.status :=
                 get_or (SynthesizerResult.status synthesizer_output) "unknown" |}) ;;
  if differs (SynthesizerResult.status synthesizer_output) "success" then
    let error :=
      ("Synthesizer agent failed: "
       ++ get_or (SynthesizerResult.message synthesizer_output)
            "Unknown error")%string in
    update (WorkflowData.set_status "error") ;;
    update (WorkflowData.set_error error) ;;
    say out verbose (Console.cross_mark :: Console.plain (" ERROR: " ++ error))
  else
  let hypotheses_count :=
    List.length (get_or (SynthesizerResult.hypotheses synthesizer_output) [])
  in
  say out verbose
    (Console.check_mark
     :: Console.plain (" SYNTHESIZER: Generated " ++ str_int hypotheses_count
               ++ " hypotheses")) ;;
  say out verbose
    (Console.plain "[4/5] QUESTIONER: Identifying research gaps and generating questions...") ;;
  questioner_output <-
    call (QuestionerAgent.process (questioner self) synthesizer_output
            query) ;;
  update (WorkflowData.set_questioner questioner_output) ;;
  update (WorkflowData.workflow_append
            {| LogEntry.step := 4; LogEntry.agent := "QUESTIONER"
             ; LogEntry.status :=
                 get_or (QuestionerResult.status questioner_output) "unknown" |}) ;;
  if differs (QuestionerResult.status questioner_output) "success" then
    let error :=
      ("Questioner agent failed: "
       ++ get_or (QuestionerResult.message questioner_output)
            "Unknown error")%string in
    update (WorkflowData.set_status "error") ;;
    update (WorkflowData.set_error error) ;;
    say out verbose (Console.cross_mark :: Console.plain (" ERROR: " ++ error))
  else
  let questions_count :=
    List.length (get_or (QuestionerResult.questions questioner_output) [])
  in
  say out verbose
    (Console.check_mark
     :: Console.plain (" QUESTIONER: Identified " ++ str_int questions_count
               ++ " research questions")) ;;
  say out verbose
    (Console.plain "[5/5] FORMATTER: Compiling final research report...") ;;
  workflow_data <- read ;;
  formatter_output <-
    call (FormatterAgent.process (formatter self) workflow_data query) ;;
  update (WorkflowData.set_formatter formatter_output) ;;
  update (WorkflowData.workflow_append
            {| LogEntry.step := 5; LogEntry.agent := "FORMATTER"
             ; LogEntry.status :=
                 get_or (FormatterResult.status formatter_output) "unknown" |}) ;;
  if differs (FormatterResult.status formatter_output) "success" then
    let error :=
      ("Formatter agent failed: "
       ++ get_or (FormatterResult.message formatter_output)
            "Unknown error")%string in
    update (WorkflowData.set_status "error") ;;
    update (WorkflowData.set_error error) ;;
    say out verbose (Console.cross_mark :: Console.plain (" ERROR: " ++ error))
  else
  update (WorkflowData.set_status "success") ;;
  update (WorkflowData.set_report
            (get_or (FormatterResult.report formatter_output) "")) ;;
  say out verbose (Console.check_mark :: Console.plain " FORMATTER: Report compiled") ;;
  say out verbose (Console.plain (nl ++ times "=" 70)) ;;
  say out verbose (Console.plain "WORKFLOW COMPLETE") ;;
  say out verbose (Console.plain (times "=" 70)).

(** the [except Exception as e] handler; its [print] is outside every
    [try] block *)
Definition handler (out : Console.t) (verbose : bool) (e : Exception)
  : Run unit :=
  update (WorkflowData.set_status "error") ;;
  update (WorkflowData.set_error (str_exc e)) ;;
  say out verbose (Console.cross_mark :: Console.plain (" WORKFLOW ERROR: " ++ str_exc e)).

Definition run_research_workflow (out : Console.t) (self : t)
  (query : string) (verbose : bool)
  : M (history * list Console.text) WorkflowData.t :=
  fun s =>
    let workflow_data := initial query in
    let (r, s') :=
      (banner out query verbose ;;
       catch (stages out self query verbose) (handler out verbose) ;;
       read) (workflow_data, fst s, snd s) in
    (r, (snd (fst s'), snd s')).

End Verbose.

Definition get_workflow_summary (workflow_data : WorkflowData.t) : string :=
  if negb (String.eqb (WorkflowData.status workflow_data) "success") then
    ("Workflow failed: "
     ++ get_or (WorkflowData.error workflow_data) "Unknown error")%string
  else
    ("
WORKFLOW SUMMARY
================
Query: "
     ++ WorkflowData.query workflow_data
     ++ "
Status: "
     ++ WorkflowData.status workflow_data
     ++ "

Agent Results:
- RESEARCHER: "
     ++ get_or (ResearcherResult.status
                  (WorkflowData.researcher workflow_data)) "N/A"
     ++ " ("
     ++ str_int (get_or (ResearcherResult.num_sources
                           (WorkflowData.researcher workflow_data)) 0)
     ++ " sources)
- REVIEWER: "
     ++ get_or (ReviewerResult.status
                  (WorkflowData.reviewer workflow_data)) "N/A"
     ++ "
- SYNTHESIZER: "
     ++ get_or (SynthesizerResult.status
                  (WorkflowData.synthesizer workflow_data)) "N/A"
     ++ " ("
     ++ str_int (List.length
                   (get_or (SynthesizerResult.hypotheses
                              (WorkflowData.synthesizer workflow_data)) []))
     ++ " hypotheses)
- QUESTIONER: "
     ++ get_or (QuestionerResult.status
                  (WorkflowData.questioner workflow_data)) "N/A"
     ++ " ("
     ++ str_int (List.length
                   (get_or (QuestionerResult.questions
                              (WorkflowData.questioner workflow_data)) []))
     ++ " questions)
- FORMATTER: "
     ++ get_or (FormatterResult.status
                  (WorkflowData.formatter workflow_data)) "N/A"
     ++ "
")%string.

End MultiAgentResearchSystem.

(* ------------------------------------------------------------------ *)
(** ** Definitions used to state the properties *)

(** the first character is a digit; [false] on the empty string *)
Definition head_isdigit (s : string) : bool :=
  match s with
  | EmptyString => false
  | String c _ => isdigit c
  end.

(** [c in s] for one character *)
Fixpoint mem (c : ascii) (s : string) : bool :=
  match s with
  | EmptyString => false
  | String a r => Ascii.eqb a c || mem c r
  end.

(** no character of [s] is white space *)
Fixpoint solid (s : string) : bool :=
  match s with
  | EmptyString => true
  | String c r => negb (isspace c) && solid r
  end.

(** [s] is empty or starts with a character that [strip] keeps *)
Definition head_kept (s : string) : bool :=
  match s with
  | EmptyString => true
  | String c _ => negb (isspace c)
  end.

(** the part of [l] from its first element satisfying [p] on *)
Fixpoint from_first {A : Type} (p : A -> bool) (l : list A) : list A :=
  match l with
  | [] => []
  | x :: rest => if p x then l else from_first p rest
  end.

(** The heuristics as the specification words them: the lines that pass a
    test, stripped, in order, up to a cap. *)
Definition kept (cap : nat) (test : string -> bool) (text : string)
  : list string :=
  firstn cap (map strip (filter test (split newline text))).

(** non-empty and beginning with a bullet marker or a digit *)
Definition finding_line (line : string) : bool :=
  truthy (strip line)
  && (startswith "-" (strip line) || head_isdigit (strip line)).

(** containing the word, or one of the labels the code looks for, and
    longer than 20 *)
Definition hypothesis_line (line : string) : bool :=
  (contains "hypothesis" (lower line) || contains "h1" (lower line)
   || contains "h2" (lower line) || contains "h3" (lower line))
  && (20 <? String.length (strip line)).

(** the same with a label [H<digit>] for any digit *)
Definition digits : list string :=
  ["0"; "1"; "2"; "3"; "4"; "5"; "6"; "7"; "8"; "9"].

Definition hypothesis_line_any_digit (line : string) : bool :=
  (contains "hypothesis" (lower line)
   || existsb (fun d => contains ("h" ++ d) (lower line)) digits)
  && (20 <? String.length (strip line)).

Definition insight_line (line : string) : bool :=
  (contains "insight" (lower line) || contains "pattern" (lower line)
   || contains "relationship" (lower line))
  && (30 <? String.length (strip line)).

Definition gap_line (line : string) : bool :=
  contains "gap" (lower line) && (20 <? String.length (strip line)).

Definition question_line (line : string) : bool :=
  contains "?" line && (10 <? String.length (strip line)).

(** the line names the section, whatever the case of its letters *)
Definition names_section (section line : string) : bool :=
  contains (lower section) (lower line).

(** What every extracted item is: it passes the test again, [strip]
    leaves it alone, and it holds no line break. *)
Definition settled (test : string -> bool) (x : string) : Prop :=
  test x = true /\ strip x = x /\ mem newline x = false.

(** The three tests of the section loop, read as total functions. *)
Definition opens_line (section line : string) : bool :=
  names_section section line
  && (truthy (strip line) && (contains "-" line || head_isdigit line)).

Definition closing_line (line : string) : bool :=
  truthy (strip line) && negb (head_isdigit (strip line))
  && negb (contains "-" line) && (50 <? String.length (strip line)).

(** non-empty, empty or absent fields *)
Definition filled (field : option string) : Prop :=
  exists s, field = Some s /\ s <> EmptyString.

Definition blank (field : option string) : Prop :=
  field = None \/ field = Some EmptyString.

Definition none {A : Type} (field : option (list A)) : Prop :=
  field = None \/ field = Some [].

(** The invariant of an AgentResult, given its status, its message, its
    mandatory payload field and what is said of its other payload fields. *)
Definition invariant (status message payload : option string)
  (others_empty : Prop) : Prop :=
  (status = Some "error" ->
   blank payload /\ others_empty /\ filled message)
  /\ (status = Some "success" -> filled payload).

(** The same without the two demands of a non-empty text. *)
Definition shape (status message payload : option string)
  (others_empty : Prop) : Prop :=
  (status = Some "error" ->
   blank payload /\ others_empty /\ message <> None)
  /\ (status = Some "success" -> payload <> None).

Definition researcher_invariant
  (inv : option string -> option string -> option string -> Prop -> Prop)
  (r : ResearcherResult.t) : Prop :=
  inv (ResearcherResult.status r) (ResearcherResult.message r)
    (ResearcherResult.analysis r)
    (none (ResearcherResult.findings r) /\ none (ResearcherResult.sources r)
     /\ ResearcherResult.num_sources r = None).

Definition reviewer_invariant
  (inv : option string -> option string -> option string -> Prop -> Prop)
  (r : ReviewerResult.t) : Prop :=
  inv (ReviewerResult.status r) (ReviewerResult.message r)
    (ReviewerResult.critique r)
    (blank (ReviewerResult.researcher_analysis r)
     /\ none (ReviewerResult.strengths r)
     /\ none (ReviewerResult.weaknesses r)
     /\ none (ReviewerResult.sources r)).

Definition synthesizer_invariant
  (inv : option string -> option string -> option string -> Prop -> Prop)
  (r : SynthesizerResult.t) : Prop :=
  inv (SynthesizerResult.status r) (SynthesizerResult.message r)
    (SynthesizerResult.synthesis r)
    (none (SynthesizerResult.hypotheses r)
     /\ none (SynthesizerResult.insights r)
     /\ blank (SynthesizerResult.researcher_analysis r)
     /\ blank (SynthesizerResult.critique r)).

Definition questioner_invariant
  (inv : option string -> option string -> option string -> Prop -> Prop)
  (r : QuestionerResult.t) : Prop :=
  inv (QuestionerResult.status r) (QuestionerResult.message r)
    (QuestionerResult.gap_analysis r)
    (none (QuestionerResult.gaps r) /\ none (QuestionerResult.questions r)
     /\ blank (QuestionerResult.synthesis r)
     /\ none (QuestionerResult.hypotheses r)).

Definition formatter_invariant
  (inv : option string -> option string -> option string -> Prop -> Prop)
  (r : FormatterResult.t) : Prop :=
  inv (FormatterResult.status r) (FormatterResult.message r)
    (FormatterResult.report r)
    (blank (FormatterResult.query r)
     /\ FormatterResult.researcher r = None
     /\ FormatterResult.reviewer r = None
     /\ FormatterResult.synthesizer r = None
     /\ FormatterResult.questioner r = None
     /\ none (FormatterResult.sources r)).

(** A chat model that never answers with an empty text, and one that never
    raises an exception of empty description. *)
Definition speaks (m : ChatModel) : Prop :=
  forall h system_prompt user_prompt,
    invoke m h system_prompt user_prompt <> inr EmptyString.

Definition explains (m : ChatModel) : Prop :=
  forall h system_prompt user_prompt (e : Exception),
    invoke m h system_prompt user_prompt = inl e ->
    str_exc e <> EmptyString.

(** a line of the log *)
Definition entry (step : nat) (agent status : string) : LogEntry.t :=
  {| LogEntry.step := step; LogEntry.agent := agent
   ; LogEntry.status := status |}.

(** Collaborators that answer every call the same way, and the records
    used in the examples. *)
Definition constant_rag (answer : E Context.t) : RAGPipeline :=
  {| answer_question := fun _ _ _ => answer |}.

Definition constant_llm (reply : E string) : ChatModel :=
  {| invoke := fun _ _ _ => reply |}.

Definition three_sources : Context.t :=
  {| Context.answer := Some "X raises Y in all three studies."
   ; Context.sources :=
       Some [ {| source := Some "a.pdf"; page := Some "1" |}
            ; {| source := Some "b.pdf"; page := Some "7" |}
            ; {| source := Some "a.pdf"; page := None |} ] |}.


Definition failed_researcher : ResearcherResult.t :=
  {| ResearcherResult.agent := Some "RESEARCHER"
   ; ResearcherResult.status := Some "error"
   ; ResearcherResult.message := Some "No relevant documents found"
   ; ResearcherResult.analysis := None
   ; ResearcherResult.findings := Some []
   ; ResearcherResult.sources := Some []
   ; ResearcherResult.num_sources := None |}.

Definition good_researcher : ResearcherResult.t :=
  {| ResearcherResult.agent := Some "RESEARCHER"
   ; ResearcherResult.status := Some "success"
   ; ResearcherResult.message := None
   ; ResearcherResult.analysis := Some "- X raises Y"
   ; ResearcherResult.findings := Some ["- X raises Y"]
   ; ResearcherResult.sources :=
       Some [ {| source := Some "a.pdf"; page := Some "1" |} ]
   ; ResearcherResult.num_sources := Some 1 |}.

Definition failed_reviewer : ReviewerResult.t :=
  {| ReviewerResult.agent := Some "REVIEWER"
   ; ReviewerResult.status := Some "error"
   ; ReviewerResult.message := Some "quota exceeded"
   ; ReviewerResult.critique := Some ""
   ; ReviewerResult.researcher_analysis := None
   ; ReviewerResult.strengths := None
   ; ReviewerResult.weaknesses := None
   ; ReviewerResult.sources := None |}.

Definition failed_synthesizer : SynthesizerResult.t :=
  {| SynthesizerResult.agent := Some "SYNTHESIZER"
   ; SynthesizerResult.status := Some "error"
   ; SynthesizerResult.message := Some "Invalid input from previous agent"
   ; SynthesizerResult.synthesis := Some ""
   ; SynthesizerResult.hypotheses := Some []
   ; SynthesizerResult.insights := None
   ; SynthesizerResult.researcher_analysis := None
   ; SynthesizerResult.critique := None |}.

Definition failed_questioner : QuestionerResult.t :=
  {| QuestionerResult.agent := Some "QUESTIONER"
   ; QuestionerResult.status := Some "error"
   ; QuestionerResult.message := Some "Invalid input from previous agent"
   ; QuestionerResult.gap_analysis := None
   ; QuestionerResult.gaps := Some []
   ; QuestionerResult.questions := Some []
   ; QuestionerResult.synthesis := None
   ; QuestionerResult.hypotheses := None |}.

(** a workflow record whose last stage before the Formatter failed *)
Definition failed_workflow : WorkflowData.t :=
  WorkflowData.set_error "Questioner agent failed: Invalid input from previous agent"
    (WorkflowData.set_status "error"
       (WorkflowData.set_questioner failed_questioner
          (MultiAgentResearchSystem.initial "effects of X on Y"))).

(** What an open section collects from the lines that follow: the list
    lines, stripped, up to the first long line that is no list line. *)
Fixpoint collected (lines : list string) : list string :=
  match lines with
  | [] => []
  | line :: rest =>
      if finding_line line then strip line :: collected rest
      else if closing_line line then []
           else collected rest
  end.

(** The items of a section, as a total function of the text. *)
Definition section_items (text section : string) : list string :=
  firstn 5
    (collected (from_first (opens_line section) (split newline text))).

(** The query the Researcher retrieves with. *)
Definition retrieval_query (input_data : ResearcherAgent.Input)
  (query : string) : string :=
  match input_data with
  | ResearcherAgent.Text _ => query
  | ResearcherAgent.Dict q => get_or q query
  end.


Definition slot_statuses (d : WorkflowData.t) : list string :=
  [ get_or (ResearcherResult.status (WorkflowData.researcher d)) "unknown"
  ; get_or (ReviewerResult.status (WorkflowData.reviewer d)) "unknown"
  ; get_or (SynthesizerResult.status (WorkflowData.synthesizer d)) "unknown"
  ; get_or (QuestionerResult.status (WorkflowData.questioner d)) "unknown"
  ; get_or (FormatterResult.status (WorkflowData.formatter d)) "unknown" ].




(** A call without its user prompt. *)
Definition outline (e : event) : event :=
  match e with
  | Retrieve query k => Retrieve query k
  | Invoke system_prompt _ => Invoke system_prompt EmptyString
  end.

(** A result that is a value or an instance of [Exception]. *)
Definition catchable {A : Type} (r : E A) : Prop :=
  forall b, r = inl b -> is_exception b = true.

(** An agent whose collaborators raise instances of [Exception] only. *)
Definition raises_exceptions_only (self : BaseAgent.t) : Prop :=
  (forall h query k,
      catchable (answer_question (BaseAgent.rag_pipeline self) h query k))
  /\ (forall h system_prompt user_prompt,
         catchable (invoke (BaseAgent.llm self) h system_prompt user_prompt)).

Definition tame (self : MultiAgentResearchSystem.t) : Prop :=
  raises_exceptions_only (MultiAgentResearchSystem.researcher self)
  /\ raises_exceptions_only (MultiAgentResearchSystem.reviewer self)
  /\ raises_exceptions_only (MultiAgentResearchSystem.synthesizer self)
  /\ raises_exceptions_only (MultiAgentResearchSystem.questioner self)
  /\ raises_exceptions_only (MultiAgentResearchSystem.formatter self).

(** A console on which every [print] returns. *)
Definition accepts (out : Console.t) : Prop :=
  forall printed text, Console.write out printed text = inr tt.

(** Consoles used in the examples: one that takes every text, one whose
    encoding is ASCII ([print] raises a [UnicodeEncodeError] on any other
    character), one that is closed after [n] texts ([print] raises a
    [ValueError] from then on). *)
Definition plain_console : Console.t :=
  {| Console.write := fun _ _ => inr tt |}.

Definition ascii_console : Console.t :=
  {| Console.write := fun _ text =>
       if forallb (fun c => (c <? 128)%N) text then inr tt
       else inl (Failure "ordinal not in range(128)") |}.

Definition closing_console (n : nat) : Console.t :=
  {| Console.write := fun printed _ =>
       if List.length printed <? n then inr tt
       else inl (Failure "I/O operation on closed file.") |}.

(* ------------------------------------------------------------------ *)
(** ** Facts about the string operations *)

Section StringFacts.

Lemma isspace_lower_char (c : ascii) : isspace (lower_char c) = isspace c.
Proof. destruct c as [[] [] [] [] [] [] [] []]; reflexivity. Qed.

Lemma lstrip_head_kept (s : string) : head_kept (lstrip s) = true.
Proof.
  induction s as [|c r IH]; simpl; [reflexivity|].
  destruct (isspace c) eqn:Hc; [exact IH|]. simpl. now rewrite Hc.
Qed.

Lemma head_kept_lstrip (s : string) : head_kept s = true -> lstrip s = s.
Proof.
  destruct s as [|c r]; simpl; [reflexivity|].
  intros H. apply negb_true_iff in H. now rewrite H.
Qed.

Lemma rstrip_cons (c : ascii) (r : string) :
  isspace c = false -> rstrip (String c r) = String c (rstrip r).
Proof. intros H. simpl. rewrite H. now destruct (rstrip r). Qed.

Lemma head_kept_rstrip (s : string) :
  head_kept s = true -> head_kept (rstrip s) = true.
Proof.
  destruct s as [|c r]; [reflexivity|]. intros H.
  simpl in H. apply negb_true_iff in H.
  rewrite rstrip_cons by assumption. simpl. now rewrite H.
Qed.

Lemma rstrip_unfold (c : ascii) (r : string) :
  rstrip (String c r) =
  match rstrip r with
  | EmptyString => if isspace c then EmptyString else String c EmptyString
  | r' => String c r'
  end.
Proof. reflexivity. Qed.

Lemma rstrip_idem (s : string) : rstrip (rstrip s) = rstrip s.
Proof.
  induction s as [|c r IH]; [reflexivity|].
  rewrite rstrip_unfold. destruct (rstrip r) as [|a r'] eqn:Hr.
  - destruct (isspace c) eqn:Hc; [reflexivity|]. simpl. now rewrite Hc.
  - now rewrite rstrip_unfold, IH.
Qed.

Lemma strip_idem (s : string) : strip (strip s) = strip s.
Proof.
  unfold strip.
  rewrite (head_kept_lstrip (rstrip (lstrip s))).
  - apply rstrip_idem.
  - apply head_kept_rstrip, lstrip_head_kept.
Qed.

Lemma lower_lstrip (s : string) : lower (lstrip s) = lstrip (lower s).
Proof.
  induction s as [|c r IH]; [reflexivity|].
  simpl. rewrite isspace_lower_char. now destruct (isspace c).
Qed.

Lemma lower_rstrip (s : string) : lower (rstrip s) = rstrip (lower s).
Proof.
  induction s as [|c r IH]; [reflexivity|].
  simpl. rewrite <- IH, isspace_lower_char.
  destruct (rstrip r); simpl; [now destruct (isspace c)|reflexivity].
Qed.

Lemma lower_strip (s : string) : lower (strip s) = strip (lower s).
Proof. unfold strip. now rewrite lower_rstrip, lower_lstrip. Qed.

Lemma startswith_rstrip (p s : string) :
  solid p = true -> startswith p (rstrip s) = startswith p s.
Proof.
  revert s. induction p as [|a p IH]; intros s Hp.
  - destruct (rstrip s); now destruct s.
  - simpl in Hp. apply andb_true_iff in Hp as [Ha Hp].
    apply negb_true_iff in Ha.
    destruct s as [|c r]; [reflexivity|].
    rewrite rstrip_unfold. specialize (IH r Hp).
    destruct (rstrip r) as [|b r'] eqn:Hr.
    + destruct (isspace c) eqn:Hc; simpl.
      * destruct (Ascii.eqb_spec a c) as [->|]; [congruence|reflexivity].
      * now rewrite <- IH.
    + simpl. now rewrite <- IH.
Qed.

Lemma contains_empty (p : string) :
  p <> EmptyString -> contains p EmptyString = false.
Proof. destruct p; [congruence|reflexivity]. Qed.

Lemma contains_unfold (p : string) (c : ascii) (r : string) :
  contains p (String c r) = startswith p (String c r) || contains p r.
Proof. reflexivity. Qed.

Lemma contains_rstrip (p s : string) :
  p <> EmptyString -> solid p = true ->
  contains p (rstrip s) = contains p s.
Proof.
  intros Hne Hp. induction s as [|c r IH]; [reflexivity|].
  pose proof (startswith_rstrip p (String c r) Hp) as Hpre.
  rewrite rstrip_unfold in Hpre |- *.
  rewrite (contains_unfold p c r), <- Hpre, <- IH.
  destruct (rstrip r) as [|b r'].
  - destruct (isspace c).
    + rewrite (contains_empty p Hne). now destruct p.
    + now rewrite contains_unfold.
  - now rewrite contains_unfold.
Qed.

Lemma contains_lstrip (p s : string) :
  p <> EmptyString -> solid p = true ->
  contains p (lstrip s) = contains p s.
Proof.
  intros Hne Hp. destruct p as [|a p]; [congruence|].
  simpl in Hp. apply andb_true_iff in Hp as [Ha _].
  apply negb_true_iff in Ha.
  induction s as [|c r IH]; [reflexivity|].
  simpl lstrip. destruct (isspace c) eqn:Hc; [|reflexivity].
  rewrite IH, contains_unfold. simpl startswith.
  destruct (Ascii.eqb_spec a c) as [->|]; [congruence|reflexivity].
Qed.

Lemma contains_strip (p s : string) :
  p <> EmptyString -> solid p = true ->
  contains p (strip s) = contains p s.
Proof.
  intros Hne Hp. unfold strip.
  now rewrite contains_rstrip, contains_lstrip.
Qed.

Lemma contains_lower_strip (p s : string) :
  p <> EmptyString -> solid p = true ->
  contains p (lower (strip s)) = contains p (lower s).
Proof. intros. rewrite lower_strip. now apply contains_strip. Qed.

Lemma mem_lstrip (c : ascii) (s : string) :
  mem c s = false -> mem c (lstrip s) = false.
Proof.
  induction s as [|a r IH]; [reflexivity|]. intros H.
  simpl. destruct (isspace a); [|exact H].
  simpl in H. apply orb_false_iff in H as [_ H]. now apply IH.
Qed.

Lemma mem_rstrip (c : ascii) (s : string) :
  mem c s = false -> mem c (rstrip s) = false.
Proof.
  induction s as [|a r IH]; [reflexivity|]. intros H.
  simpl in H. apply orb_false_iff in H as [Ha H].
  rewrite rstrip_unfold. specialize (IH H).
  destruct (rstrip r) as [|b r'].
  - destruct (isspace a); [reflexivity|]. simpl. now rewrite Ha.
  - change (Ascii.eqb a c || mem c (String b r') = false).
    now rewrite Ha, IH.
Qed.

Lemma mem_strip (c : ascii) (s : string) :
  mem c s = false -> mem c (strip s) = false.
Proof. intros H. now apply mem_rstrip, mem_lstrip. Qed.

Lemma split_lines_free (sep : ascii) (s : string) :
  Forall (fun x => mem sep x = false) (split sep s).
Proof.
  induction s as [|c r IH]; simpl.
  - repeat constructor.
  - destruct (Ascii.eqb c sep) eqn:Hc.
    + constructor; [reflexivity|exact IH].
    + destruct (split sep r) as [|h t].
      * repeat constructor. simpl. now rewrite Hc.
      * inversion IH; subst. constructor; [|assumption].
        simpl. now rewrite Hc.
Qed.

Lemma split_cons (sep : ascii) (s : string) :
  exists h t, split sep s = h :: t.
Proof.
  destruct s as [|c r]; simpl; [now eauto|].
  destruct (Ascii.eqb c sep); [now eauto|].
  destruct (split sep r); now eauto.
Qed.

Lemma split_app (sep : ascii) (x rest : string) :
  mem sep x = false ->
  split sep (x ++ String sep rest) = x :: split sep rest.
Proof.
  induction x as [|c r IH]; simpl; intros H.
  - now rewrite Ascii.eqb_refl.
  - apply orb_false_iff in H as [Hc H]. now rewrite Hc, IH.
Qed.

Lemma split_free (sep : ascii) (x : string) :
  mem sep x = false -> split sep x = [x].
Proof.
  induction x as [|c r IH]; simpl; intros H; [reflexivity|].
  apply orb_false_iff in H as [Hc H]. now rewrite Hc, IH.
Qed.

Lemma split_join (l : list string) :
  l <> [] -> Forall (fun x => mem newline x = false) l ->
  split newline (join nl l) = l.
Proof.
  induction l as [|x [|y r] IH]; intros Hne Hl; [congruence| |].
  - inversion Hl; subst. now apply split_free.
  - inversion Hl; subst.
    change (join nl (x :: y :: r))
      with (x ++ String newline (join nl (y :: r)))%string.
    rewrite split_app by assumption. f_equal. now apply IH.
Qed.

End StringFacts.

(* ------------------------------------------------------------------ *)
(** ** The extraction loops as filters *)

Section Extraction.

Lemma fold_left_collect (body : list string -> string -> list string)
  (test : string -> bool) (lines acc : list string) :
  (forall acc line,
      body acc line = if test line then acc ++ [strip line] else acc) ->
  fold_left body lines acc = acc ++ map strip (filter test lines).
Proof.
  intros Hbody. revert acc.
  induction lines as [|line rest IH]; intros acc; simpl.
  - now rewrite app_nil_r.
  - rewrite IH, Hbody. destruct (test line); [|reflexivity].
    simpl. now rewrite <- app_assoc.
Qed.

Lemma longer_truthy (n : nat) (s : string) :
  (n <? String.length s) = true -> truthy s = true.
Proof. destruct s; [|reflexivity]. simpl. now destruct n. Qed.

Lemma extract_hypotheses_kept (synthesis : string) :
  SynthesizerAgent._extract_hypotheses synthesis
  = kept 5 hypothesis_line synthesis.
Proof.
  unfold SynthesizerAgent._extract_hypotheses, kept.
  rewrite (fold_left_collect _ hypothesis_line); [reflexivity|].
  intros acc line. unfold hypothesis_line.
  destruct (contains "hypothesis" (lower line) || contains "h1" (lower line)
            || contains "h2" (lower line) || contains "h3" (lower line));
    [|reflexivity].
  simpl andb at 2.
  destruct (20 <? String.length (strip line)) eqn:Hlen.
  - now rewrite (longer_truthy _ _ Hlen).
  - now rewrite andb_false_r.
Qed.

Lemma extract_insights_kept (synthesis : string) :
  SynthesizerAgent._extract_insights synthesis
  = kept 5 insight_line synthesis.
Proof.
  unfold SynthesizerAgent._extract_insights, kept.
  rewrite (fold_left_collect _ insight_line); [reflexivity|].
  intros acc line. unfold insight_line.
  destruct (contains "insight" (lower line) || contains "pattern" (lower line)
            || contains "relationship" (lower line)); [|reflexivity].
  destruct (30 <? String.length (strip line)) eqn:Hlen.
  - now rewrite (longer_truthy _ _ Hlen).
  - now destruct (truthy (strip line)).
Qed.

Lemma extract_gaps_kept (text : string) :
  QuestionerAgent._extract_gaps text = kept 5 gap_line text.
Proof.
  unfold QuestionerAgent._extract_gaps, kept.
  rewrite (fold_left_collect _ gap_line); [reflexivity|].
  intros acc line. unfold gap_line.
  destruct (20 <? String.length (strip line)) eqn:Hlen.
  - now rewrite (longer_truthy _ _ Hlen), andb_true_r.
  - now rewrite !andb_false_r.
Qed.

Lemma extract_questions_kept (text : string) :
  QuestionerAgent._extract_questions text = kept 7 question_line text.
Proof.
  unfold QuestionerAgent._extract_questions, kept.
  rewrite (fold_left_collect _ question_line); [reflexivity|].
  intros acc line. unfold question_line.
  destruct (10 <? String.length (strip line)) eqn:Hlen.
  - now rewrite (longer_truthy _ _ Hlen), andb_true_r.
  - now rewrite !andb_false_r.
Qed.

Lemma is_finding_pure (line : string) :
  ResearcherAgent.is_finding line = inr (finding_line line).
Proof.
  unfold ResearcherAgent.is_finding, finding_line, andE, orE.
  destruct (strip line) as [|c r]; [reflexivity|].
  cbn [truthy getitem0 ret bind Monad_E head_isdigit andb].
  now destruct (startswith "-" (String c r)).
Qed.

Lemma comprehension_pure {A B : Type} (f : A -> B) (p : A -> E bool)
  (test : A -> bool) (l : list A) :
  (forall x, p x = inr (test x)) ->
  comprehension f p l = inr (map f (filter test l)).
Proof.
  intros Hp. induction l as [|x rest IH]; [reflexivity|].
  simpl. rewrite Hp, IH. now destruct (test x).
Qed.

Lemma extract_findings_kept (analysis : string) :
  ResearcherAgent._extract_findings analysis
  = inr (kept 10 finding_line analysis).
Proof.
  unfold ResearcherAgent._extract_findings, kept.
  now rewrite (comprehension_pure _ _ finding_line _ is_finding_pure).
Qed.

End Extraction.

(* ------------------------------------------------------------------ *)
(** ** Running a heuristic on its own output *)

Section Rerun.

Lemma Forall_firstn {A : Type} (P : A -> Prop) (n : nat) (l : list A) :
  Forall P l -> Forall P (firstn n l).
Proof.
  intros H. revert n.
  induction H as [|x l Hx Hl IH]; intros [|n]; simpl; constructor; auto.
Qed.

Lemma filter_all {A : Type} (p : A -> bool) (l : list A) :
  Forall (fun x => p x = true) l -> filter p l = l.
Proof.
  induction 1 as [|x l Hx Hl IH]; simpl; [reflexivity|].
  now rewrite Hx, IH.
Qed.

Lemma map_fixed {A : Type} (f : A -> A) (l : list A) :
  Forall (fun x => f x = x) l -> map f l = l.
Proof.
  induction 1 as [|x l Hx Hl IH]; simpl; [reflexivity|].
  now rewrite Hx, IH.
Qed.

Lemma collected_settled (test : string -> bool) (lines : list string) :
  (forall line, test line = true -> test (strip line) = true) ->
  Forall (fun x => mem newline x = false) lines ->
  Forall (settled test) (map strip (filter test lines)).
Proof.
  intros Hstable Hlines.
  induction Hlines as [|line rest Hline Hrest IH]; simpl; [constructor|].
  destruct (test line) eqn:Ht; [|exact IH].
  simpl. constructor; [|exact IH].
  repeat split; [now apply Hstable|apply strip_idem|now apply mem_strip].
Qed.

Lemma kept_settled (cap : nat) (test : string -> bool) (text : string) :
  (forall line, test line = true -> test (strip line) = true) ->
  Forall (settled test) (kept cap test text).
Proof.
  intros Hstable. unfold kept. apply Forall_firstn.
  apply collected_settled; [assumption|apply split_lines_free].
Qed.

Lemma kept_of_settled (cap : nat) (test : string -> bool)
  (l : list string) :
  test EmptyString = false ->
  Forall (settled test) l -> List.length l <= cap ->
  kept cap test (join nl l) = l.
Proof.
  intros Hempty Hl Hcap. unfold kept.
  destruct l as [|x r].
  - simpl. rewrite Hempty. now destruct cap.
  - rewrite split_join.
    + rewrite filter_all, map_fixed, firstn_all2; trivial.
      * eapply Forall_impl; [|exact Hl]. now intros a (_ & ? & _).
      * eapply Forall_impl; [|exact Hl]. now intros a (? & _).
    + discriminate.
    + eapply Forall_impl; [|exact Hl]. now intros a (_ & _ & ?).
Qed.

Lemma kept_rerun (cap : nat) (test : string -> bool) (text : string) :
  test EmptyString = false ->
  (forall line, test line = true -> test (strip line) = true) ->
  kept cap test (join nl (kept cap test text)) = kept cap test text.
Proof.
  intros Hempty Hstable. apply kept_of_settled; trivial.
  - now apply kept_settled.
  - apply firstn_le_length.
Qed.

Lemma finding_line_strip (line : string) :
  finding_line line = true -> finding_line (strip line) = true.
Proof. unfold finding_line. now rewrite strip_idem. Qed.

Lemma hypothesis_line_strip (line : string) :
  hypothesis_line line = true -> hypothesis_line (strip line) = true.
Proof.
  unfold hypothesis_line.
  now rewrite strip_idem, !contains_lower_strip.
Qed.

Lemma insight_line_strip (line : string) :
  insight_line line = true -> insight_line (strip line) = true.
Proof.
  unfold insight_line.
  now rewrite strip_idem, !contains_lower_strip.
Qed.

Lemma gap_line_strip (line : string) :
  gap_line line = true -> gap_line (strip line) = true.
Proof.
  unfold gap_line. now rewrite strip_idem, !contains_lower_strip.
Qed.

Lemma question_line_strip (line : string) :
  question_line line = true -> question_line (strip line) = true.
Proof.
  unfold question_line. now rewrite strip_idem, !contains_strip.
Qed.

End Rerun.

(* ------------------------------------------------------------------ *)
(** ** The section loop of the Reviewer *)

Section SectionLoop.

Import ReviewerAgent.

Lemma opens_section_pure (section line : string) :
  opens_section section line = inr (opens_line section line).
Proof.
  unfold opens_section, opens_line, names_section, andE, orE.
  cbn [ret bind Monad_E].
  destruct (contains (lower section) (lower line)); [|reflexivity].
  destruct (strip line) as [|a r] eqn:Hs; [reflexivity|].
  cbn [truthy andb].
  destruct line as [|c l]; [discriminate Hs|].
  cbn [getitem0 ret bind Monad_E head_isdigit].
  now destruct (contains "-" (String c l)).
Qed.

Lemma is_item_pure (line : string) :
  is_item line = inr (finding_line line).
Proof.
  unfold is_item, finding_line, andE, orE.
  destruct (strip line) as [|c r]; [reflexivity|].
  cbn [truthy getitem0 ret bind Monad_E head_isdigit andb].
  now destruct (startswith "-" (String c r)).
Qed.

Lemma closes_section_pure (line : string) :
  closes_section line = inr (closing_line line).
Proof.
  unfold closes_section, closing_line, andE, notE.
  destruct (strip line) as [|c r]; [reflexivity|].
  cbn [truthy getitem0 ret bind Monad_E head_isdigit andb].
  destruct (isdigit c); [reflexivity|]. cbn [negb andb].
  now destruct (contains "-" line).
Qed.

Lemma section_loop_cons (section line : string) (rest : list string)
  (in_section : bool) (acc : list string) :
  section_loop section (line :: rest) in_section acc =
  if opens_line section line || in_section then
    if finding_line line
    then section_loop section rest true (acc ++ [strip line])
    else if closing_line line then inr acc
         else section_loop section rest true acc
  else section_loop section rest false acc.
Proof.
  cbn [section_loop].
  rewrite opens_section_pure, is_item_pure, closes_section_pure.
  cbn [ret bind Monad_E].
  destruct (opens_line section line), in_section; reflexivity.
Qed.

Lemma section_loop_total (section : string) (lines : list string) :
  forall in_section acc,
    exists out, section_loop section lines in_section acc = inr out.
Proof.
  induction lines as [|line rest IH]; intros in_section acc.
  - now exists acc.
  - rewrite section_loop_cons.
    destruct (opens_line section line || in_section); [|apply IH].
    destruct (finding_line line); [apply IH|].
    destruct (closing_line line); [now exists acc|apply IH].
Qed.

Lemma extract_section_total (text section : string) :
  exists out, _extract_section text section = inr out
              /\ List.length out <= 5.
Proof.
  unfold _extract_section.
  destruct (section_loop_total section (split newline text) false [])
    as [out Hout].
  rewrite Hout. eexists; split; [reflexivity|]. apply firstn_le_length.
Qed.

Lemma section_loop_settled (section : string) (lines : list string) :
  Forall (fun x => mem newline x = false) lines ->
  forall in_section acc out,
    Forall (settled finding_line) acc ->
    section_loop section lines in_section acc = inr out ->
    Forall (settled finding_line) out.
Proof.
  induction 1 as [|line rest Hline Hrest IH]; intros in_section acc out Hacc.
  - simpl. now intros [= <-].
  - rewrite section_loop_cons.
    destruct (opens_line section line || in_section); [|now apply IH].
    destruct (finding_line line) eqn:Hf.
    + apply IH. apply Forall_app. split; [assumption|].
      constructor; [|constructor].
      repeat split;
        [now apply finding_line_strip|apply strip_idem|now apply mem_strip].
    + destruct (closing_line line); [now intros [= <-]|now apply IH].
Qed.

Lemma startswith_contains (p s : string) :
  startswith p s = true -> contains p s = true.
Proof. intros H. destruct s; simpl; now rewrite H. Qed.

Lemma settled_item (section x : string) :
  settled finding_line x ->
  finding_line x = true /\ opens_line section x = names_section section x.
Proof.
  intros (Hf & Hs & _). split; [assumption|].
  unfold opens_line. unfold finding_line in Hf. rewrite Hs in Hf.
  apply andb_true_iff in Hf as [Ht Hb]. rewrite Hs, Ht.
  apply orb_true_iff in Hb as [Hb|Hb].
  - rewrite (startswith_contains _ _ Hb). now rewrite andb_true_r.
  - rewrite Hb. now rewrite orb_true_r, andb_true_r.
Qed.

Lemma section_loop_inside (section : string) (l : list string) :
  Forall (settled finding_line) l ->
  forall acc, section_loop section l true acc = inr (acc ++ l).
Proof.
  induction 1 as [|x rest Hx Hrest IH]; intros acc.
  - simpl. now rewrite app_nil_r.
  - rewrite section_loop_cons, orb_true_r.
    destruct (settled_item section x Hx) as [-> _].
    rewrite IH, <- app_assoc.
    destruct Hx as (_ & -> & _). reflexivity.
Qed.

Lemma section_loop_outside (section : string) (l : list string) :
  Forall (settled finding_line) l ->
  section_loop section l false []
  = inr (from_first (names_section section) l).
Proof.
  induction 1 as [|x rest Hx Hrest IH].
  - reflexivity.
  - rewrite section_loop_cons, orb_false_r.
    destruct (settled_item section x Hx) as [Hf ->].
    simpl from_first. destruct (names_section section x); [|exact IH].
    rewrite Hf, section_loop_inside by assumption.
    destruct Hx as (_ & -> & _). reflexivity.
Qed.

Lemma section_loop_blank (section : string) :
  section_loop section [EmptyString] false [] = inr [].
Proof.
  rewrite section_loop_cons.
  unfold opens_line. simpl strip. simpl truthy.
  now rewrite andb_false_r.
Qed.

End SectionLoop.

(* ------------------------------------------------------------------ *)
(** ** Properties of the extraction heuristics *)

Lemma from_first_length {A : Type} (p : A -> bool) (l : list A) :
  List.length (from_first p l) <= List.length l.
Proof.
  induction l as [|x rest IH]; simpl; [lia|].
  destruct (p x); simpl; lia.
Qed.

Lemma extract_section_settled (text section : string) (l : list string) :
  ReviewerAgent._extract_section text section = inr l ->
  Forall (settled finding_line) l /\ List.length l <= 5.
Proof.
  unfold ReviewerAgent._extract_section.
  destruct (ReviewerAgent.section_loop section (split newline text) false [])
    as [e|out] eqn:Hout; [discriminate|].
  cbn [ret bind Monad_E]. intros Hl.
  assert (firstn 5 out = l) as <- by congruence. split.
  - apply Forall_firstn.
    eapply section_loop_settled; [apply split_lines_free| |exact Hout].
    constructor.
  - apply firstn_le_length.
Qed.

Lemma extract_section_of_settled (section : string) (l : list string) :
  Forall (settled finding_line) l -> List.length l <= 5 ->
  ReviewerAgent._extract_section (join nl l) section
  = inr (from_first (names_section section) l).
Proof.
  intros Hl Hlen. unfold ReviewerAgent._extract_section.
  destruct l as [|x r].
  - change (split newline (join nl [])) with [EmptyString].
    now rewrite section_loop_blank.
  - rewrite split_join.
    + rewrite section_loop_outside by assumption.
      cbn [ret bind Monad_E]. rewrite firstn_all2; [reflexivity|].
      etransitivity; [apply from_first_length|exact Hlen].
    + discriminate.
    + eapply Forall_impl; [|exact Hl]. now intros a (_ & _ & ?).
Qed.

(** C4. Whatever the text, empty or long, the lists the heuristics build
    stay within their caps: at most 10 findings, 5 strengths, 5
    weaknesses, 5 hypotheses, 5 insights, 5 gaps and 7 questions. *)
Theorem extraction_caps (text : string) :
  (exists findings,
      ResearcherAgent._extract_findings text = inr findings
      /\ List.length findings <= 10)
  /\ (exists strengths,
         ReviewerAgent._extract_section text "strengths" = inr strengths
         /\ List.length strengths <= 5)
  /\ (exists weaknesses,
         ReviewerAgent._extract_section text "weaknesses" = inr weaknesses
         /\ List.length weaknesses <= 5)
  /\ List.length (SynthesizerAgent._extract_hypotheses text) <= 5
  /\ List.length (SynthesizerAgent._extract_insights text) <= 5
  /\ List.length (QuestionerAgent._extract_gaps text) <= 5
  /\ List.length (QuestionerAgent._extract_questions text) <= 7.
Proof.
  repeat split.
  - rewrite extract_findings_kept. eexists; split; [reflexivity|].
    apply firstn_le_length.
  - apply extract_section_total.
  - apply extract_section_total.
  - apply firstn_le_length.
  - apply firstn_le_length.
  - apply firstn_le_length.
  - apply firstn_le_length.
Qed.

(** C5, as the code has it.  Findings, hypotheses, insights, gaps and
    questions: joining the extracted list with line breaks and extracting
    again gives the same list.  A section of the Reviewer: extracting again
    gives the part of the list from its first item that names the section
    on, so the same list when it is empty or its first item names the
    section, and a shorter one otherwise. *)
Theorem extraction_rerun (text section : string) :
  (exists findings,
      ResearcherAgent._extract_findings text = inr findings
      /\ ResearcherAgent._extract_findings (join nl findings) = inr findings)
  /\ SynthesizerAgent._extract_hypotheses
       (join nl (SynthesizerAgent._extract_hypotheses text))
     = SynthesizerAgent._extract_hypotheses text
  /\ SynthesizerAgent._extract_insights
       (join nl (SynthesizerAgent._extract_insights text))
     = SynthesizerAgent._extract_insights text
  /\ QuestionerAgent._extract_gaps
       (join nl (QuestionerAgent._extract_gaps text))
     = QuestionerAgent._extract_gaps text
  /\ QuestionerAgent._extract_questions
       (join nl (QuestionerAgent._extract_questions text))
     = QuestionerAgent._extract_questions text
  /\ (exists items,
         ReviewerAgent._extract_section text section = inr items
         /\ ReviewerAgent._extract_section (join nl items) section
            = inr (from_first (names_section section) items)).
Proof.
  repeat split.
  - exists (kept 10 finding_line text). rewrite !extract_findings_kept.
    split; [reflexivity|]. f_equal.
    apply kept_rerun; [reflexivity|apply finding_line_strip].
  - rewrite !extract_hypotheses_kept.
    apply kept_rerun; [reflexivity|apply hypothesis_line_strip].
  - rewrite !extract_insights_kept.
    apply kept_rerun; [reflexivity|apply insight_line_strip].
  - rewrite !extract_gaps_kept.
    apply kept_rerun; [reflexivity|apply gap_line_strip].
  - rewrite !extract_questions_kept.
    apply kept_rerun; [reflexivity|apply question_line_strip].
  - destruct (extract_section_total text section) as (items & Hitems & _).
    exists items. split; [assumption|].
    destruct (extract_section_settled _ _ _ Hitems).
    now apply extract_section_of_settled.
Qed.

(** C5 as stated fails for a section of the Reviewer: the header line
    opens the section without being collected, so the collected items no
    longer open it. *)
Lemma extraction_rerun_section_differs :
  ReviewerAgent._extract_section
    "Strengths - overview
- good method
- large sample" "strengths"
  = inr ["- good method"; "- large sample"]
  /\ ReviewerAgent._extract_section
       (join nl ["- good method"; "- large sample"]) "strengths"
     = inr []
  /\ ReviewerAgent._extract_section
       (join nl ["- good method"; "- large sample"]) "strengths"
     <> inr ["- good method"; "- large sample"].
Proof. repeat split; [reflexivity..|discriminate]. Qed.

(** C7, as the code has it.  The hypotheses are the lines that contain,
    whatever the case of their letters, one of [hypothesis], [h1], [h2],
    [h3], and whose stripped length exceeds 20; they are stripped, kept in
    order, and cut after the fifth. *)
Theorem extract_hypotheses_spec (synthesis : string) :
  SynthesizerAgent._extract_hypotheses synthesis
  = firstn 5
      (map strip (filter hypothesis_line (split newline synthesis))).
Proof. apply extract_hypotheses_kept. Qed.

(** C7 as stated fails: a line labelled [H4] that does not hold the word
    is dropped, where the stated rule keeps it. *)
Lemma extract_hypotheses_misses_H4 :
  SynthesizerAgent._extract_hypotheses
    "H4: sleep duration predicts exam scores" = []
  /\ kept 5 hypothesis_line_any_digit
       "H4: sleep duration predicts exam scores"
     = ["H4: sleep duration predicts exam scores"]
  /\ SynthesizerAgent._extract_hypotheses
       "H4: sleep duration predicts exam scores"
     <> kept 5 hypothesis_line_any_digit
          "H4: sleep duration predicts exam scores".
Proof. repeat split; [reflexivity..|discriminate]. Qed.

(** C10. The section extraction of the Reviewer is total: none of its
    three tests raises on any line, a blank line or a line beginning with
    punctuation included, and on every text it returns a list. *)
Theorem extract_section_never_raises (text section : string) :
  (forall line,
      (exists b, ReviewerAgent.opens_section section line = inr b)
      /\ (exists b, ReviewerAgent.is_item line = inr b)
      /\ (exists b, ReviewerAgent.closes_section line = inr b))
  /\ exists section_lines,
       ReviewerAgent._extract_section text section = inr section_lines.
Proof.
  split.
  - intros line. repeat split; eexists.
    + apply opens_section_pure.
    + apply is_item_pure.
    + apply closes_section_pure.
  - destruct (extract_section_total text section) as (out & Hout & _).
    now exists out.
Qed.

(* ------------------------------------------------------------------ *)
(** ** Properties of the agents *)

Lemma differs_true (field : option string) (v : string) :
  field <> Some v -> differs field v = true.
Proof.
  destruct field as [s|]; [|reflexivity]. intros H. simpl.
  destruct (String.eqb_spec s v) as [->|]; [congruence|reflexivity].
Qed.

Lemma differs_false (field : option string) (v : string) :
  differs field v = false -> field = Some v.
Proof.
  destruct field as [s|]; [|discriminate]. simpl.
  destruct (String.eqb_spec s v) as [->|]; [reflexivity|discriminate].
Qed.

Ltac run_monad :=
  cbn [bind ret raise catch Monad_M MonadExc_M Monad_E MonadExc_E liftE
       call_answer_question call_invoke BaseAgent.retrieve_context].

(** C1, as the code has it.  The Reviewer, the Synthesizer and the
    Questioner, given an input whose status is not [success], return a
    result of status [error] at once: no collaborator is called, neither
    generation nor retrieval.  The Formatter reads the whole workflow
    record and does not look at a status: it calls generation once
    whatever its input, and returns a result unless the chat model raised
    outside [Exception]. *)
Theorem predecessor_failure_short_circuits
  (self : BaseAgent.t) (query : string) (h : history) :
  (forall input_data,
      ResearcherResult.status input_data <> Some "success" ->
      exists result,
        ReviewerAgent.process self input_data query h = (inr result, h)
        /\ ReviewerResult.status result = Some "error")
  /\ (forall input_data,
         ReviewerResult.status input_data <> Some "success" ->
         exists result,
           SynthesizerAgent.process self input_data query h = (inr result, h)
           /\ SynthesizerResult.status result = Some "error")
  /\ (forall input_data,
         SynthesizerResult.status input_data <> Some "success" ->
         exists result,
           QuestionerAgent.process self input_data query h = (inr result, h)
           /\ QuestionerResult.status result = Some "error")
  /\ (forall input_data,
         let user_prompt :=
           FormatterAgent.user_prompt query
             (WorkflowData.researcher input_data)
             (WorkflowData.reviewer input_data)
             (WorkflowData.synthesizer input_data)
             (WorkflowData.questioner input_data) in
         exists outcome,
           FormatterAgent.process self input_data query h
           = (outcome, h ++ [Invoke FormatterAgent.system_prompt user_prompt])
           /\ ((exists result, outcome = inr result)
               \/ (exists b,
                      outcome = inl b /\ is_exception b = false
                      /\ invoke (BaseAgent.llm self) h
                           FormatterAgent.system_prompt user_prompt
                         = inl b))).
Proof.
  repeat split.
  - intros input Hs. unfold ReviewerAgent.process.
    rewrite (differs_true _ _ Hs). eexists. split; reflexivity.
  - intros input Hs. unfold SynthesizerAgent.process.
    rewrite (differs_true _ _ Hs). eexists. split; reflexivity.
  - intros input Hs. unfold QuestionerAgent.process.
    rewrite (differs_true _ _ Hs). eexists. split; reflexivity.
  - intros input user_prompt. unfold FormatterAgent.process. run_monad.
    fold user_prompt.
    destruct (invoke (BaseAgent.llm self) h _ _) as [[e| |code|d]|report];
      eexists; (split; [reflexivity|]);
      solve [ left; eexists; reflexivity
            | right; eexists; repeat split; reflexivity ].
Qed.

Lemma predecessor_failure_short_circuits_witness :
  (exists result,
      ReviewerAgent.process
        (ReviewerAgent.__init__ (constant_rag (inr three_sources))
           (constant_llm (inr "- Strengths")))
        failed_researcher "effects of X on Y" [] = (inr result, [])
      /\ ReviewerResult.status result = Some "error")
  /\ (exists result,
         SynthesizerAgent.process
           (ReviewerAgent.__init__ (constant_rag (inr three_sources))
              (constant_llm (inr "- Strengths")))
           failed_reviewer "effects of X on Y" [] = (inr result, [])
         /\ SynthesizerResult.status result = Some "error")
  /\ (exists result,
         QuestionerAgent.process
           (ReviewerAgent.__init__ (constant_rag (inr three_sources))
              (constant_llm (inr "- Strengths")))
           failed_synthesizer "effects of X on Y" [] = (inr result, [])
         /\ QuestionerResult.status result = Some "error").
Proof.
  pose proof
    (predecessor_failure_short_circuits
       (ReviewerAgent.__init__ (constant_rag (inr three_sources))
          (constant_llm (inr "- Strengths")))
       "effects of X on Y" []) as (Hreviewer & Hsynthesizer & Hquestioner & _).
  repeat split.
  - apply Hreviewer. discriminate.
  - apply Hsynthesizer. discriminate.
  - apply Hquestioner. discriminate.
Defined.

(** C1 as stated fails for the Formatter: on a workflow record whose
    status is [error] it calls generation and answers [success]. *)
Lemma formatter_runs_after_failure :
  WorkflowData.status failed_workflow = "error"
  /\ match FormatterAgent.process
             (FormatterAgent.__init__ (constant_rag (inr three_sources))
                (constant_llm (inr "REPORT")))
             failed_workflow "effects of X on Y" [] with
     | (inr result, [Invoke _ _]) =>
         FormatterResult.status result = Some "success"
         /\ FormatterResult.report result = Some "REPORT"
     | _ => False
     end.
Proof. split; [reflexivity|]. split; reflexivity. Qed.

(** C6. When the Reviewer succeeds, its [sources] are the sources of the
    Researcher followed by those of its own retrieval: the length is the
    sum of the two lengths and nothing is removed. *)
Theorem reviewer_sources_accumulate
  (self : BaseAgent.t) (input_data : ResearcherResult.t) (query : string)
  (h h' : history) (result : ReviewerResult.t) :
  ReviewerAgent.process self input_data query h = (inr result, h') ->
  ReviewerResult.status result = Some "success" ->
  exists context_result,
    answer_question (BaseAgent.rag_pipeline self) h
      (ReviewerAgent.critique_query query) 6 = inr context_result
    /\ ReviewerResult.sources result
       = Some (get_or (ResearcherResult.sources input_data) []
               ++ get_or (Context.sources context_result) [])
    /\ List.length (get_or (ReviewerResult.sources result) [])
       = List.length (get_or (ResearcherResult.sources input_data) [])
         + List.length (get_or (Context.sources context_result) []).
Proof.
  unfold ReviewerAgent.process.
  destruct (differs (ResearcherResult.status input_data) "success").
  - intros [= <- <-]. discriminate.
  - run_monad.
    destruct (answer_question _ h _ 6) as [e|context_result];
      [discriminate|].
    destruct (invoke _ _ _ _) as [[e| |code|d]|critique];
      [intros [= <- <-]; discriminate|discriminate..|].
    destruct (extract_section_total critique "strengths") as (s & -> & _).
    destruct (extract_section_total critique "weaknesses") as (w & -> & _).
    intros [= <- <-] _. exists context_result.
    cbn [ReviewerResult.sources get_or]. rewrite length_app. auto.
Qed.

Lemma reviewer_sources_accumulate_witness :
  exists result h',
    ReviewerAgent.process
      (ReviewerAgent.__init__ (constant_rag (inr three_sources))
         (constant_llm (inr "- Strengths")))
      good_researcher "effects of X on Y" [] = (inr result, h')
    /\ List.length (get_or (ReviewerResult.sources result) []) = 1 + 3.
Proof.
  eexists _, _. split; [cbv; reflexivity|].
  destruct
    (reviewer_sources_accumulate
       (ReviewerAgent.__init__ (constant_rag (inr three_sources))
          (constant_llm (inr "- Strengths")))
       good_researcher "effects of X on Y" [] _ _ eq_refl eq_refl)
    as (context_result & Hcall & _ & Hlength).
  injection Hcall as <-. exact Hlength.
Defined.

Lemma filled_reply (m : ChatModel) (h : history) (s u text : string) :
  speaks m -> invoke m h s u = inr text -> filled (Some text).
Proof.
  intros Hm Hcall. exists text. split; [reflexivity|].
  intros ->. exact (Hm _ _ _ Hcall).
Qed.

Lemma filled_failure (m : ChatModel) (h : history) (s u : string)
  (e : Exception) :
  explains m -> invoke m h s u = inl e -> filled (Some (str_exc e)).
Proof.
  intros Hm Hcall. exists (str_exc e). split; [reflexivity|].
  exact (Hm _ _ _ _ Hcall).
Qed.

Ltac close_invariant :=
  split; intros Hstatus; try discriminate Hstatus;
  repeat split;
  solve [ discriminate | now left | now right | reflexivity
        | now eexists; split; [reflexivity|]
        | eauto using filled_reply, filled_failure ].

(** the shape, then the message under its proviso and the payload under
    its own *)
Ltac close_result :=
  split; [close_invariant|];
  split; intros Hm Hstatus; try discriminate Hstatus;
  solve [ now eexists; split; [reflexivity|]
        | eauto using filled_reply, filled_failure ].

(** C9, as the code has it.  In every result an agent returns: with status
    [error] the payload fields are empty or absent and a message is
    present; with status [success] the mandatory payload field is present.
    Moreover a message of a result of status [error] is non-empty if the
    chat model never raises an exception of empty description, and the
    mandatory payload field of a result of status [success] is non-empty
    if the chat model never answers with an empty text; each of the two
    needs its own proviso only. *)
Theorem agent_result_invariant (self : BaseAgent.t) (query : string)
  (h h' : history) :
  (forall input_data result,
      ResearcherAgent.process self input_data query h = (inr result, h') ->
      researcher_invariant shape result
      /\ (explains (BaseAgent.llm self) ->
          ResearcherResult.status result = Some "error" ->
          filled (ResearcherResult.message result))
      /\ (speaks (BaseAgent.llm self) ->
          ResearcherResult.status result = Some "success" ->
          filled (ResearcherResult.analysis result)))
  /\ (forall input_data result,
         ReviewerAgent.process self input_data query h = (inr result, h') ->
         reviewer_invariant shape result
         /\ (explains (BaseAgent.llm self) ->
             ReviewerResult.status result = Some "error" ->
             filled (ReviewerResult.message result))
         /\ (speaks (BaseAgent.llm self) ->
             ReviewerResult.status result = Some "success" ->
             filled (ReviewerResult.critique result)))
  /\ (forall input_data result,
         SynthesizerAgent.process self input_data query h
         = (inr result, h') ->
         synthesizer_invariant shape result
         /\ (explains (BaseAgent.llm self) ->
             SynthesizerResult.status result = Some "error" ->
             filled (SynthesizerResult.message result))
         /\ (speaks (BaseAgent.llm self) ->
             SynthesizerResult.status result = Some "success" ->
             filled (SynthesizerResult.synthesis result)))
  /\ (forall input_data result,
         QuestionerAgent.process self input_data query h
         = (inr result, h') ->
         questioner_invariant shape result
         /\ (explains (BaseAgent.llm self) ->
             QuestionerResult.status result = Some "error" ->
             filled (QuestionerResult.message result))
         /\ (speaks (BaseAgent.llm self) ->
             QuestionerResult.status result = Some "success" ->
             filled (QuestionerResult.gap_analysis result)))
  /\ (forall input_data result,
         FormatterAgent.process self input_data query h
         = (inr result, h') ->
         formatter_invariant shape result
         /\ (explains (BaseAgent.llm self) ->
             FormatterResult.status result = Some "error" ->
             filled (FormatterResult.message result))
         /\ (speaks (BaseAgent.llm self) ->
             FormatterResult.status result = Some "success" ->
             filled (FormatterResult.report result))).
Proof.
  split; [|split; [|split; [|split]]]; intros input_data result.
  - unfold ResearcherAgent.process. run_monad.
    destruct (answer_question _ h _ 10) as [e|context_result];
      [discriminate|].
    destruct (get_or (Context.sources context_result) []) as [|c l].
    + intros [= <- <-]. close_result.
    + destruct (Context.answer context_result) as [context_text|];
        run_monad; [|discriminate].
      destruct (invoke _ _ _ _) as [[e| |code|d]|analysis] eqn:Hcall;
        try discriminate.
      * intros [= <- <-]. close_result.
      * rewrite extract_findings_kept. run_monad.
        intros [= <- <-]. close_result.
  - unfold ReviewerAgent.process.
    destruct (differs (ResearcherResult.status input_data) "success").
    + intros [= <- <-]. close_result.
    + run_monad.
      destruct (answer_question _ h _ 6) as [e|context_result];
        [discriminate|].
      destruct (invoke _ _ _ _) as [[e| |code|d]|critique] eqn:Hcall;
        try discriminate.
      * intros [= <- <-]. close_result.
      * destruct (extract_section_total critique "strengths")
          as (s & -> & _).
        destruct (extract_section_total critique "weaknesses")
          as (w & -> & _).
        intros [= <- <-]. close_result.
  - unfold SynthesizerAgent.process.
    destruct (differs (ReviewerResult.status input_data) "success").
    + intros [= <- <-]. close_result.
    + run_monad.
      destruct (answer_question _ h _ 6) as [e|context_result];
        [discriminate|].
      destruct (invoke _ _ _ _) as [[e| |code|d]|synthesis] eqn:Hcall;
        try discriminate; intros [= <- <-]; close_result.
  - unfold QuestionerAgent.process.
    destruct (differs (SynthesizerResult.status input_data) "success").
    + intros [= <- <-]. close_result.
    + run_monad.
      destruct (answer_question _ h _ 5) as [e|context_result];
        [discriminate|].
      destruct (invoke _ _ _ _) as [[e| |code|d]|gap_analysis] eqn:Hcall;
        try discriminate; intros [= <- <-]; close_result.
  - unfold FormatterAgent.process. run_monad.
    destruct (invoke _ _ _ _) as [[e| |code|d]|report] eqn:Hcall;
      try discriminate; intros [= <- <-]; close_result.
Qed.

Lemma agent_result_invariant_witness :
  exists result h',
    ResearcherAgent.process
      (ResearcherAgent.__init__ (constant_rag (inr three_sources))
         (constant_llm (inr "- X raises Y (a.pdf)")))
      (ResearcherAgent.Dict (Some "effects of X on Y"))
      "effects of X on Y" [] = (inr result, h')
    /\ ResearcherResult.status result = Some "success"
    /\ researcher_invariant shape result
    /\ filled (ResearcherResult.analysis result).
Proof.
  eexists _, _. split; [cbv; reflexivity|]. split; [reflexivity|].
  destruct
    (proj1
       (agent_result_invariant
          (ResearcherAgent.__init__ (constant_rag (inr three_sources))
             (constant_llm (inr "- X raises Y (a.pdf)")))
          "effects of X on Y" [] _)
       (ResearcherAgent.Dict (Some "effects of X on Y")) _ eq_refl)
    as (Hshape & _ & Hsuccess).
  split; [exact Hshape|].
  apply Hsuccess; [|reflexivity].
  intros h s u. discriminate.
Defined.

(** C9 as stated fails twice: a chat model that answers with an empty text
    gives a result of status [success] whose analysis is empty, and one
    that raises an exception of empty description gives a result of status
    [error] whose message is empty. *)
Lemma empty_text_breaks_invariant :
  (exists result h',
      ResearcherAgent.process
        (ResearcherAgent.__init__ (constant_rag (inr three_sources))
           (constant_llm (inr "")))
        (ResearcherAgent.Dict (Some "effects of X on Y"))
        "effects of X on Y" [] = (inr result, h')
      /\ ResearcherResult.status result = Some "success"
      /\ ResearcherResult.analysis result = Some ""
      /\ ~ researcher_invariant invariant result)
  /\ (exists result h',
         ResearcherAgent.process
           (ResearcherAgent.__init__ (constant_rag (inr three_sources))
              (constant_llm (inl (Failure ""))))
           (ResearcherAgent.Dict (Some "effects of X on Y"))
           "effects of X on Y" [] = (inr result, h')
         /\ ResearcherResult.status result = Some "error"
         /\ ResearcherResult.message result = Some ""
         /\ ~ researcher_invariant invariant result).
Proof.
  split; eexists _, _; (split; [cbv; reflexivity|]);
    (split; [reflexivity|]); (split; [reflexivity|]).
  - intros [_ Hsuccess]. destruct (Hsuccess eq_refl) as (s & [= <-] & Hs).
    now apply Hs.
  - intros [Herror _].
    destruct (Herror eq_refl) as (_ & _ & s & [= <-] & Hs).
    now apply Hs.
Qed.

(* ------------------------------------------------------------------ *)
(** ** Properties of the orchestrator *)

Import MultiAgentResearchSystem.

Ltac run_workflow :=
  unfold call, update, read, handler, entry in *;
  cbn [bind ret raise catch Monad_M MonadExc_M fst snd initial app
       WorkflowData.set_researcher WorkflowData.set_reviewer
       WorkflowData.set_synthesizer WorkflowData.set_questioner
       WorkflowData.set_formatter WorkflowData.set_status
       WorkflowData.set_error WorkflowData.set_report
       WorkflowData.workflow_append].




Lemma differs_same (v : string) : differs (Some v) v = false.
Proof. simpl. now rewrite String.eqb_refl. Qed.





Lemma stages_settle (self : MultiAgentResearchSystem.t) (query : string)
  (h : history) (s : WorkflowData.t * history) :
  stages self query (initial query, h) = (inr tt, s) ->
  WorkflowData.status (fst s) = "success"
  \/ WorkflowData.status (fst s) = "error".
Proof.
  unfold stages. run_workflow.
  destruct (ResearcherAgent.process _ _ _ _) as [[e|r1] h1];
    [discriminate|].
  destruct (differs (ResearcherResult.status r1) "success");
    [intros [= <-]; now right|].
  destruct (ReviewerAgent.process _ _ _ _) as [[e|r2] h2];
    [discriminate|].
  destruct (differs (ReviewerResult.status r2) "success");
    [intros [= <-]; now right|].
  destruct (SynthesizerAgent.process _ _ _ _) as [[e|r3] h3];
    [discriminate|].
  destruct (differs (SynthesizerResult.status r3) "success");
    [intros [= <-]; now right|].
  destruct (QuestionerAgent.process _ _ _ _) as [[e|r4] h4];
    [discriminate|].
  destruct (differs (QuestionerResult.status r4) "success");
    [intros [= <-]; now right|].
  destruct (FormatterAgent.process _ _ _ _) as [[e|r5] h5];
    [discriminate|].
  destruct (differs (FormatterResult.status r5) "success");
    intros [= <-]; [now right|now left].
Qed.

Lemma researcher_retrieval_raises (self : BaseAgent.t) (query : string)
  (h : history) (e : Exception) :
  answer_question (BaseAgent.rag_pipeline self) h query 10 = inl e ->
  ResearcherAgent.process self (ResearcherAgent.Dict (Some query)) query h
  = (inl e, h ++ [Retrieve query 10]).
Proof.
  intros Hcall. unfold ResearcherAgent.process. run_monad.
  cbn [get_or]. now rewrite Hcall.
Qed.

(** A retrieval that raises is not caught by the Researcher; the run
    records it and returns, with an empty log. *)
Example run_survives_retrieval_failure :
  run_research_workflow
    (__init__ (constant_rag (inl (Failure "index unavailable")))
       (constant_llm (inr "- finding")) (constant_llm (inr "- Strengths"))
       (constant_llm (inr "Hypothesis 1")) (constant_llm (inr "Why?"))
       (constant_llm (inr "REPORT")))
    "effects of X on Y" []
  = (inr (WorkflowData.Build_t "effects of X on Y" []
            ResearcherResult.empty ReviewerResult.empty
            SynthesizerResult.empty QuestionerResult.empty
            FormatterResult.empty "error" (Some "index unavailable") None),
     [Retrieve "effects of X on Y" 10]).
Proof. reflexivity. Qed.

(** The run of the specification's end-to-end scenario: three sources at
    every retrieval and a text at every generation. *)
Example run_end_to_end :
  match
    fst (run_research_workflow
           (__init__ (constant_rag (inr three_sources))
              (constant_llm (inr "- X raises Y (a.pdf)"))
              (constant_llm (inr "- Strengths"))
              (constant_llm (inr "Hypothesis 1: X raises Y through Z"))
              (constant_llm (inr "Why does X raise Y?"))
              (constant_llm (inr "REPORT")))
           "effects of X on Y" [])
  with
  | inr workflow_data =>
      WorkflowData.status workflow_data = "success"
      /\ map LogEntry.status (WorkflowData.workflow workflow_data)
         = ["success"; "success"; "success"; "success"; "success"]
      /\ WorkflowData.report workflow_data = Some "REPORT"
      /\ option_map (@List.length Citation)
           (FormatterResult.sources (WorkflowData.formatter workflow_data))
         = Some 3
  | inl _ => False
  end.
Proof. vm_compute. repeat split. Qed.

(* ------------------------------------------------------------------ *)
(** ** Further properties of the extraction heuristics *)

Lemma section_loop_open (section : string) (lines : list string) :
  forall acc,
    ReviewerAgent.section_loop section lines true acc
    = inr (acc ++ collected lines).
Proof.
  induction lines as [|line rest IH]; intros acc.
  - simpl. now rewrite app_nil_r.
  - rewrite section_loop_cons, orb_true_r. simpl collected.
    destruct (finding_line line).
    + rewrite IH, <- app_assoc. reflexivity.
    + destruct (closing_line line); [now rewrite app_nil_r|apply IH].
Qed.

Lemma section_loop_closed (section : string) (lines : list string) :
  ReviewerAgent.section_loop section lines false []
  = inr (collected (from_first (opens_line section) lines)).
Proof.
  induction lines as [|line rest IH]; [reflexivity|].
  rewrite section_loop_cons, orb_false_r. simpl from_first.
  destruct (opens_line section line); [|exact IH].
  simpl collected.
  destruct (finding_line line); [now rewrite section_loop_open|].
  destruct (closing_line line); [reflexivity|].
  now rewrite section_loop_open.
Qed.

Lemma from_first_none {A : Type} (p : A -> bool) (l : list A) :
  (forall x, In x l -> p x = false) -> from_first p l = [].
Proof.
  induction l as [|x rest IH]; intros Hnone; [reflexivity|].
  simpl. rewrite (Hnone x (or_introl eq_refl)).
  apply IH. intros y Hy. apply Hnone. now right.
Qed.

(** The section extraction of the Reviewer, in one formula: from the first
    line that names the section and looks like a list header on, the list
    lines are collected, stripped, until a long line that is no list line;
    the first five are returned.  A later header does not end the
    section. *)
Theorem extract_section_spec (text section : string) :
  ReviewerAgent._extract_section text section
  = inr (firstn 5
           (collected
              (from_first (opens_line section) (split newline text)))).
Proof.
  unfold ReviewerAgent._extract_section.
  now rewrite section_loop_closed.
Qed.

(** Without a line that names the section and holds a dash or begins with
    a digit, the section extraction returns the empty list, whatever list
    lines the text has. *)
Theorem extract_section_without_header (text section : string) :
  (forall line, In line (split newline text) ->
                opens_line section line = false) ->
  ReviewerAgent._extract_section text section = inr [].
Proof.
  intros Hnone. unfold ReviewerAgent._extract_section.
  now rewrite section_loop_closed, (from_first_none _ _ Hnone).
Qed.

Lemma extract_section_without_header_witness :
  ReviewerAgent._extract_section
    "Strengths:
- good method
- large sample" "strengths" = inr [].
Proof.
  apply extract_section_without_header.
  intros line [<-|[<-|[<-|[]]]]; reflexivity.
Defined.

Lemma split_append (sep : ascii) (a b : string) :
  split sep (a ++ String sep b) = split sep a ++ split sep b.
Proof.
  induction a as [|c r IH]; simpl.
  - now rewrite Ascii.eqb_refl.
  - destruct (Ascii.eqb c sep); [now rewrite IH|].
    rewrite IH. destruct (split_cons sep r) as (x & t & ->). reflexivity.
Qed.

Lemma firstn_app_firstn {A : Type} (n : nat) (l1 l2 : list A) :
  firstn n (firstn n l1 ++ firstn n l2) = firstn n (l1 ++ l2).
Proof.
  rewrite !firstn_app, !firstn_firstn, length_firstn.
  rewrite Nat.min_id. f_equal. f_equal. lia.
Qed.

Lemma kept_append (cap : nat) (test : string -> bool) (a b : string) :
  kept cap test (a ++ nl ++ b)
  = firstn cap (kept cap test a ++ kept cap test b).
Proof.
  unfold kept. change (a ++ nl ++ b)%string with (a ++ String newline b)%string.
  now rewrite split_append, filter_app, map_app, firstn_app_firstn.
Qed.

(** The five line filters compose over texts: the items of two texts
    joined by a line break are the items of the first followed by those of
    the second, cut at the cap.  So what follows a text never changes the
    items already found in it. *)
Theorem extraction_of_joined_texts (a b : string) :
  (exists fa fb,
      ResearcherAgent._extract_findings a = inr fa
      /\ ResearcherAgent._extract_findings b = inr fb
      /\ ResearcherAgent._extract_findings (a ++ nl ++ b)
         = inr (firstn 10 (fa ++ fb)))
  /\ SynthesizerAgent._extract_hypotheses (a ++ nl ++ b)
     = firstn 5 (SynthesizerAgent._extract_hypotheses a
                 ++ SynthesizerAgent._extract_hypotheses b)
  /\ SynthesizerAgent._extract_insights (a ++ nl ++ b)
     = firstn 5 (SynthesizerAgent._extract_insights a
                 ++ SynthesizerAgent._extract_insights b)
  /\ QuestionerAgent._extract_gaps (a ++ nl ++ b)
     = firstn 5 (QuestionerAgent._extract_gaps a
                 ++ QuestionerAgent._extract_gaps b)
  /\ QuestionerAgent._extract_questions (a ++ nl ++ b)
     = firstn 7 (QuestionerAgent._extract_questions a
                 ++ QuestionerAgent._extract_questions b).
Proof.
  repeat split.
  - exists (kept 10 finding_line a), (kept 10 finding_line b).
    rewrite !extract_findings_kept. repeat split.
    now rewrite kept_append.
  - rewrite !extract_hypotheses_kept. apply kept_append.
  - rewrite !extract_insights_kept. apply kept_append.
  - rewrite !extract_gaps_kept. apply kept_append.
  - rewrite !extract_questions_kept. apply kept_append.
Qed.

(** Every item a heuristic extracts is a single line without white space
    at its ends that passes the test of the heuristic again: a finding and
    a section item begin with a dash or a digit, a hypothesis, an insight
    and a gap hold their keyword and exceed their length, a question holds
    a question mark. *)
Theorem extracted_items_settled (text section : string) :
  (exists findings,
      ResearcherAgent._extract_findings text = inr findings
      /\ Forall (settled finding_line) findings)
  /\ (exists items,
         ReviewerAgent._extract_section text section = inr items
         /\ Forall (settled finding_line) items)
  /\ Forall (settled hypothesis_line)
       (SynthesizerAgent._extract_hypotheses text)
  /\ Forall (settled insight_line)
       (SynthesizerAgent._extract_insights text)
  /\ Forall (settled gap_line) (QuestionerAgent._extract_gaps text)
  /\ Forall (settled question_line)
       (QuestionerAgent._extract_questions text).
Proof.
  repeat split.
  - rewrite extract_findings_kept. eexists. split; [reflexivity|].
    apply kept_settled, finding_line_strip.
  - destruct (extract_section_total text section) as (items & Hitems & _).
    exists items. split; [assumption|].
    now destruct (extract_section_settled _ _ _ Hitems).
  - rewrite extract_hypotheses_kept.
    apply kept_settled, hypothesis_line_strip.
  - rewrite extract_insights_kept.
    apply kept_settled, insight_line_strip.
  - rewrite extract_gaps_kept. apply kept_settled, gap_line_strip.
  - rewrite extract_questions_kept.
    apply kept_settled, question_line_strip.
Qed.

(** The loops of the findings, insights, gaps and questions heuristics are
    filters: the lines that pass the test, stripped, in the order of the
    text, cut at the cap. *)
Theorem extraction_loops_are_filters (text : string) :
  ResearcherAgent._extract_findings text
  = inr (firstn 10
           (map strip (filter finding_line (split newline text))))
  /\ SynthesizerAgent._extract_insights text
     = firstn 5 (map strip (filter insight_line (split newline text)))
  /\ QuestionerAgent._extract_gaps text
     = firstn 5 (map strip (filter gap_line (split newline text)))
  /\ QuestionerAgent._extract_questions text
     = firstn 7 (map strip (filter question_line (split newline text))).
Proof.
  repeat split.
  - apply extract_findings_kept.
  - apply extract_insights_kept.
  - apply extract_gaps_kept.
  - apply extract_questions_kept.
Qed.

(* ------------------------------------------------------------------ *)
(** ** The agents, case by case *)

Lemma extract_section_items (text section : string) :
  ReviewerAgent._extract_section text section
  = inr (section_items text section).
Proof.
  unfold ReviewerAgent._extract_section, section_items.
  now rewrite section_loop_closed.
Qed.

Lemma researcher_process_eq (self : BaseAgent.t)
  (input_data : ResearcherAgent.Input) (query : string) (h : history) :
  ResearcherAgent.process self input_data query h =
  let rq := retrieval_query input_data query in
  let h1 := h ++ [Retrieve rq 10] in
  match answer_question (BaseAgent.rag_pipeline self) h rq 10 with
  | inl e => (inl e, h1)
  | inr context_result =>
      match get_or (Context.sources context_result) [] with
      | [] =>
          (inr (ResearcherResult.Build_t (Some (BaseAgent.name self))
                  (Some "error") (Some "No relevant documents found")
                  None (Some []) (Some []) None), h1)
      | c :: l =>
          match Context.answer context_result with
          | None => (inl (KeyError "answer"), h1)
          | Some context_text =>
              let up :=
                ResearcherAgent.user_prompt query context_text (c :: l) in
              let h2 := h1 ++ [Invoke ResearcherAgent.system_prompt up] in
              match invoke (BaseAgent.llm self) h1
                      ResearcherAgent.system_prompt up with
              | inl (Exc e) =>
                  (inr (ResearcherResult.Build_t
                          (Some (BaseAgent.name self)) (Some "error")
                          (Some (str_exc e)) None (Some []) (Some [])
                          None), h2)
              | inl b => (inl b, h2)
              | inr analysis =>
                  (inr (ResearcherResult.Build_t
                          (Some (BaseAgent.name self)) (Some "success")
                          None (Some analysis)
                          (Some (kept 10 finding_line analysis))
                          (Some (c :: l))
                          (Some (List.length (c :: l)))), h2)
              end
          end
      end
  end.
Proof.
  unfold ResearcherAgent.process, retrieval_query. run_monad.
  destruct (answer_question _ h _ 10) as [e|context_result];
    [reflexivity|].
  destruct (get_or (Context.sources context_result) []) as [|c l];
    [reflexivity|].
  destruct (Context.answer context_result) as [context_text|];
    run_monad; [|reflexivity].
  destruct (invoke _ _ _ _) as [[e| |code|d]|analysis]; [reflexivity..|].
  now rewrite extract_findings_kept.
Qed.

Lemma reviewer_process_eq (self : BaseAgent.t)
  (input_data : ResearcherResult.t) (query : string) (h : history) :
  ReviewerAgent.process self input_data query h =
  if differs (ResearcherResult.status input_data) "success" then
    (inr (ReviewerResult.Build_t (Some (BaseAgent.name self))
            (Some "error") (Some "Invalid input from previous agent")
            (Some "") None None None None), h)
  else
    let h1 := h ++ [Retrieve (ReviewerAgent.critique_query query) 6] in
    match answer_question (BaseAgent.rag_pipeline self) h
            (ReviewerAgent.critique_query query) 6 with
    | inl e => (inl e, h1)
    | inr context_result =>
        let up :=
          ReviewerAgent.user_prompt query
            (get_or (ResearcherResult.analysis input_data) "")
            (get_or (ResearcherResult.findings input_data) [])
            context_result in
        let h2 := h1 ++ [Invoke ReviewerAgent.system_prompt up] in
        match invoke (BaseAgent.llm self) h1
                ReviewerAgent.system_prompt up with
        | inl (Exc e) =>
            (inr (ReviewerResult.Build_t (Some (BaseAgent.name self))
                    (Some "error") (Some (str_exc e)) (Some "")
                    None None None None), h2)
        | inl b => (inl b, h2)
        | inr critique =>
            (inr (ReviewerResult.Build_t (Some (BaseAgent.name self))
                    (Some "success") None (Some critique)
                    (Some (get_or (ResearcherResult.analysis input_data) ""))
                    (Some (section_items critique "strengths"))
                    (Some (section_items critique "weaknesses"))
                    (Some (get_or (ResearcherResult.sources input_data) []
                           ++ get_or (Context.sources context_result) []))),
             h2)
        end
    end.
Proof.
  unfold ReviewerAgent.process.
  destruct (differs _ _); [reflexivity|]. run_monad.
  destruct (answer_question _ h _ 6) as [e|context_result]; [reflexivity|].
  destruct (invoke _ _ _ _) as [[e| |code|d]|critique]; [reflexivity..|].
  now rewrite !extract_section_items.
Qed.

Lemma synthesizer_process_eq (self : BaseAgent.t)
  (input_data : ReviewerResult.t) (query : string) (h : history) :
  SynthesizerAgent.process self input_data query h =
  if differs (ReviewerResult.status input_data) "success" then
    (inr (SynthesizerResult.Build_t (Some (BaseAgent.name self))
            (Some "error") (Some "Invalid input from previous agent")
            (Some "") (Some []) None None None), h)
  else
    let h1 := h ++ [Retrieve (SynthesizerAgent.synthesis_query query) 6] in
    match answer_question (BaseAgent.rag_pipeline self) h
            (SynthesizerAgent.synthesis_query query) 6 with
    | inl e => (inl e, h1)
    | inr context_result =>
        let up :=
          SynthesizerAgent.user_prompt query
            (get_or (ReviewerResult.researcher_analysis input_data) "")
            (get_or (ReviewerResult.critique input_data) "")
            (get_or (ReviewerResult.strengths input_data) [])
            (get_or (ReviewerResult.weaknesses input_data) [])
            context_result in
        let h2 := h1 ++ [Invoke SynthesizerAgent.system_prompt up] in
        match invoke (BaseAgent.llm self) h1
                SynthesizerAgent.system_prompt up with
        | inl (Exc e) =>
            (inr (SynthesizerResult.Build_t (Some (BaseAgent.name self))
                    (Some "error") (Some (str_exc e)) (Some "") (Some [])
                    None None None), h2)
        | inl b => (inl b, h2)
        | inr synthesis =>
            (inr (SynthesizerResult.Build_t (Some (BaseAgent.name self))
                    (Some "success") None (Some synthesis)
                    (Some (SynthesizerAgent._extract_hypotheses synthesis))
                    (Some (SynthesizerAgent._extract_insights synthesis))
                    (Some (get_or
                             (ReviewerResult.researcher_analysis input_data)
                             ""))
                    (Some (get_or (ReviewerResult.critique input_data) ""))),
             h2)
        end
    end.
Proof.
  unfold SynthesizerAgent.process.
  destruct (differs _ _); [reflexivity|]. run_monad.
  destruct (answer_question _ h _ 6) as [e|context_result]; [reflexivity|].
  now destruct (invoke _ _ _ _) as [[e| |code|d]|synthesis].
Qed.

Lemma questioner_process_eq (self : BaseAgent.t)
  (input_data : SynthesizerResult.t) (query : string) (h : history) :
  QuestionerAgent.process self input_data query h =
  if differs (SynthesizerResult.status input_data) "success" then
    (inr (QuestionerResult.Build_t (Some (BaseAgent.name self))
            (Some "error") (Some "Invalid input from previous agent")
            None (Some []) (Some []) None None), h)
  else
    let h1 := h ++ [Retrieve (QuestionerAgent.gap_query query) 5] in
    match answer_question (BaseAgent.rag_pipeline self) h
            (QuestionerAgent.gap_query query) 5 with
    | inl e => (inl e, h1)
    | inr context_result =>
        let up :=
          QuestionerAgent.user_prompt query
            (get_or (SynthesizerResult.synthesis input_data) "")
            (get_or (SynthesizerResult.hypotheses input_data) [])
            (get_or (SynthesizerResult.insights input_data) [])
            (get_or (SynthesizerResult.researcher_analysis input_data) "")
            (get_or (SynthesizerResult.critique input_data) "")
            context_result in
        let h2 := h1 ++ [Invoke QuestionerAgent.system_prompt up] in
        match invoke (BaseAgent.llm self) h1
                QuestionerAgent.system_prompt up with
        | inl (Exc e) =>
            (inr (QuestionerResult.Build_t (Some (BaseAgent.name self))
                    (Some "error") (Some (str_exc e)) None (Some [])
                    (Some []) None None), h2)
        | inl b => (inl b, h2)
        | inr gap_analysis =>
            (inr (QuestionerResult.Build_t (Some (BaseAgent.name self))
                    (Some "success") None (Some gap_analysis)
                    (Some (QuestionerAgent._extract_gaps gap_analysis))
                    (Some (QuestionerAgent._extract_questions gap_analysis))
                    (Some (get_or (SynthesizerResult.synthesis input_data) ""))
                    (Some (get_or (SynthesizerResult.hypotheses input_data)
                             []))),
             h2)
        end
    end.
Proof.
  unfold QuestionerAgent.process.
  destruct (differs _ _); [reflexivity|]. run_monad.
  destruct (answer_question _ h _ 5) as [e|context_result]; [reflexivity|].
  now destruct (invoke _ _ _ _) as [[e| |code|d]|gap_analysis].
Qed.

Lemma formatter_process_eq (self : BaseAgent.t)
  (input_data : WorkflowData.t) (query : string) (h : history) :
  FormatterAgent.process self input_data query h =
  let up :=
    FormatterAgent.user_prompt query (WorkflowData.researcher input_data)
      (WorkflowData.reviewer input_data)
      (WorkflowData.synthesizer input_data)
      (WorkflowData.questioner input_data) in
  let h1 := h ++ [Invoke FormatterAgent.system_prompt up] in
  match invoke (BaseAgent.llm self) h FormatterAgent.system_prompt up with
  | inl (Exc e) =>
      (inr (FormatterResult.Build_t (Some (BaseAgent.name self))
              (Some "error") (Some (str_exc e)) (Some "")
              None None None None None None), h1)
  | inl b => (inl b, h1)
  | inr report =>
      (inr (FormatterResult.Build_t (Some (BaseAgent.name self))
              (Some "success") None (Some report) (Some query)
              (Some (WorkflowData.researcher input_data))
              (Some (WorkflowData.reviewer input_data))
              (Some (WorkflowData.synthesizer input_data))
              (Some (WorkflowData.questioner input_data))
              (Some (get_or
                       (ResearcherResult.sources
                          (WorkflowData.researcher input_data)) []))), h1)
  end.
Proof.
  unfold FormatterAgent.process. run_monad.
  now destruct (invoke _ _ _ _) as [[e| |code|d]|report].
Qed.

(* ------------------------------------------------------------------ *)
(** ** Further properties of the agents *)

(** No agent calls a collaborator twice: a process makes at most one
    retrieval, then at most one generation, and never tries again after a
    failure.  The number of documents asked for is fixed by the role (10
    for the Researcher, 6 for the Reviewer and the Synthesizer, 5 for the
    Questioner), whatever [max_retrieval_docs] holds; the Researcher
    retrieves with the query of its input dictionary when it has one. *)
Theorem agents_call_collaborators_once
  (self : BaseAgent.t) (query : string) (h : history) :
  (forall input_data,
      exists calls,
        snd (ResearcherAgent.process self input_data query h) = h ++ calls
        /\ (calls = [Retrieve (retrieval_query input_data query) 10]
            \/ exists user_prompt,
                calls = [Retrieve (retrieval_query input_data query) 10;
                         Invoke ResearcherAgent.system_prompt user_prompt]))
  /\ (forall input_data,
         exists calls,
           snd (ReviewerAgent.process self input_data query h) = h ++ calls
           /\ (calls = []
               \/ calls = [Retrieve (ReviewerAgent.critique_query query) 6]
               \/ exists user_prompt,
                   calls = [Retrieve (ReviewerAgent.critique_query query) 6;
                            Invoke ReviewerAgent.system_prompt user_prompt]))
  /\ (forall input_data,
         exists calls,
           snd (SynthesizerAgent.process self input_data query h)
           = h ++ calls
           /\ (calls = []
               \/ calls
                  = [Retrieve (SynthesizerAgent.synthesis_query query) 6]
               \/ exists user_prompt,
                   calls
                   = [Retrieve (SynthesizerAgent.synthesis_query query) 6;
                      Invoke SynthesizerAgent.system_prompt user_prompt]))
  /\ (forall input_data,
         exists calls,
           snd (QuestionerAgent.process self input_data query h)
           = h ++ calls
           /\ (calls = []
               \/ calls = [Retrieve (QuestionerAgent.gap_query query) 5]
               \/ exists user_prompt,
                   calls = [Retrieve (QuestionerAgent.gap_query query) 5;
                            Invoke QuestionerAgent.system_prompt
                              user_prompt])).
Proof.
  split; [|split; [|split]]; intros input_data.
  - rewrite researcher_process_eq. cbv zeta.
    destruct (answer_question _ h _ 10) as [e|context_result];
      [eexists; split; [reflexivity|now left]|].
    destruct (get_or (Context.sources context_result) []) as [|c l];
      [eexists; split; [reflexivity|now left]|].
    destruct (Context.answer context_result) as [context_text|];
      [|eexists; split; [reflexivity|now left]].
    destruct (invoke _ _ _ _) as [[]|]; cbn [snd]; rewrite <- app_assoc;
      eexists; (split; [reflexivity|right; eexists; reflexivity]).
  - rewrite reviewer_process_eq. cbv zeta.
    destruct (differs _ _);
      [exists []; split; [now rewrite app_nil_r|now left]|].
    destruct (answer_question _ h _ 6) as [e|context_result];
      [eexists; split; [reflexivity|now right; left]|].
    destruct (invoke _ _ _ _) as [[]|]; cbn [snd]; rewrite <- app_assoc;
      eexists; (split; [reflexivity|right; right; eexists; reflexivity]).
  - rewrite synthesizer_process_eq. cbv zeta.
    destruct (differs _ _);
      [exists []; split; [now rewrite app_nil_r|now left]|].
    destruct (answer_question _ h _ 6) as [e|context_result];
      [eexists; split; [reflexivity|now right; left]|].
    destruct (invoke _ _ _ _) as [[]|]; cbn [snd]; rewrite <- app_assoc;
      eexists; (split; [reflexivity|right; right; eexists; reflexivity]).
  - rewrite questioner_process_eq. cbv zeta.
    destruct (differs _ _);
      [exists []; split; [now rewrite app_nil_r|now left]|].
    destruct (answer_question _ h _ 5) as [e|context_result];
      [eexists; split; [reflexivity|now right; left]|].
    destruct (invoke _ _ _ _) as [[]|]; cbn [snd]; rewrite <- app_assoc;
      eexists; (split; [reflexivity|right; right; eexists; reflexivity]).
Qed.

(** hypotheses taken apart *)
Ltac break_down :=
  repeat match goal with
         | H : _ /\ _ |- _ => destruct H
         | H : _ \/ _ |- _ => destruct H
         | H : exists _, _ |- _ => destruct H
         end.

(** a raise said to pass a handler that caught it *)
Ltac refute_passing :=
  match goal with
  | Hb : is_exception ?b = false, Hc : _ = inl (Exc ?e) |- _ =>
      assert (b = Exc e) by congruence; subst b; discriminate Hb
  end.

Ltac settle_raise :=
  let H := fresh "H" in
  intros H; break_down; first [congruence | refute_passing].

(** What leaves an agent.  A raise of its retrieval, whatever it is: the
    retrieval sits outside the [try] block.  For the Researcher the
    missing [answer] key of a retrieval result that has sources.  A raise
    of the chat model only if it is no instance of [Exception]: the
    handler is [except Exception], so a [KeyboardInterrupt] or a
    [SystemExit] passes, and an instance of [Exception] never does.
    Nothing else: the Formatter raises exactly when its chat model raises
    outside [Exception]. *)
Theorem exceptions_that_leave_an_agent
  (self : BaseAgent.t) (query : string) (h : history) (b : BaseException) :
  (forall input_data,
      let rq := retrieval_query input_data query in
      fst (ResearcherAgent.process self input_data query h) = inl b
      <-> (answer_question (BaseAgent.rag_pipeline self) h rq 10 = inl b
           \/ exists context_result,
               answer_question (BaseAgent.rag_pipeline self) h rq 10
               = inr context_result
               /\ get_or (Context.sources context_result) [] <> []
               /\ ((Context.answer context_result = None
                    /\ b = KeyError "answer")
                   \/ exists context_text,
                       Context.answer context_result = Some context_text
                       /\ is_exception b = false
                       /\ invoke (BaseAgent.llm self)
                            (h ++ [Retrieve rq 10])
                            ResearcherAgent.system_prompt
                            (ResearcherAgent.user_prompt query context_text
                               (get_or (Context.sources context_result) []))
                          = inl b)))
  /\ (forall input_data,
         let rq := ReviewerAgent.critique_query query in
         fst (ReviewerAgent.process self input_data query h) = inl b
         <-> (ResearcherResult.status input_data = Some "success"
              /\ (answer_question (BaseAgent.rag_pipeline self) h rq 6
                  = inl b
                  \/ exists context_result,
                      answer_question (BaseAgent.rag_pipeline self) h rq 6
                      = inr context_result
                      /\ is_exception b = false
                      /\ invoke (BaseAgent.llm self) (h ++ [Retrieve rq 6])
                           ReviewerAgent.system_prompt
                           (ReviewerAgent.user_prompt query
                              (get_or (ResearcherResult.analysis input_data)
                                 "")
                              (get_or (ResearcherResult.findings input_data)
                                 [])
                              context_result)
                         = inl b)))
  /\ (forall input_data,
         let rq := SynthesizerAgent.synthesis_query query in
         fst (SynthesizerAgent.process self input_data query h) = inl b
         <-> (ReviewerResult.status input_data = Some "success"
              /\ (answer_question (BaseAgent.rag_pipeline self) h rq 6
                  = inl b
                  \/ exists context_result,
                      answer_question (BaseAgent.rag_pipeline self) h rq 6
                      = inr context_result
                      /\ is_exception b = false
                      /\ invoke (BaseAgent.llm self) (h ++ [Retrieve rq 6])
                           SynthesizerAgent.system_prompt
                           (SynthesizerAgent.user_prompt query
                              (get_or
                                 (ReviewerResult.researcher_analysis
                                    input_data) "")
                              (get_or (ReviewerResult.critique input_data) "")
                              (get_or (ReviewerResult.strengths input_data)
                                 [])
                              (get_or (ReviewerResult.weaknesses input_data)
                                 [])
                              context_result)
                         = inl b)))
  /\ (forall input_data,
         let rq := QuestionerAgent.gap_query query in
         fst (QuestionerAgent.process self input_data query h) = inl b
         <-> (SynthesizerResult.status input_data = Some "success"
              /\ (answer_question (BaseAgent.rag_pipeline self) h rq 5
                  = inl b
                  \/ exists context_result,
                      answer_question (BaseAgent.rag_pipeline self) h rq 5
                      = inr context_result
                      /\ is_exception b = false
                      /\ invoke (BaseAgent.llm self) (h ++ [Retrieve rq 5])
                           QuestionerAgent.system_prompt
                           (QuestionerAgent.user_prompt query
                              (get_or (SynthesizerResult.synthesis input_data)
                                 "")
                              (get_or
                                 (SynthesizerResult.hypotheses input_data) [])
                              (get_or (SynthesizerResult.insights input_data)
                                 [])
                              (get_or
                                 (SynthesizerResult.researcher_analysis
                                    input_data) "")
                              (get_or (SynthesizerResult.critique input_data)
                                 "")
                              context_result)
                         = inl b)))
  /\ (forall input_data,
         fst (FormatterAgent.process self input_data query h) = inl b
         <-> (is_exception b = false
              /\ invoke (BaseAgent.llm self) h FormatterAgent.system_prompt
                   (FormatterAgent.user_prompt query
                      (WorkflowData.researcher input_data)
                      (WorkflowData.reviewer input_data)
                      (WorkflowData.synthesizer input_data)
                      (WorkflowData.questioner input_data))
                 = inl b)).
Proof.
  split; [|split; [|split; [|split]]]; intros input_data; cbv zeta.
  - rewrite researcher_process_eq. cbv zeta.
    destruct (answer_question _ h _ 10) as [b'|context_result].
    + cbn [fst]. split.
      * intros [= ->]. now left.
      * settle_raise.
    + destruct (get_or (Context.sources context_result) []) as [|c l] eqn:Hs.
      * cbn [fst]. split; [discriminate|].
        settle_raise.
      * destruct (Context.answer context_result) as [context_text|] eqn:Ha.
        -- destruct (invoke _ _ _ _) as [[e| |code|d]|analysis] eqn:Hcall;
             cbn [fst]; (split; [|settle_raise]);
             try discriminate;
             intros [= <-]; right; exists context_result;
             (split; [reflexivity|]); rewrite Hs; (split; [discriminate|]);
             right; exists context_text; now repeat split.
        -- cbn [fst]. split.
           ++ intros [= <-]. right. exists context_result.
              split; [reflexivity|]. rewrite Hs.
              split; [discriminate|]. now left.
           ++ settle_raise.
  - rewrite reviewer_process_eq. cbv zeta.
    destruct (differs _ _) eqn:Hd.
    + cbn [fst]. split; [discriminate|]. intros [Hs _].
      rewrite Hs, differs_same in Hd. discriminate.
    + apply differs_false in Hd.
      destruct (answer_question _ h _ 6) as [b'|context_result].
      * cbn [fst]. split; [intros [= ->]; now split; [|left]|].
        settle_raise.
      * destruct (invoke _ _ _ _) as [[e| |code|d]|critique] eqn:Hcall;
          cbn [fst]; (split; [|settle_raise]);
          try discriminate;
          intros [= <-]; (split; [assumption|]); right;
          exists context_result; now repeat split.
  - rewrite synthesizer_process_eq. cbv zeta.
    destruct (differs _ _) eqn:Hd.
    + cbn [fst]. split; [discriminate|]. intros [Hs _].
      rewrite Hs, differs_same in Hd. discriminate.
    + apply differs_false in Hd.
      destruct (answer_question _ h _ 6) as [b'|context_result].
      * cbn [fst]. split; [intros [= ->]; now split; [|left]|].
        settle_raise.
      * destruct (invoke _ _ _ _) as [[e| |code|d]|synthesis] eqn:Hcall;
          cbn [fst]; (split; [|settle_raise]);
          try discriminate;
          intros [= <-]; (split; [assumption|]); right;
          exists context_result; now repeat split.
  - rewrite questioner_process_eq. cbv zeta.
    destruct (differs _ _) eqn:Hd.
    + cbn [fst]. split; [discriminate|]. intros [Hs _].
      rewrite Hs, differs_same in Hd. discriminate.
    + apply differs_false in Hd.
      destruct (answer_question _ h _ 5) as [b'|context_result].
      * cbn [fst]. split; [intros [= ->]; now split; [|left]|].
        settle_raise.
      * destruct (invoke _ _ _ _) as [[e| |code|d]|gap_analysis] eqn:Hcall;
          cbn [fst]; (split; [|settle_raise]);
          try discriminate;
          intros [= <-]; (split; [assumption|]); right;
          exists context_result; now repeat split.
  - rewrite formatter_process_eq. cbv zeta.
    destruct (invoke _ _ _ _) as [[e| |code|d]|report] eqn:Hcall;
      cbn [fst]; (split; [|settle_raise]);
      try discriminate; intros [= <-]; now split.
Qed.

(** an outcome that is no success, against a claim of success *)
Ltac no_success :=
  cbn [fst]; split;
  [ intros (r & Hr & Hstatus);
    first [ discriminate Hr
          | injection Hr as <-; discriminate Hstatus ]
  | intros;
    repeat match goal with
           | H : _ /\ _ |- _ => destruct H
           | H : exists _, _ |- _ => destruct H
           end;
    congruence ].

(** When an agent succeeds.  The Researcher: its retrieval returns at
    least one source and an answer, and the chat model returns.  The
    Reviewer, the Synthesizer and the Questioner: the input has status
    [success], the retrieval returns, with or without sources or answer,
    and the chat model returns.  The Formatter: the chat model returns. *)
Theorem success_conditions
  (self : BaseAgent.t) (query : string) (h : history) :
  (forall input_data,
      (exists result,
          fst (ResearcherAgent.process self input_data query h) = inr result
          /\ ResearcherResult.status result = Some "success")
      <-> (exists context_result context_text analysis,
              answer_question (BaseAgent.rag_pipeline self) h
                (retrieval_query input_data query) 10 = inr context_result
              /\ get_or (Context.sources context_result) [] <> []
              /\ Context.answer context_result = Some context_text
              /\ invoke (BaseAgent.llm self)
                   (h ++ [Retrieve (retrieval_query input_data query) 10])
                   ResearcherAgent.system_prompt
                   (ResearcherAgent.user_prompt query context_text
                      (get_or (Context.sources context_result) []))
                 = inr analysis))
  /\ (forall input_data,
         (exists result,
             fst (ReviewerAgent.process self input_data query h) = inr result
             /\ ReviewerResult.status result = Some "success")
         <-> (ResearcherResult.status input_data = Some "success"
              /\ exists context_result critique,
                  answer_question (BaseAgent.rag_pipeline self) h
                    (ReviewerAgent.critique_query query) 6
                  = inr context_result
                  /\ invoke (BaseAgent.llm self)
                       (h ++ [Retrieve (ReviewerAgent.critique_query query)
                                6])
                       ReviewerAgent.system_prompt
                       (ReviewerAgent.user_prompt query
                          (get_or (ResearcherResult.analysis input_data) "")
                          (get_or (ResearcherResult.findings input_data) [])
                          context_result)
                     = inr critique))
  /\ (forall input_data,
         (exists result,
             fst (SynthesizerAgent.process self input_data query h)
             = inr result
             /\ SynthesizerResult.status result = Some "success")
         <-> (ReviewerResult.status input_data = Some "success"
              /\ exists context_result synthesis,
                  answer_question (BaseAgent.rag_pipeline self) h
                    (SynthesizerAgent.synthesis_query query) 6
                  = inr context_result
                  /\ invoke (BaseAgent.llm self)
                       (h ++ [Retrieve
                                (SynthesizerAgent.synthesis_query query) 6])
                       SynthesizerAgent.system_prompt
                       (SynthesizerAgent.user_prompt query
                          (get_or
                             (ReviewerResult.researcher_analysis input_data)
                             "")
                          (get_or (ReviewerResult.critique input_data) "")
                          (get_or (ReviewerResult.strengths input_data) [])
                          (get_or (ReviewerResult.weaknesses input_data) [])
                          context_result)
                     = inr synthesis))
  /\ (forall input_data,
         (exists result,
             fst (QuestionerAgent.process self input_data query h)
             = inr result
             /\ QuestionerResult.status result = Some "success")
         <-> (SynthesizerResult.status input_data = Some "success"
              /\ exists context_result gap_analysis,
                  answer_question (BaseAgent.rag_pipeline self) h
                    (QuestionerAgent.gap_query query) 5 = inr context_result
                  /\ invoke (BaseAgent.llm self)
                       (h ++ [Retrieve (QuestionerAgent.gap_query query) 5])
                       QuestionerAgent.system_prompt
                       (QuestionerAgent.user_prompt query
                          (get_or (SynthesizerResult.synthesis input_data) "")
                          (get_or (SynthesizerResult.hypotheses input_data)
                             [])
                          (get_or (SynthesizerResult.insights input_data) [])
                          (get_or
                             (SynthesizerResult.researcher_analysis
                                input_data) "")
                          (get_or (SynthesizerResult.critique input_data) "")
                          context_result)
                     = inr gap_analysis))
  /\ (forall input_data,
         (exists result,
             fst (FormatterAgent.process self input_data query h)
             = inr result
             /\ FormatterResult.status result = Some "success")
         <-> (exists report,
                 invoke (BaseAgent.llm self) h FormatterAgent.system_prompt
                   (FormatterAgent.user_prompt query
                      (WorkflowData.researcher input_data)
                      (WorkflowData.reviewer input_data)
                      (WorkflowData.synthesizer input_data)
                      (WorkflowData.questioner input_data))
                 = inr report)).
Proof.
  split; [|split; [|split; [|split]]]; intros input_data.
  - rewrite researcher_process_eq. cbv zeta.
    destruct (answer_question _ h _ 10) as [e|context_result];
      [no_success|].
    destruct (get_or (Context.sources context_result) []) as [|c l] eqn:Hs.
    { cbn [fst]. split.
      - intros (r & [= <-] & [=]).
      - intros (c' & t & a & [= <-] & Hne & _). now rewrite Hs in Hne. }
    destruct (Context.answer context_result) as [context_text|] eqn:Ha.
    2:{ cbn [fst]. split.
        - now intros (r & [=] & _).
        - intros (c' & t & a & [= <-] & _ & Hsome & _). congruence. }
    destruct (invoke _ _ _ _) as [[e| |code|d]|analysis] eqn:Hcall;
      [no_success..|].
    cbn [fst]. split.
    + intros _. exists context_result, context_text, analysis.
      rewrite Hs. repeat split; try assumption; discriminate.
    + intros _. eexists. split; reflexivity.
  - rewrite reviewer_process_eq. cbv zeta.
    destruct (differs _ _) eqn:Hd.
    { cbn [fst]. split.
      - intros (r & [= <-] & [=]).
      - intros (Hs & _). rewrite Hs, differs_same in Hd. discriminate. }
    apply differs_false in Hd.
    destruct (answer_question _ h _ 6) as [e|context_result];
      [no_success|].
    destruct (invoke _ _ _ _) as [[e| |code|d]|critique] eqn:Hcall;
      [no_success..|].
    cbn [fst]. split; [eauto|]. intros _. eexists. split; reflexivity.
  - rewrite synthesizer_process_eq. cbv zeta.
    destruct (differs _ _) eqn:Hd.
    { cbn [fst]. split.
      - intros (r & [= <-] & [=]).
      - intros (Hs & _). rewrite Hs, differs_same in Hd. discriminate. }
    apply differs_false in Hd.
    destruct (answer_question _ h _ 6) as [e|context_result];
      [no_success|].
    destruct (invoke _ _ _ _) as [[e| |code|d]|synthesis] eqn:Hcall;
      [no_success..|].
    cbn [fst]. split; [eauto|]. intros _. eexists. split; reflexivity.
  - rewrite questioner_process_eq. cbv zeta.
    destruct (differs _ _) eqn:Hd.
    { cbn [fst]. split.
      - intros (r & [= <-] & [=]).
      - intros (Hs & _). rewrite Hs, differs_same in Hd. discriminate. }
    apply differs_false in Hd.
    destruct (answer_question _ h _ 5) as [e|context_result];
      [no_success|].
    destruct (invoke _ _ _ _) as [[e| |code|d]|gap_analysis] eqn:Hcall;
      [no_success..|].
    cbn [fst]. split; [eauto|]. intros _. eexists. split; reflexivity.
  - rewrite formatter_process_eq. cbv zeta.
    destruct (invoke _ _ _ _) as [[e| |code|d]|report] eqn:Hcall;
      [no_success..|].
    cbn [fst]. split; [eauto|]. intros _. eexists. split; reflexivity.
Qed.

Ltac only_success Hprocess Hstatus :=
  first [ discriminate Hprocess
        | injection Hprocess as <- <-;
          first [ discriminate Hstatus | idtac ] ].

(** In a result of status [success] the structured lists are the
    extraction of the text the same result carries: the findings of the
    analysis, the strengths and weaknesses of the critique, the hypotheses
    and insights of the synthesis, the gaps and questions of the gap
    analysis. *)
Theorem lists_come_from_the_text
  (self : BaseAgent.t) (query : string) (h h' : history) :
  (forall input_data result,
      ResearcherAgent.process self input_data query h = (inr result, h') ->
      ResearcherResult.status result = Some "success" ->
      exists analysis findings,
        ResearcherResult.analysis result = Some analysis
        /\ ResearcherAgent._extract_findings analysis = inr findings
        /\ ResearcherResult.findings result = Some findings)
  /\ (forall input_data result,
         ReviewerAgent.process self input_data query h = (inr result, h') ->
         ReviewerResult.status result = Some "success" ->
         exists critique strengths weaknesses,
           ReviewerResult.critique result = Some critique
           /\ ReviewerAgent._extract_section critique "strengths"
              = inr strengths
           /\ ReviewerAgent._extract_section critique "weaknesses"
              = inr weaknesses
           /\ ReviewerResult.strengths result = Some strengths
           /\ ReviewerResult.weaknesses result = Some weaknesses)
  /\ (forall input_data result,
         SynthesizerAgent.process self input_data query h
         = (inr result, h') ->
         SynthesizerResult.status result = Some "success" ->
         exists synthesis,
           SynthesizerResult.synthesis result = Some synthesis
           /\ SynthesizerResult.hypotheses result
              = Some (SynthesizerAgent._extract_hypotheses synthesis)
           /\ SynthesizerResult.insights result
              = Some (SynthesizerAgent._extract_insights synthesis))
  /\ (forall input_data result,
         QuestionerAgent.process self input_data query h
         = (inr result, h') ->
         QuestionerResult.status result = Some "success" ->
         exists gap_analysis,
           QuestionerResult.gap_analysis result = Some gap_analysis
           /\ QuestionerResult.gaps result
              = Some (QuestionerAgent._extract_gaps gap_analysis)
           /\ QuestionerResult.questions result
              = Some (QuestionerAgent._extract_questions gap_analysis)).
Proof.
  split; [|split; [|split]]; intros input_data result.
  - rewrite researcher_process_eq. cbv zeta.
    destruct (answer_question _ h _ 10) as [e|context_result];
      [discriminate|].
    destruct (get_or (Context.sources context_result) []) as [|c l];
      [intros P S; only_success P S|].
    destruct (Context.answer context_result) as [context_text|];
      [|discriminate].
    destruct (invoke _ _ _ _) as [[e| |code|d]|analysis]; intros P S;
      only_success P S.
    exists analysis, (kept 10 finding_line analysis).
    rewrite extract_findings_kept. repeat split.
  - rewrite reviewer_process_eq. cbv zeta.
    destruct (differs _ _); [intros P S; only_success P S|].
    destruct (answer_question _ h _ 6) as [e|context_result];
      [discriminate|].
    destruct (invoke _ _ _ _) as [[e| |code|d]|critique]; intros P S;
      only_success P S.
    exists critique, (section_items critique "strengths"),
      (section_items critique "weaknesses").
    rewrite !extract_section_items. repeat split.
  - rewrite synthesizer_process_eq. cbv zeta.
    destruct (differs _ _); [intros P S; only_success P S|].
    destruct (answer_question _ h _ 6) as [e|context_result];
      [discriminate|].
    destruct (invoke _ _ _ _) as [[e| |code|d]|synthesis]; intros P S;
      only_success P S.
    exists synthesis. repeat split.
  - rewrite questioner_process_eq. cbv zeta.
    destruct (differs _ _); [intros P S; only_success P S|].
    destruct (answer_question _ h _ 5) as [e|context_result];
      [discriminate|].
    destruct (invoke _ _ _ _) as [[e| |code|d]|gap_analysis]; intros P S;
      only_success P S.
    exists gap_analysis. repeat split.
Qed.

(** A Researcher result of status [success] carries the sources of its
    retrieval, all of them and at least one, and [num_sources] is their
    number, although the prompt names no more than five of them. *)
Theorem researcher_sources_counted
  (self : BaseAgent.t) (input_data : ResearcherAgent.Input)
  (query : string) (h h' : history) (result : ResearcherResult.t) :
  ResearcherAgent.process self input_data query h = (inr result, h') ->
  ResearcherResult.status result = Some "success" ->
  exists context_result sources,
    answer_question (BaseAgent.rag_pipeline self) h
      (retrieval_query input_data query) 10 = inr context_result
    /\ Context.sources context_result = Some sources
    /\ ResearcherResult.sources result = Some sources
    /\ ResearcherResult.num_sources result = Some (List.length sources)
    /\ 1 <= List.length sources.
Proof.
  rewrite researcher_process_eq. cbv zeta.
  destruct (answer_question _ h _ 10) as [e|context_result];
    [discriminate|].
  destruct (Context.sources context_result) as [sources|] eqn:Hsources;
    cbn [get_or]; [|intros P S; only_success P S].
  destruct sources as [|c l]; [intros P S; only_success P S|].
  destruct (Context.answer context_result) as [context_text|];
    [|discriminate].
  destruct (invoke _ _ _ _) as [[e| |code|d]|analysis]; intros P S; only_success P S.
  exists context_result, (c :: l). repeat split; simpl; trivial; lia.
Qed.

Lemma researcher_sources_counted_witness :
  exists result h',
    ResearcherAgent.process
      (ResearcherAgent.__init__ (constant_rag (inr three_sources))
         (constant_llm (inr "- X raises Y (a.pdf)")))
      (ResearcherAgent.Dict (Some "effects of X on Y"))
      "effects of X on Y" [] = (inr result, h')
    /\ ResearcherResult.num_sources result = Some 3.
Proof.
  eexists _, _. split; [cbv; reflexivity|].
  destruct
    (researcher_sources_counted
       (ResearcherAgent.__init__ (constant_rag (inr three_sources))
          (constant_llm (inr "- X raises Y (a.pdf)")))
       (ResearcherAgent.Dict (Some "effects of X on Y"))
       "effects of X on Y" [] _ _ eq_refl eq_refl)
    as (context_result & sources & Hcall & Hsources & _ & Hcount & _).
  injection Hcall as <-. injection Hsources as <-. exact Hcount.
Defined.

(* ------------------------------------------------------------------ *)
(** ** What a successful stage returns *)

Lemma researcher_success (self : BaseAgent.t)
  (input_data : ResearcherAgent.Input) (query : string) (h h' : history)
  (result : ResearcherResult.t) :
  ResearcherAgent.process self input_data query h = (inr result, h') ->
  ResearcherResult.status result = Some "success" ->
  exists analysis sources user_prompt,
    sources <> []
    /\ h' = h ++ [Retrieve (retrieval_query input_data query) 10;
                  Invoke ResearcherAgent.system_prompt user_prompt]
    /\ result
       = ResearcherResult.Build_t (Some (BaseAgent.name self))
           (Some "success") None (Some analysis)
           (Some (kept 10 finding_line analysis)) (Some sources)
           (Some (List.length sources)).
Proof.
  rewrite researcher_process_eq. cbv zeta.
  destruct (answer_question _ h _ 10) as [e|context_result];
    [discriminate|].
  destruct (get_or (Context.sources context_result) []) as [|c l];
    [intros P S; only_success P S|].
  destruct (Context.answer context_result) as [context_text|];
    [|discriminate].
  destruct (invoke _ _ _ _) as [[e| |code|d]|analysis]; intros P S; only_success P S.
  exists analysis, (c :: l). eexists.
  rewrite <- app_assoc. repeat split. discriminate.
Qed.

Lemma reviewer_success (self : BaseAgent.t)
  (input_data : ResearcherResult.t) (query : string) (h h' : history)
  (result : ReviewerResult.t) :
  ReviewerAgent.process self input_data query h = (inr result, h') ->
  ReviewerResult.status result = Some "success" ->
  exists critique context_result user_prompt,
    h' = h ++ [Retrieve (ReviewerAgent.critique_query query) 6;
               Invoke ReviewerAgent.system_prompt user_prompt]
    /\ result
       = ReviewerResult.Build_t (Some (BaseAgent.name self))
           (Some "success") None (Some critique)
           (Some (get_or (ResearcherResult.analysis input_data) ""))
           (Some (section_items critique "strengths"))
           (Some (section_items critique "weaknesses"))
           (Some (get_or (ResearcherResult.sources input_data) []
                  ++ get_or (Context.sources context_result) [])).
Proof.
  rewrite reviewer_process_eq. cbv zeta.
  destruct (differs _ _); [intros P S; only_success P S|].
  destruct (answer_question _ h _ 6) as [e|context_result];
    [discriminate|].
  destruct (invoke _ _ _ _) as [[e| |code|d]|critique]; intros P S; only_success P S.
  exists critique, context_result. eexists.
  rewrite <- app_assoc. repeat split.
Qed.

Lemma synthesizer_success (self : BaseAgent.t)
  (input_data : ReviewerResult.t) (query : string) (h h' : history)
  (result : SynthesizerResult.t) :
  SynthesizerAgent.process self input_data query h = (inr result, h') ->
  SynthesizerResult.status result = Some "success" ->
  exists synthesis user_prompt,
    h' = h ++ [Retrieve (SynthesizerAgent.synthesis_query query) 6;
               Invoke SynthesizerAgent.system_prompt user_prompt]
    /\ result
       = SynthesizerResult.Build_t (Some (BaseAgent.name self))
           (Some "success") None (Some synthesis)
           (Some (SynthesizerAgent._extract_hypotheses synthesis))
           (Some (SynthesizerAgent._extract_insights synthesis))
           (Some (get_or (ReviewerResult.researcher_analysis input_data) ""))
           (Some (get_or (ReviewerResult.critique input_data) "")).
Proof.
  rewrite synthesizer_process_eq. cbv zeta.
  destruct (differs _ _); [intros P S; only_success P S|].
  destruct (answer_question _ h _ 6) as [e|context_result];
    [discriminate|].
  destruct (invoke _ _ _ _) as [[e| |code|d]|synthesis]; intros P S; only_success P S.
  exists synthesis. eexists. rewrite <- app_assoc. repeat split.
Qed.

Lemma questioner_success (self : BaseAgent.t)
  (input_data : SynthesizerResult.t) (query : string) (h h' : history)
  (result : QuestionerResult.t) :
  QuestionerAgent.process self input_data query h = (inr result, h') ->
  QuestionerResult.status result = Some "success" ->
  exists gap_analysis user_prompt,
    h' = h ++ [Retrieve (QuestionerAgent.gap_query query) 5;
               Invoke QuestionerAgent.system_prompt user_prompt]
    /\ result
       = QuestionerResult.Build_t (Some (BaseAgent.name self))
           (Some "success") None (Some gap_analysis)
           (Some (QuestionerAgent._extract_gaps gap_analysis))
           (Some (QuestionerAgent._extract_questions gap_analysis))
           (Some (get_or (SynthesizerResult.synthesis input_data) ""))
           (Some (get_or (SynthesizerResult.hypotheses input_data) [])).
Proof.
  rewrite questioner_process_eq. cbv zeta.
  destruct (differs _ _); [intros P S; only_success P S|].
  destruct (answer_question _ h _ 5) as [e|context_result];
    [discriminate|].
  destruct (invoke _ _ _ _) as [[e| |code|d]|gap_analysis]; intros P S;
    only_success P S.
  exists gap_analysis. eexists. rewrite <- app_assoc. repeat split.
Qed.

Lemma formatter_success (self : BaseAgent.t)
  (input_data : WorkflowData.t) (query : string) (h h' : history)
  (result : FormatterResult.t) :
  FormatterAgent.process self input_data query h = (inr result, h') ->
  FormatterResult.status result = Some "success" ->
  exists report user_prompt,
    h' = h ++ [Invoke FormatterAgent.system_prompt user_prompt]
    /\ result
       = FormatterResult.Build_t (Some (BaseAgent.name self))
           (Some "success") None (Some report) (Some query)
           (Some (WorkflowData.researcher input_data))
           (Some (WorkflowData.reviewer input_data))
           (Some (WorkflowData.synthesizer input_data))
           (Some (WorkflowData.questioner input_data))
           (Some (get_or
                    (ResearcherResult.sources
                       (WorkflowData.researcher input_data)) [])).
Proof.
  rewrite formatter_process_eq. cbv zeta.
  destruct (invoke _ _ _ _) as [[e| |code|d]|report]; intros P S; only_success P S.
  exists report. eexists. repeat split.
Qed.

(** a run of status [success], stage by stage *)
Lemma run_success (self : MultiAgentResearchSystem.t) (query : string)
  (h h' : history) (workflow_data : WorkflowData.t) :
  run_research_workflow self query h = (inr workflow_data, h') ->
  WorkflowData.status workflow_data = "success" ->
  exists r1 h1 r2 h2 r3 h3 r4 h4 r5,
    ResearcherAgent.process (researcher self)
      (ResearcherAgent.Dict (Some query)) query h = (inr r1, h1)
    /\ ResearcherResult.status r1 = Some "success"
    /\ ReviewerAgent.process (reviewer self) r1 query h1 = (inr r2, h2)
    /\ ReviewerResult.status r2 = Some "success"
    /\ SynthesizerAgent.process (synthesizer self) r2 query h2
       = (inr r3, h3)
    /\ SynthesizerResult.status r3 = Some "success"
    /\ QuestionerAgent.process (questioner self) r3 query h3 = (inr r4, h4)
    /\ QuestionerResult.status r4 = Some "success"
    /\ FormatterAgent.process (formatter self)
         (WorkflowData.Build_t query
            [entry 1 "RESEARCHER" "success"; entry 2 "REVIEWER" "success";
             entry 3 "SYNTHESIZER" "success";
             entry 4 "QUESTIONER" "success"]
            r1 r2 r3 r4 FormatterResult.empty "in_progress" None None)
         query h4 = (inr r5, h')
    /\ FormatterResult.status r5 = Some "success"
    /\ workflow_data
       = WorkflowData.Build_t query
           [entry 1 "RESEARCHER" "success"; entry 2 "REVIEWER" "success";
            entry 3 "SYNTHESIZER" "success"; entry 4 "QUESTIONER" "success";
            entry 5 "FORMATTER" "success"]
           r1 r2 r3 r4 r5 "success" None
           (Some (get_or (FormatterResult.report r5) "")).
Proof.
  unfold run_research_workflow, stages. run_workflow.
  destruct (ResearcherAgent.process _ _ _ _) as [[[e| |code|d]|r1] h1] eqn:P1;
    run_workflow; [intros [= <- <-]; discriminate|discriminate..|].
  destruct (differs (ResearcherResult.status r1) "success") eqn:D1;
    run_workflow; [intros [= <- <-]; discriminate|].
  apply differs_false in D1. rewrite D1. cbn [get_or].
  destruct (ReviewerAgent.process _ _ _ _) as [[[e| |code|d]|r2] h2] eqn:P2;
    run_workflow; [intros [= <- <-]; discriminate|discriminate..|].
  destruct (differs (ReviewerResult.status r2) "success") eqn:D2;
    run_workflow; [intros [= <- <-]; discriminate|].
  apply differs_false in D2. rewrite D2. cbn [get_or].
  destruct (SynthesizerAgent.process _ _ _ _) as [[[e| |code|d]|r3] h3] eqn:P3;
    run_workflow; [intros [= <- <-]; discriminate|discriminate..|].
  destruct (differs (SynthesizerResult.status r3) "success") eqn:D3;
    run_workflow; [intros [= <- <-]; discriminate|].
  apply differs_false in D3. rewrite D3. cbn [get_or].
  destruct (QuestionerAgent.process _ _ _ _) as [[[e| |code|d]|r4] h4] eqn:P4;
    run_workflow; [intros [= <- <-]; discriminate|discriminate..|].
  destruct (differs (QuestionerResult.status r4) "success") eqn:D4;
    run_workflow; [intros [= <- <-]; discriminate|].
  apply differs_false in D4. rewrite D4. cbn [get_or].
  destruct (FormatterAgent.process _ _ _ _) as [[[e| |code|d]|r5] h5] eqn:P5;
    run_workflow; [intros [= <- <-]; discriminate|discriminate..|].
  destruct (differs (FormatterResult.status r5) "success") eqn:D5;
    run_workflow; [intros [= <- <-]; discriminate|].
  apply differs_false in D5. rewrite D5. cbn [get_or].
  intros [= <- <-] _.
  exists r1, h1, r2, h2, r3, h3, r4, h4, r5. repeat split; assumption.
Qed.

(* ------------------------------------------------------------------ *)
(** ** Further properties of the orchestrator *)

(** In a run of status [success] the record is consistent: the log has
    the five stages, all with status [success]; no error is recorded and
    the report is the report of the Formatter; every stage hands on what
    it received (the analysis reaches the Reviewer and the Synthesizer,
    the critique the Synthesizer, the synthesis and the hypotheses the
    Questioner); the Formatter result embeds the four earlier results and
    carries the sources of the Researcher, not those the Reviewer
    added. *)
Theorem successful_run_is_consistent
  (self : MultiAgentResearchSystem.t) (query : string) (h h' : history)
  (workflow_data : WorkflowData.t) :
  run_research_workflow self query h = (inr workflow_data, h') ->
  WorkflowData.status workflow_data = "success" ->
  let researcher_out := WorkflowData.researcher workflow_data in
  let reviewer_out := WorkflowData.reviewer workflow_data in
  let synthesizer_out := WorkflowData.synthesizer workflow_data in
  let questioner_out := WorkflowData.questioner workflow_data in
  let formatter_out := WorkflowData.formatter workflow_data in
  WorkflowData.workflow workflow_data
  = [entry 1 "RESEARCHER" "success"; entry 2 "REVIEWER" "success";
     entry 3 "SYNTHESIZER" "success"; entry 4 "QUESTIONER" "success";
     entry 5 "FORMATTER" "success"]
  /\ slot_statuses workflow_data
     = ["success"; "success"; "success"; "success"; "success"]
  /\ WorkflowData.error workflow_data = None
  /\ (exists report,
         FormatterResult.report formatter_out = Some report
         /\ WorkflowData.report workflow_data = Some report)
  /\ (exists analysis,
         ResearcherResult.analysis researcher_out = Some analysis
         /\ ReviewerResult.researcher_analysis reviewer_out = Some analysis
         /\ SynthesizerResult.researcher_analysis synthesizer_out
            = Some analysis)
  /\ (exists critique,
         ReviewerResult.critique reviewer_out = Some critique
         /\ SynthesizerResult.critique synthesizer_out = Some critique)
  /\ (exists synthesis hypotheses,
         SynthesizerResult.synthesis synthesizer_out = Some synthesis
         /\ QuestionerResult.synthesis questioner_out = Some synthesis
         /\ SynthesizerResult.hypotheses synthesizer_out = Some hypotheses
         /\ QuestionerResult.hypotheses questioner_out = Some hypotheses)
  /\ FormatterResult.researcher formatter_out = Some researcher_out
  /\ FormatterResult.reviewer formatter_out = Some reviewer_out
  /\ FormatterResult.synthesizer formatter_out = Some synthesizer_out
  /\ FormatterResult.questioner formatter_out = Some questioner_out
  /\ FormatterResult.query formatter_out = Some query
  /\ (exists sources fresh,
         ResearcherResult.sources researcher_out = Some sources
         /\ FormatterResult.sources formatter_out = Some sources
         /\ ReviewerResult.sources reviewer_out = Some (sources ++ fresh)).
Proof.
  intros Hrun Hstatus.
  destruct (run_success _ _ _ _ _ Hrun Hstatus)
    as (r1 & h1 & r2 & h2 & r3 & h3 & r4 & h4 & r5
        & P1 & S1 & P2 & S2 & P3 & S3 & P4 & S4 & P5 & S5 & ->).
  destruct (researcher_success _ _ _ _ _ _ P1 S1)
    as (analysis & sources & up1 & _ & _ & ->).
  destruct (reviewer_success _ _ _ _ _ _ P2 S2)
    as (critique & context_result & up2 & _ & ->).
  destruct (synthesizer_success _ _ _ _ _ _ P3 S3)
    as (synthesis & up3 & _ & ->).
  destruct (questioner_success _ _ _ _ _ _ P4 S4)
    as (gap_analysis & up4 & _ & ->).
  destruct (formatter_success _ _ _ _ _ _ P5 S5)
    as (report & up5 & _ & ->).
  cbv zeta. cbn. repeat split; eauto 6.
Qed.

Lemma successful_run_is_consistent_witness :
  exists workflow_data h',
    run_research_workflow
      (__init__ (constant_rag (inr three_sources))
         (constant_llm (inr "- X raises Y (a.pdf)"))
         (constant_llm (inr "- Strengths"))
         (constant_llm (inr "Hypothesis 1: X raises Y through Z"))
         (constant_llm (inr "Why does X raise Y?"))
         (constant_llm (inr "REPORT")))
      "effects of X on Y" [] = (inr workflow_data, h')
    /\ WorkflowData.status workflow_data = "success"
    /\ WorkflowData.error workflow_data = None
    /\ slot_statuses workflow_data
       = ["success"; "success"; "success"; "success"; "success"].
Proof.
  destruct (run_research_workflow _ _ _) as [[e|workflow_data] h'] eqn:Hrun.
  - exfalso. vm_compute in Hrun. discriminate Hrun.
  - assert (Hstatus : WorkflowData.status workflow_data = "success").
    { vm_compute in Hrun. injection Hrun as <- _. reflexivity. }
    exists workflow_data, h'. split; [reflexivity|]. split; [assumption|].
    destruct (successful_run_is_consistent _ _ _ _ _ Hrun Hstatus)
      as (_ & Hslots & Herror & _).
    split; assumption.
Defined.











(** The calls of a run of status [success], in order: a retrieval of ten
    documents with the query itself and the generation of the Researcher;
    retrievals of six, six and five documents with the query behind the
    keywords of the Reviewer, the Synthesizer and the Questioner, each
    followed by the generation of that agent; the generation of the
    Formatter, which retrieves nothing. *)
Theorem successful_run_calls
  (self : MultiAgentResearchSystem.t) (query : string) (h h' : history)
  (workflow_data : WorkflowData.t) :
  run_research_workflow self query h = (inr workflow_data, h') ->
  WorkflowData.status workflow_data = "success" ->
  exists calls,
    h' = h ++ calls
    /\ map outline calls
       = [ Retrieve query 10
         ; Invoke ResearcherAgent.system_prompt ""
         ; Retrieve ("methodology limitations weaknesses " ++ query) 6
         ; Invoke ReviewerAgent.system_prompt ""
         ; Retrieve ("hypotheses research questions future work " ++ query) 6
         ; Invoke SynthesizerAgent.system_prompt ""
         ; Retrieve ("research gaps limitations future work " ++ query) 5
         ; Invoke QuestionerAgent.system_prompt ""
         ; Invoke FormatterAgent.system_prompt "" ].
Proof.
  intros Hrun Hstatus.
  destruct (run_success _ _ _ _ _ Hrun Hstatus)
    as (r1 & h1 & r2 & h2 & r3 & h3 & r4 & h4 & r5
        & P1 & S1 & P2 & S2 & P3 & S3 & P4 & S4 & P5 & S5 & _).
  destruct (researcher_success _ _ _ _ _ _ P1 S1)
    as (_ & _ & up1 & _ & -> & _).
  destruct (reviewer_success _ _ _ _ _ _ P2 S2)
    as (_ & _ & up2 & -> & _).
  destruct (synthesizer_success _ _ _ _ _ _ P3 S3) as (_ & up3 & -> & _).
  destruct (questioner_success _ _ _ _ _ _ P4 S4) as (_ & up4 & -> & _).
  destruct (formatter_success _ _ _ _ _ _ P5 S5) as (_ & up5 & -> & _).
  rewrite <- !app_assoc. eexists. split; [reflexivity|]. reflexivity.
Qed.





Lemma successful_run_calls_witness :
  exists workflow_data h',
    run_research_workflow
      (__init__ (constant_rag (inr three_sources))
         (constant_llm (inr "- X raises Y (a.pdf)"))
         (constant_llm (inr "- Strengths"))
         (constant_llm (inr "Hypothesis 1: X raises Y through Z"))
         (constant_llm (inr "Why does X raise Y?"))
         (constant_llm (inr "REPORT")))
      "effects of X on Y" [] = (inr workflow_data, h')
    /\ List.length h' = 9.
Proof.
  destruct (run_research_workflow _ _ _) as [[e|workflow_data] h'] eqn:Hrun.
  - exfalso. vm_compute in Hrun. discriminate Hrun.
  - assert (Hstatus : WorkflowData.status workflow_data = "success").
    { vm_compute in Hrun. injection Hrun as <- _. reflexivity. }
    exists workflow_data, h'. split; [reflexivity|].
    destruct (successful_run_calls _ _ _ _ _ Hrun Hstatus)
      as (calls & -> & Hcalls).
    apply (f_equal (@List.length event)) in Hcalls.
    rewrite length_map in Hcalls. exact Hcalls.
Defined.

Lemma lists_come_from_the_text_witness :
  exists result h',
    SynthesizerAgent.process
      (SynthesizerAgent.__init__ (constant_rag (inr three_sources))
         (constant_llm (inr "Hypothesis 1: X raises Y through Z")))
      (ReviewerResult.Build_t (Some "REVIEWER") (Some "success") None
         (Some "- Strengths") (Some "- X raises Y") (Some ["- Strengths"])
         (Some []) (Some []))
      "effects of X on Y" [] = (inr result, h')
    /\ SynthesizerResult.hypotheses result
       = Some ["Hypothesis 1: X raises Y through Z"].
Proof.
  destruct (SynthesizerAgent.process _ _ _ _) as [[e|result] h'] eqn:Hrun.
  - exfalso. vm_compute in Hrun. discriminate Hrun.
  - assert (Hstatus : SynthesizerResult.status result = Some "success").
    { vm_compute in Hrun. injection Hrun as <- _. reflexivity. }
    assert (Htext : SynthesizerResult.synthesis result
                    = Some "Hypothesis 1: X raises Y through Z").
    { vm_compute in Hrun. injection Hrun as <- _. reflexivity. }
    exists result, h'. split; [reflexivity|].
    destruct
      (proj1 (proj2 (proj2 (lists_come_from_the_text _ _ _ _))) _ _
         Hrun Hstatus)
      as (synthesis & Hsynthesis & Hhypotheses & _).
    rewrite Hhypotheses. rewrite Htext in Hsynthesis.
    injection Hsynthesis as <-. reflexivity.
Defined.



Lemma run_error_recorded (self : MultiAgentResearchSystem.t)
  (query : string) (h h' : history) (workflow_data : WorkflowData.t) :
  run_research_workflow self query h = (inr workflow_data, h') ->
  WorkflowData.status workflow_data <> "success" ->
  exists e, WorkflowData.error workflow_data = Some e.
Proof.
  unfold run_research_workflow, stages. run_workflow.
  destruct (ResearcherAgent.process _ _ _ _) as [[[e| |code|d]|r1] h1];
    run_workflow; [intros [= <- <-]; now eexists|discriminate..|].
  destruct (differs (ResearcherResult.status r1) "success");
    run_workflow; [intros [= <- <-]; now eexists|].
  destruct (ReviewerAgent.process _ _ _ _) as [[[e| |code|d]|r2] h2];
    run_workflow; [intros [= <- <-]; now eexists|discriminate..|].
  destruct (differs (ReviewerResult.status r2) "success");
    run_workflow; [intros [= <- <-]; now eexists|].
  destruct (SynthesizerAgent.process _ _ _ _) as [[[e| |code|d]|r3] h3];
    run_workflow; [intros [= <- <-]; now eexists|discriminate..|].
  destruct (differs (SynthesizerResult.status r3) "success");
    run_workflow; [intros [= <- <-]; now eexists|].
  destruct (QuestionerAgent.process _ _ _ _) as [[[e| |code|d]|r4] h4];
    run_workflow; [intros [= <- <-]; now eexists|discriminate..|].
  destruct (differs (QuestionerResult.status r4) "success");
    run_workflow; [intros [= <- <-]; now eexists|].
  destruct (FormatterAgent.process _ _ _ _) as [[[e| |code|d]|r5] h5];
    run_workflow; [intros [= <- <-]; now eexists|discriminate..|].
  destruct (differs (FormatterResult.status r5) "success");
    run_workflow; intros [= <- <-]; [now eexists|].
  intros Hstatus. now contradiction Hstatus.
Qed.

(** The summary of a run that did not succeed is one line: the words
    [Workflow failed:] and the error the run recorded; the words
    [Unknown error] never show for a record that a run returned. *)
Theorem summary_of_a_failed_run
  (self : MultiAgentResearchSystem.t) (query : string) (h h' : history)
  (workflow_data : WorkflowData.t) :
  run_research_workflow self query h = (inr workflow_data, h') ->
  WorkflowData.status workflow_data <> "success" ->
  exists e,
    WorkflowData.error workflow_data = Some e
    /\ get_workflow_summary workflow_data
       = ("Workflow failed: " ++ e)%string.
Proof.
  intros Hrun Hstatus.
  destruct (run_error_recorded _ _ _ _ _ Hrun Hstatus) as (e & He).
  exists e. split; [assumption|].
  unfold get_workflow_summary.
  destruct (String.eqb_spec (WorkflowData.status workflow_data) "success")
    as [Heq|_]; [contradiction|].
  now rewrite He.
Qed.

Lemma summary_of_a_failed_run_witness :
  exists workflow_data h',
    run_research_workflow
      (__init__ (constant_rag (inr three_sources))
         (constant_llm (inr "- X raises Y (a.pdf)"))
         (constant_llm (inl (Failure "quota exceeded")))
         (constant_llm (inr "Hypothesis 1")) (constant_llm (inr "Why?"))
         (constant_llm (inr "REPORT")))
      "effects of X on Y" [] = (inr workflow_data, h')
    /\ get_workflow_summary workflow_data
       = "Workflow failed: Reviewer agent failed: quota exceeded".
Proof.
  destruct (run_research_workflow _ _ _) as [[e|workflow_data] h'] eqn:Hrun.
  - exfalso. vm_compute in Hrun. discriminate Hrun.
  - assert (Herror : WorkflowData.error workflow_data
                     = Some "Reviewer agent failed: quota exceeded"
                     /\ WorkflowData.status workflow_data <> "success").
    { vm_compute in Hrun. injection Hrun as <- _.
      split; [reflexivity|discriminate]. }
    destruct Herror as [Herror Hstatus].
    exists workflow_data, h'. split; [reflexivity|].
    destruct (summary_of_a_failed_run _ _ _ _ _ Hrun Hstatus)
      as (e & He & ->).
    rewrite Herror in He. injection He as <-. reflexivity.
Defined.

(** The summary of a run of status [success] names the query and the five
    stages, all with status [success], and counts at least one source, at
    most five hypotheses and at most seven questions. *)
Theorem summary_of_a_successful_run
  (self : MultiAgentResearchSystem.t) (query : string) (h h' : history)
  (workflow_data : WorkflowData.t) :
  run_research_workflow self query h = (inr workflow_data, h') ->
  WorkflowData.status workflow_data = "success" ->
  exists sources hypotheses questions,
    ResearcherResult.sources (WorkflowData.researcher workflow_data)
    = Some sources
    /\ SynthesizerResult.hypotheses (WorkflowData.synthesizer workflow_data)
       = Some hypotheses
    /\ QuestionerResult.questions (WorkflowData.questioner workflow_data)
       = Some questions
    /\ 1 <= List.length sources
    /\ List.length hypotheses <= 5
    /\ List.length questions <= 7
    /\ get_workflow_summary workflow_data
       = ("
WORKFLOW SUMMARY
================
Query: " ++ query ++ "
Status: success

Agent Results:
- RESEARCHER: success (" ++ str_int (List.length sources) ++ " sources)
- REVIEWER: success
- SYNTHESIZER: success (" ++ str_int (List.length hypotheses) ++ " hypotheses)
- QUESTIONER: success (" ++ str_int (List.length questions) ++ " questions)
- FORMATTER: success
")%string.
Proof.
  intros Hrun Hstatus.
  destruct (run_success _ _ _ _ _ Hrun Hstatus)
    as (r1 & h1 & r2 & h2 & r3 & h3 & r4 & h4 & r5
        & P1 & S1 & P2 & S2 & P3 & S3 & P4 & S4 & P5 & S5 & ->).
  destruct (researcher_success _ _ _ _ _ _ P1 S1)
    as (analysis & sources & up1 & Hne & _ & ->).
  destruct (synthesizer_success _ _ _ _ _ _ P3 S3)
    as (synthesis & up3 & _ & ->).
  destruct (questioner_success _ _ _ _ _ _ P4 S4)
    as (gap_analysis & up4 & _ & ->).
  exists sources, (SynthesizerAgent._extract_hypotheses synthesis),
    (QuestionerAgent._extract_questions gap_analysis).
  repeat split.
  - destruct sources; [congruence|simpl; lia].
  - apply firstn_le_length.
  - apply firstn_le_length.
  - unfold get_workflow_summary.
    cbn [WorkflowData.status WorkflowData.query WorkflowData.researcher
         WorkflowData.synthesizer WorkflowData.questioner
         WorkflowData.reviewer WorkflowData.formatter
         ResearcherResult.status ResearcherResult.num_sources
         SynthesizerResult.status SynthesizerResult.hypotheses
         QuestionerResult.status QuestionerResult.questions get_or].
    rewrite S2, S5. reflexivity.
Qed.

Lemma summary_of_a_successful_run_witness :
  exists workflow_data h',
    run_research_workflow
      (__init__ (constant_rag (inr three_sources))
         (constant_llm (inr "- X raises Y (a.pdf)"))
         (constant_llm (inr "- Strengths"))
         (constant_llm (inr "Hypothesis 1: X raises Y through Z"))
         (constant_llm (inr "Why does X raise Y?"))
         (constant_llm (inr "REPORT")))
      "effects of X on Y" [] = (inr workflow_data, h')
    /\ exists sources hypotheses questions,
        get_workflow_summary workflow_data
        = ("
WORKFLOW SUMMARY
================
Query: " ++ "effects of X on Y" ++ "
Status: success

Agent Results:
- RESEARCHER: success (" ++ str_int (List.length sources) ++ " sources)
- REVIEWER: success
- SYNTHESIZER: success (" ++ str_int (List.length hypotheses) ++ " hypotheses)
- QUESTIONER: success (" ++ str_int (List.length questions) ++ " questions)
- FORMATTER: success
")%string
        /\ (sources : list Citation) <> []
        /\ List.length (hypotheses : list string) <= 5
        /\ List.length (questions : list string) <= 7.
Proof.
  destruct (run_research_workflow _ _ _) as [[e|workflow_data] h'] eqn:Hrun.
  - exfalso. vm_compute in Hrun. discriminate Hrun.
  - assert (Hstatus : WorkflowData.status workflow_data = "success").
    { vm_compute in Hrun. injection Hrun as <- _. reflexivity. }
    exists workflow_data, h'. split; [reflexivity|].
    destruct (summary_of_a_successful_run _ _ _ _ _ Hrun Hstatus)
      as (sources & hypotheses & questions
          & _ & _ & _ & Hsources & Hhypotheses & Hquestions & Hsummary).
    exists sources, hypotheses, questions. repeat split; try assumption.
    intros ->. simpl in Hsources. lia.
Defined.

(** A text whose lines are all blank yields nothing: no findings, no
    section items, no hypotheses, insights, gaps or questions. *)
Theorem blank_text_yields_nothing (text section : string) :
  (forall line, In line (split newline text) -> strip line = "") ->
  ResearcherAgent._extract_findings text = inr []
  /\ ReviewerAgent._extract_section text section = inr []
  /\ SynthesizerAgent._extract_hypotheses text = []
  /\ SynthesizerAgent._extract_insights text = []
  /\ QuestionerAgent._extract_gaps text = []
  /\ QuestionerAgent._extract_questions text = [].
Proof.
  intros Hblank.
  assert (Hfilter : forall test,
             (forall line, strip line = "" -> test line = false) ->
             kept 10 test text = [] /\ kept 5 test text = []
             /\ kept 7 test text = []).
  { intros test Htest. unfold kept.
    assert (Hnone : filter test (split newline text) = []).
    { induction (split newline text) as [|line rest IH]; [reflexivity|].
      simpl. rewrite (Htest line (Hblank line (or_introl eq_refl))).
      apply IH. intros l Hl. apply Hblank. now right. }
    now rewrite Hnone. }
  repeat split.
  - rewrite extract_findings_kept. f_equal.
    apply (Hfilter finding_line). intros line Hline.
    unfold finding_line. now rewrite Hline.
  - unfold ReviewerAgent._extract_section.
    rewrite section_loop_closed, from_first_none; [reflexivity|].
    intros line Hline. unfold opens_line.
    rewrite (Hblank line Hline). simpl truthy.
    now rewrite andb_false_r.
  - rewrite extract_hypotheses_kept.
    apply (Hfilter hypothesis_line). intros line Hline.
    unfold hypothesis_line. rewrite Hline. apply andb_false_r.
  - rewrite extract_insights_kept.
    apply (Hfilter insight_line). intros line Hline.
    unfold insight_line. rewrite Hline. apply andb_false_r.
  - rewrite extract_gaps_kept.
    apply (Hfilter gap_line). intros line Hline.
    unfold gap_line. rewrite Hline. apply andb_false_r.
  - rewrite extract_questions_kept.
    apply (Hfilter question_line). intros line Hline.
    unfold question_line. rewrite Hline. apply andb_false_r.
Qed.

Lemma blank_text_yields_nothing_witness :
  ResearcherAgent._extract_findings "   

 " = inr []
  /\ ReviewerAgent._extract_section "   

 " "strengths" = inr [].
Proof.
  destruct (blank_text_yields_nothing "   

 " "strengths") as (Hfindings & Hsection & _).
  - intros line [<-|[<-|[<-|[]]]]; reflexivity.
  - split; assumption.
Defined.

Lemma settled_length (test : string -> bool) (n : nat) (l : list string) :
  (forall x, test x = true -> (n <? String.length (strip x)) = true) ->
  Forall (settled test) l ->
  Forall (fun x => n < String.length x) l.
Proof.
  intros Htest Hl. eapply Forall_impl; [|exact Hl].
  intros x (Hx & Hstrip & _). apply Nat.ltb_lt.
  rewrite <- Hstrip at 1. now apply Htest.
Qed.

(** Every extracted item is long enough: a hypothesis and a gap have more
    than 20 characters, an insight more than 30, a question more than 10,
    a finding at least one; the length is that of the stripped line. *)
Theorem extracted_items_are_long_enough (text : string) :
  (exists findings,
      ResearcherAgent._extract_findings text = inr findings
      /\ Forall (fun x => 0 < String.length x) findings)
  /\ Forall (fun x => 20 < String.length x)
       (SynthesizerAgent._extract_hypotheses text)
  /\ Forall (fun x => 30 < String.length x)
       (SynthesizerAgent._extract_insights text)
  /\ Forall (fun x => 20 < String.length x)
       (QuestionerAgent._extract_gaps text)
  /\ Forall (fun x => 10 < String.length x)
       (QuestionerAgent._extract_questions text).
Proof.
  repeat split.
  - rewrite extract_findings_kept. eexists. split; [reflexivity|].
    apply (settled_length finding_line);
      [|apply kept_settled, finding_line_strip].
    intros x Hx. unfold finding_line in Hx.
    apply andb_true_iff in Hx as [Hx _]. now destruct (strip x).
  - rewrite extract_hypotheses_kept.
    apply (settled_length hypothesis_line);
      [|apply kept_settled, hypothesis_line_strip].
    intros x Hx. unfold hypothesis_line in Hx.
    now apply andb_true_iff in Hx as [_ Hx].
  - rewrite extract_insights_kept.
    apply (settled_length insight_line);
      [|apply kept_settled, insight_line_strip].
    intros x Hx. unfold insight_line in Hx.
    now apply andb_true_iff in Hx as [_ Hx].
  - rewrite extract_gaps_kept.
    apply (settled_length gap_line);
      [|apply kept_settled, gap_line_strip].
    intros x Hx. unfold gap_line in Hx.
    now apply andb_true_iff in Hx as [_ Hx].
  - rewrite extract_questions_kept.
    apply (settled_length question_line);
      [|apply kept_settled, question_line_strip].
    intros x Hx. unfold question_line in Hx.
    now apply andb_true_iff in Hx as [_ Hx].
Qed.




(* ------------------------------------------------------------------ *)
(** ** What reaches the caller of a run *)

(** what an agent raises comes from its collaborators or is the missing
    key *)
Ltac raise_origin Hrag Hllm :=
  match goal with
  | Hq : answer_question _ _ _ _ = inl ?b |- is_exception ?b = true =>
      exact (Hrag _ _ _ _ Hq)
  | Hc : invoke _ _ _ _ = inl ?b |- is_exception ?b = true =>
      exact (Hllm _ _ _ _ Hc)
  end.

Lemma researcher_catchable (self : BaseAgent.t)
  (input_data : ResearcherAgent.Input) (query : string) (h : history) :
  raises_exceptions_only self ->
  catchable (fst (ResearcherAgent.process self input_data query h)).
Proof.
  intros [Hrag Hllm] b. rewrite researcher_process_eq. cbv zeta.
  destruct (answer_question _ h _ 10) as [b'|context_result] eqn:Hq;
    [intros [= <-]; raise_origin Hrag Hllm|].
  destruct (get_or (Context.sources context_result) []) as [|c l];
    [discriminate|].
  destruct (Context.answer context_result) as [context_text|];
    [|now intros [= <-]].
  destruct (invoke _ _ _ _) as [[e| |code|d]|analysis] eqn:Hc;
    cbn [fst]; try discriminate; intros [= <-]; raise_origin Hrag Hllm.
Qed.

Lemma reviewer_catchable (self : BaseAgent.t)
  (input_data : ResearcherResult.t) (query : string) (h : history) :
  raises_exceptions_only self ->
  catchable (fst (ReviewerAgent.process self input_data query h)).
Proof.
  intros [Hrag Hllm] b. rewrite reviewer_process_eq. cbv zeta.
  destruct (differs _ _); [discriminate|].
  destruct (answer_question _ h _ 6) as [b'|context_result] eqn:Hq;
    [intros [= <-]; raise_origin Hrag Hllm|].
  destruct (invoke _ _ _ _) as [[e| |code|d]|critique] eqn:Hc;
    cbn [fst]; try discriminate; intros [= <-]; raise_origin Hrag Hllm.
Qed.

Lemma synthesizer_catchable (self : BaseAgent.t)
  (input_data : ReviewerResult.t) (query : string) (h : history) :
  raises_exceptions_only self ->
  catchable (fst (SynthesizerAgent.process self input_data query h)).
Proof.
  intros [Hrag Hllm] b. rewrite synthesizer_process_eq. cbv zeta.
  destruct (differs _ _); [discriminate|].
  destruct (answer_question _ h _ 6) as [b'|context_result] eqn:Hq;
    [intros [= <-]; raise_origin Hrag Hllm|].
  destruct (invoke _ _ _ _) as [[e| |code|d]|synthesis] eqn:Hc;
    cbn [fst]; try discriminate; intros [= <-]; raise_origin Hrag Hllm.
Qed.

Lemma questioner_catchable (self : BaseAgent.t)
  (input_data : SynthesizerResult.t) (query : string) (h : history) :
  raises_exceptions_only self ->
  catchable (fst (QuestionerAgent.process self input_data query h)).
Proof.
  intros [Hrag Hllm] b. rewrite questioner_process_eq. cbv zeta.
  destruct (differs _ _); [discriminate|].
  destruct (answer_question _ h _ 5) as [b'|context_result] eqn:Hq;
    [intros [= <-]; raise_origin Hrag Hllm|].
  destruct (invoke _ _ _ _) as [[e| |code|d]|gap_analysis] eqn:Hc;
    cbn [fst]; try discriminate; intros [= <-]; raise_origin Hrag Hllm.
Qed.

Lemma formatter_catchable (self : BaseAgent.t)
  (input_data : WorkflowData.t) (query : string) (h : history) :
  raises_exceptions_only self ->
  catchable (fst (FormatterAgent.process self input_data query h)).
Proof.
  intros [Hrag Hllm] b. rewrite formatter_process_eq. cbv zeta.
  destruct (invoke _ _ _ _) as [[e| |code|d]|report] eqn:Hc;
    cbn [fst]; try discriminate; intros [= <-]; raise_origin Hrag Hllm.
Qed.

(** a stage of a tame system that raised, raised an [Exception] *)
Ltac stage_catchable lemma Htame Hprocess :=
  let Hc := fresh "Hc" in
  intros [= <- <-];
  pose proof (lemma _ _ _ _ Htame _ (f_equal fst Hprocess)) as Hc;
  exact Hc.

Lemma tame_stages (self : MultiAgentResearchSystem.t) (query : string)
  (h : history) (b : BaseException) (s : WorkflowData.t * history) :
  tame self ->
  stages self query (initial query, h) = (inl b, s) ->
  is_exception b = true.
Proof.
  intros (T1 & T2 & T3 & T4 & T5). unfold stages. run_workflow.
  destruct (ResearcherAgent.process _ _ _ _) as [[b1|r1] h1] eqn:P1;
    run_workflow; [stage_catchable researcher_catchable T1 P1|].
  destruct (differs (ResearcherResult.status r1) "success");
    run_workflow; [discriminate|].
  destruct (ReviewerAgent.process _ _ _ _) as [[b2|r2] h2] eqn:P2;
    run_workflow; [stage_catchable reviewer_catchable T2 P2|].
  destruct (differs (ReviewerResult.status r2) "success");
    run_workflow; [discriminate|].
  destruct (SynthesizerAgent.process _ _ _ _) as [[b3|r3] h3] eqn:P3;
    run_workflow; [stage_catchable synthesizer_catchable T3 P3|].
  destruct (differs (SynthesizerResult.status r3) "success");
    run_workflow; [discriminate|].
  destruct (QuestionerAgent.process _ _ _ _) as [[b4|r4] h4] eqn:P4;
    run_workflow; [stage_catchable questioner_catchable T4 P4|].
  destruct (differs (QuestionerResult.status r4) "success");
    run_workflow; [discriminate|].
  destruct (FormatterAgent.process _ _ _ _) as [[b5|r5] h5] eqn:P5;
    run_workflow; [stage_catchable formatter_catchable T5 P5|].
  destruct (differs (FormatterResult.status r5) "success");
    run_workflow; discriminate.
Qed.

(** one step of a run beside the run that prints nothing *)
Ltac agree Hsay :=
  cbn [bind ret raise catch Monad_M MonadExc_M fst snd];
  repeat (rewrite Hsay; cbn [bind ret raise catch Monad_M MonadExc_M fst snd]);
  try (split; reflexivity).

(** A run that prints nothing, or whose every [print] returns, is the run
    with [verbose=False]: the same outcome and the same calls. *)
Lemma verbose_run_agrees (out : Console.t)
  (self : MultiAgentResearchSystem.t) (query : string) (verbose : bool)
  (h : history) (printed : list Console.text) :
  verbose = false \/ accepts out ->
  fst (Verbose.run_research_workflow out self query verbose (h, printed))
  = fst (run_research_workflow self query h)
  /\ fst (snd (Verbose.run_research_workflow out self query verbose
                 (h, printed)))
     = snd (run_research_workflow self query h).
Proof.
  intros Hquiet.
  assert (Hsay : forall text s,
             Verbose.say out verbose text s
             = (inr tt,
                (fst s, snd s ++ if verbose then [text] else []))).
  { intros text [d p]. destruct verbose; [|now rewrite app_nil_r].
    destruct Hquiet as [|Haccepts]; [discriminate|].
    unfold Verbose.say, Verbose.print. now rewrite Haccepts. }
  unfold Verbose.run_research_workflow, run_research_workflow,
    Verbose.banner, Verbose.stages, stages.
  unfold Verbose.handler, Verbose.call, Verbose.update, Verbose.read,
    handler, call, update, read.
  agree Hsay.
  destruct (ResearcherAgent.process _ _ _ _) as [[[e| |code|d]|r1] h1];
    agree Hsay.
  destruct (differs (ResearcherResult.status r1) "success"); agree Hsay.
  destruct (ReviewerAgent.process _ _ _ _) as [[[e| |code|d]|r2] h2];
    agree Hsay.
  destruct (differs (ReviewerResult.status r2) "success"); agree Hsay.
  destruct (SynthesizerAgent.process _ _ _ _) as [[[e| |code|d]|r3] h3];
    agree Hsay.
  destruct (differs (SynthesizerResult.status r3) "success"); agree Hsay.
  destruct (QuestionerAgent.process _ _ _ _) as [[[e| |code|d]|r4] h4];
    agree Hsay.
  destruct (differs (QuestionerResult.status r4) "success"); agree Hsay.
  destruct (FormatterAgent.process _ _ _ _) as [[[e| |code|d]|r5] h5];
    agree Hsay.
  destruct (differs (FormatterResult.status r5) "success"); agree Hsay.
Qed.

(** C8, as the code has it.  With [verbose] off, or on a console that
    takes every text, a run has the outcome and makes the calls of the run
    that prints nothing.  From that run no instance of [Exception] reaches
    the caller, whatever the collaborators do: when the stages raise one,
    the run returns the record the stages left, with status [error] and
    the description of the exception as its error; so it is when the first
    retrieval raises, which the Researcher does not catch.  If the
    collaborators raise instances of [Exception] only, the run returns a
    record, of status [success] or [error]. *)
Theorem run_never_raises
  (out : Console.t) (self : MultiAgentResearchSystem.t) (query : string)
  (verbose : bool) (h : history) (printed : list Console.text) :
  let quiet := run_research_workflow self query h in
  let loud :=
    Verbose.run_research_workflow out self query verbose (h, printed) in
  (verbose = false \/ accepts out ->
   fst loud = fst quiet /\ fst (snd loud) = snd quiet)
  /\ (forall b, fst quiet = inl b -> is_exception b = false)
  /\ (forall (e : Exception) s,
         stages self query (initial query, h) = (inl e, s) ->
         exists workflow_data,
           quiet = (inr workflow_data, snd s)
           /\ workflow_data
              = WorkflowData.set_error (str_exc e)
                  (WorkflowData.set_status "error" (fst s))
           /\ WorkflowData.status workflow_data = "error"
           /\ WorkflowData.error workflow_data = Some (str_exc e))
  /\ (forall e : Exception,
         answer_question (BaseAgent.rag_pipeline (researcher self)) h
           query 10 = inl e ->
         quiet
         = (inr (WorkflowData.Build_t query [] ResearcherResult.empty
                   ReviewerResult.empty SynthesizerResult.empty
                   QuestionerResult.empty FormatterResult.empty
                   "error" (Some (str_exc e)) None),
            h ++ [Retrieve query 10]))
  /\ (tame self ->
      exists workflow_data h',
        quiet = (inr workflow_data, h')
        /\ (WorkflowData.status workflow_data = "success"
            \/ WorkflowData.status workflow_data = "error")
        /\ (verbose = false \/ accepts out ->
            fst loud = inr workflow_data /\ fst (snd loud) = h')).
Proof.
  cbv zeta.
  assert (Hcaught : forall (e : Exception) s,
             stages self query (initial query, h) = (inl e, s) ->
             run_research_workflow self query h
             = (inr (WorkflowData.set_error (str_exc e)
                       (WorkflowData.set_status "error" (fst s))), snd s)).
  { intros e [d h1] Hs. unfold run_research_workflow.
    cbn [bind catch Monad_M MonadExc_M]. rewrite Hs.
    unfold handler, update, read. now cbn [bind Monad_M fst snd]. }
  split; [exact (verbose_run_agrees out self query verbose h printed)|].
  split; [|split; [|split]].
  - intros b. unfold run_research_workflow.
    cbn [bind catch Monad_M MonadExc_M].
    destruct (stages self query (initial query, h))
      as [[[e| |code|d]|[]] [d0 h1]];
      unfold handler, update, read; cbn [bind Monad_M fst snd];
      try discriminate; now intros [= <-].
  - intros e s Hs. eexists. split; [exact (Hcaught e s Hs)|].
    split; [reflexivity|]. now destruct s as [[] h1].
  - intros e Hcall. unfold run_research_workflow, stages. run_workflow.
    now rewrite (researcher_retrieval_raises _ _ _ _ Hcall).
  - intros Htame.
    destruct (stages self query (initial query, h)) as [[b|[]] [d0 h1]]
      eqn:Hs.
    + pose proof (tame_stages _ _ _ _ _ Htame Hs) as Hb.
      destruct b as [e| |code|d]; try discriminate Hb.
      eexists _, _. split; [exact (Hcaught e _ eq_refl)|].
      split; [right; now destruct d0|].
      intros Hquiet.
      destruct (verbose_run_agrees out self query verbose h printed Hquiet)
        as [-> ->].
      now rewrite (Hcaught e _ eq_refl).
    + assert (Hrun : run_research_workflow self query h = (inr d0, h1)).
      { unfold run_research_workflow.
        cbn [bind catch Monad_M MonadExc_M]. rewrite Hs.
        unfold read. now cbn [fst snd]. }
      exists d0, h1. split; [exact Hrun|].
      split; [exact (stages_settle _ _ _ _ Hs)|].
      intros Hquiet.
      destruct (verbose_run_agrees out self query verbose h printed Hquiet)
        as [-> ->].
      now rewrite Hrun.
Qed.

Lemma run_never_raises_witness :
  exists workflow_data,
    fst (Verbose.run_research_workflow plain_console
           (__init__ (constant_rag (inr three_sources))
              (constant_llm (inr "- X raises Y (a.pdf)"))
              (constant_llm (inl (Failure "quota exceeded")))
              (constant_llm (inr "Hypothesis 1")) (constant_llm (inr "Why?"))
              (constant_llm (inr "REPORT")))
           "effects of X on Y" true ([], []))
    = inr workflow_data
    /\ (WorkflowData.status workflow_data = "success"
        \/ WorkflowData.status workflow_data = "error").
Proof.
  assert (Htame :
            tame
              (__init__ (constant_rag (inr three_sources))
                 (constant_llm (inr "- X raises Y (a.pdf)"))
                 (constant_llm (inl (Failure "quota exceeded")))
                 (constant_llm (inr "Hypothesis 1"))
                 (constant_llm (inr "Why?")) (constant_llm (inr "REPORT")))).
  { repeat split; intros ? ? ? b; cbn; try discriminate.
    now intros [= <-]. }
  destruct
    (proj2 (proj2 (proj2 (proj2
       (run_never_raises plain_console
          (__init__ (constant_rag (inr three_sources))
             (constant_llm (inr "- X raises Y (a.pdf)"))
             (constant_llm (inl (Failure "quota exceeded")))
             (constant_llm (inr "Hypothesis 1")) (constant_llm (inr "Why?"))
             (constant_llm (inr "REPORT")))
          "effects of X on Y" true [] [])))) Htame)
    as (workflow_data & h' & _ & Hstatus & Hloud).
  exists workflow_data. split; [|exact Hstatus].
  apply Hloud. right. intros printed text. reflexivity.
Defined.

(** C8 as stated fails, in three ways.  The handlers are
    [except Exception]: a [KeyboardInterrupt] raised by a chat model
    passes the handler of the agent and the handler of the orchestrator,
    with [verbose] off as well.  With [verbose] on, the six lines printed
    before the [try] block are not guarded: on a console whose encoding is
    ASCII the line with the arrows raises and the run ends before any
    collaborator is called.  And the handler itself prints: on a console
    closed after seven texts the run that caught a failed retrieval raises
    from its handler. *)
Lemma run_lets_exceptions_pass :
  run_research_workflow
    (__init__ (constant_rag (inr three_sources))
       (constant_llm (inl KeyboardInterrupt))
       (constant_llm (inr "- Strengths"))
       (constant_llm (inr "Hypothesis 1")) (constant_llm (inr "Why?"))
       (constant_llm (inr "REPORT")))
    "effects of X on Y" []
  = (inl KeyboardInterrupt,
     [Retrieve "effects of X on Y" 10;
      Invoke ResearcherAgent.system_prompt
        (ResearcherAgent.user_prompt "effects of X on Y"
           "X raises Y in all three studies."
           (get_or (Context.sources three_sources) []))])
  /\ fst (Verbose.run_research_workflow plain_console
            (__init__ (constant_rag (inr three_sources))
               (constant_llm (inl KeyboardInterrupt))
               (constant_llm (inr "- Strengths"))
               (constant_llm (inr "Hypothesis 1")) (constant_llm (inr "Why?"))
               (constant_llm (inr "REPORT")))
            "effects of X on Y" false ([], []))
     = inl KeyboardInterrupt
  /\ (let outcome :=
        Verbose.run_research_workflow ascii_console
          (__init__ (constant_rag (inr three_sources))
             (constant_llm (inr "- X raises Y (a.pdf)"))
             (constant_llm (inr "- Strengths"))
             (constant_llm (inr "Hypothesis 1")) (constant_llm (inr "Why?"))
             (constant_llm (inr "REPORT")))
          "effects of X on Y" true ([], []) in
      fst outcome = inl (Failure "ordinal not in range(128)")
      /\ fst (snd outcome) = []
      /\ List.length (snd (snd outcome)) = 6)
  /\ (let outcome :=
        Verbose.run_research_workflow (closing_console 7)
          (__init__ (constant_rag (inl (Failure "index unavailable")))
             (constant_llm (inr "- X raises Y (a.pdf)"))
             (constant_llm (inr "- Strengths"))
             (constant_llm (inr "Hypothesis 1")) (constant_llm (inr "Why?"))
             (constant_llm (inr "REPORT")))
          "effects of X on Y" true ([], []) in
      fst outcome = inl (Failure "I/O operation on closed file.")
      /\ fst (snd outcome) = [Retrieve "effects of X on Y" 10]
      /\ List.length (snd (snd outcome)) = 8).
Proof. vm_compute. repeat split. Qed.
